(** * The persona mood engine: hormone adjustment, mood inference, mood history

    A shallow embedding of [persona/hormone_adjuster.py],
    [persona/mood_tracker.py] and the two classifier front ends of
    [persona/emotion_nsfw_checker.py], with the properties the specification
    states about them and further properties read off the code.

    Modelling conventions.
    - Python floats are modelled as exact rationals [Q]; a statement that a
      number "is" some decimal is stated with [==].  The comparisons the
      code makes are made on the exact values.  The code makes them on
      doubles, and the two can disagree when a computed difference lies
      within a rounding error of a threshold (0.35 - 0.2 < 0.15 holds in
      doubles); the statement on the archetypes, which needs the hybrid
      test to fail, keeps a [rounding_margin] away from the threshold.
    - Python [str] is modelled as [string]; [lower], [isupper], [split] and
      [strip] are the ASCII fragment of the Python methods.
    - A hormone record (a [dict] only read and written by key) is a
      [gmap string Q].  Dictionaries whose iteration order is observable
      (the pattern table, the weight table, the mood scores, the hormone
      deltas of a category) are association lists in insertion order.
    - The four JSON documents live in a [Store]; a document is missing,
      unreadable or holds a value of the shape the code itself writes.  A
      readable document of another shape, which this code never writes, is
      not a state of the store: what the code does on one (it can raise
      where it indexes or appends) is outside the statements made here.
      Each file has a flag telling whether a write to it succeeds and a
      second one telling, when it does not, whether it fails before the
      file is opened, leaving the document as it was, or after, leaving the
      file truncated and unreadable.
    - The clock and the random generator are oracles of the store.  Of the
      console output, the bracketed tags printed by the persistence layer
      are kept in [stdout]; the progress messages of the pure analysis
      functions are not modelled.
    - A Python exception that the code does not catch is a [Raise] result. *)

From Stdlib Require Import Ascii String QArith Qabs Qcanon Lqa.
From stdpp Require Import gmap strings list fin_maps pretty sorting.

Open Scope Q_scope.
Open Scope string_scope.

(** ** Numbers *)

Module Num.

(** [min(a, b)] of Python: [b] when [b < a], otherwise [a]. *)
Definition min (a b : Q) : Q := if Qlt_le_dec b a then b else a.

(** [max(a, b)] of Python: [b] when [b > a], otherwise [a]. *)
Definition max (a b : Q) : Q := if Qlt_le_dec a b then b else a.

(** [a < b] as a truth value. *)
Definition ltb (a b : Q) : bool := if Qlt_le_dec a b then true else false.

Definition of_nat (n : nat) : Q := inject_Z (Z.of_nat n).

Definition in_unit (x : Q) : Prop := 0 <= x /\ x <= 1.

Lemma min_le_l a b : min a b <= a.
Proof. unfold min. destruct (Qlt_le_dec b a); lra. Qed.

Lemma min_le_r a b : min a b <= b.
Proof. unfold min. destruct (Qlt_le_dec b a); lra. Qed.

Lemma min_glb a b c : c <= a -> c <= b -> c <= min a b.
Proof. unfold min. destruct (Qlt_le_dec b a); lra. Qed.

Lemma max_ge_l a b : a <= max a b.
Proof. unfold max. destruct (Qlt_le_dec a b); lra. Qed.

Lemma max_ge_r a b : b <= max a b.
Proof. unfold max. destruct (Qlt_le_dec a b); lra. Qed.

Lemma max_lub a b c : a <= c -> b <= c -> max a b <= c.
Proof. unfold max. destruct (Qlt_le_dec a b); lra. Qed.

(** The clamp [max(0.0, min(1.0, x))] lands in the unit interval. *)
Lemma clamp_in_unit x : in_unit (max 0 (min 1 x)).
Proof.
  split; [apply max_ge_l|].
  apply max_lub; [lra | apply min_le_l].
Qed.

Lemma half x : x / 2 == x * 0.5.
Proof. field. Qed.

Lemma ltb_true a b : ltb a b = true <-> a < b.
Proof. unfold ltb. destruct (Qlt_le_dec a b); split; (lra || congruence). Qed.

Lemma ltb_false a b : ltb a b = false <-> b <= a.
Proof. unfold ltb. destruct (Qlt_le_dec a b); split; (lra || congruence). Qed.

End Num.

(** ** Strings *)

Module PyStr.

Definition code (c : ascii) : nat := nat_of_ascii c.

Definition is_upper_char (c : ascii) : bool :=
  (65 <=? code c)%nat && (code c <=? 90)%nat.

Definition is_lower_char (c : ascii) : bool :=
  (97 <=? code c)%nat && (code c <=? 122)%nat.

(** The characters [str.split] and [str.strip] treat as blank. *)
Definition is_space_char (c : ascii) : bool :=
  ((9 <=? code c)%nat && (code c <=? 13)%nat)
  || ((28 <=? code c)%nat && (code c <=? 32)%nat).

Definition lower_char (c : ascii) : ascii :=
  if is_upper_char c then ascii_of_nat (code c + 32) else c.

(** [s.lower()] *)
Fixpoint lower (s : string) : string :=
  match s with
  | EmptyString => EmptyString
  | String c r => String (lower_char c) (lower r)
  end.

Fixpoint existsb_char (p : ascii -> bool) (s : string) : bool :=
  match s with
  | EmptyString => false
  | String c r => p c || existsb_char p r
  end.

(** [s.isupper()]: some cased character, and no lowercase one. *)
Definition isupper (s : string) : bool :=
  existsb_char is_upper_char s && negb (existsb_char is_lower_char s).

(** [s.count(c)] for a one-character [c]. *)
Fixpoint count (c : ascii) (s : string) : nat :=
  match s with
  | EmptyString => 0
  | String d r => (if Ascii.eqb c d then 1 else 0) + count c r
  end.

Fixpoint starts_with (p s : string) : bool :=
  match p, s with
  | EmptyString, _ => true
  | String _ _, EmptyString => false
  | String a p', String b s' => Ascii.eqb a b && starts_with p' s'
  end.

(** [p in s] *)
Fixpoint contains (p s : string) : bool :=
  starts_with p s ||
  match s with
  | EmptyString => false
  | String _ r => contains p r
  end.

Fixpoint lstrip (s : string) : string :=
  match s with
  | EmptyString => EmptyString
  | String c r => if is_space_char c then lstrip r else s
  end.

Fixpoint rstrip (s : string) : string :=
  match s with
  | EmptyString => EmptyString
  | String c r =>
      match rstrip r with
      | EmptyString => if is_space_char c then EmptyString else String c EmptyString
      | r' => String c r'
      end
  end.

(** [s.strip()] *)
Definition strip (s : string) : string := rstrip (lstrip s).

(** [split_go cur s]: the words of [s], [cur] being the word under way
    (its characters in reverse). *)
Fixpoint split_go (cur : list ascii) (s : string) : list string :=
  let flush (k : list string) :=
    match cur with
    | [] => k
    | _ => string_of_list_ascii (rev cur) :: k
    end in
  match s with
  | EmptyString => flush []
  | String c r =>
      if is_space_char c then flush (split_go [] r)
      else split_go (c :: cur) r
  end.

(** [s.split()]: the maximal runs of non-blank characters. *)
Definition split (s : string) : list string := split_go [] s.

(** [w in ws] for a list of strings. *)
Definition mem (w : string) (ws : list string) : bool :=
  existsb (String.eqb w) ws.

(** [len(set(ws))] *)
Definition distinct (ws : list string) : nat :=
  length (remove_dups ws).

End PyStr.

(** ** The sentiment analyzer *)

Record EmotionConfig := {
  patterns : list string;
  hormones : list (string * Q);
  base_intensity : Q
}.

Definition _EMOTION_PATTERNS : list (string * EmotionConfig) :=
  [ ("strong_negative",
     {| patterns := [" you"; "you suck"; "terrible"; "awful"; "worst";
                     "you're terrible"; "you're awful"];
        hormones := [("cortisol", 0.15); ("serotonin", -0.1); ("dopamine", -0.05)];
        base_intensity := 0.8 |});
    ("strong_positive",
     {| patterns := ["love you"; "i love you"; "amazing"; "wonderful"; "fantastic";
                     "best ever"; "you're amazing"; "you're wonderful"];
        hormones := [("dopamine", 0.15); ("serotonin", 0.1); ("oxytocin", 0.1)];
        base_intensity := 0.8 |});
    ("moderate_negative",
     {| patterns := ["you are bad"; "bad"; "not good"; "disappointed"; "annoyed";
                     "stupid"; "foolish"];
        hormones := [("cortisol", 0.08); ("serotonin", -0.05)];
        base_intensity := 0.6 |});
    ("moderate_positive",
     {| patterns := ["good"; "nice"; "like it"; "thanks"; "great"; "thank you"];
        hormones := [("dopamine", 0.08); ("serotonin", 0.05)];
        base_intensity := 0.6 |});
    ("affectionate",
     {| patterns := ["kiss"; "i kiss you"; "hug"; "cuddle"; "hold you"; "miss you";
                     "kiss you"];
        hormones := [("oxytocin", 0.12); ("dopamine", 0.06)];
        base_intensity := 0.7 |});
    ("playful",
     {| patterns := ["lets go"; "let's go"; "ride"; "play"; "fun"; "adventure";
                     "explore"; "lets go for a ride"];
        hormones := [("dopamine", 0.1); ("oxytocin", 0.05)];
        base_intensity := 0.6 |});
    ("offensive",
     {| patterns := ["dirty"; "nasty"; "disgusting"; "gross"];
        hormones := [("cortisol", 0.1); ("serotonin", -0.08)];
        base_intensity := 0.7 |}) ].

Definition profanity_words : list string := ["fuck"; "shit"; "damn"; "hell"].

(** The four contextual modifiers, each a factor applied to the running
    intensity. *)
Definition exclamation_factor (text : string) : Q :=
  let exclamation_count := PyStr.count "!"%char text in
  if (0 <? exclamation_count)%nat
  then 1 + 0.1 * Num.of_nat (Nat.min exclamation_count 3)
  else 1.

Definition caps_factor (text : string) : Q :=
  if PyStr.isupper text && (3 <? String.length text)%nat then 1.2 else 1.

Definition profanity_factor (text : string) : Q :=
  if existsb (fun word => PyStr.contains word (PyStr.lower text)) profanity_words
  then 1.3 else 1.

(** [len(words) > 1 and len(set(words)) < len(words) * 0.7] *)
Definition repetition_detected (words : list string) : bool :=
  (1 <? length words)%nat &&
  Num.ltb (Num.of_nat (PyStr.distinct words)) (Num.of_nat (length words) * 0.7).

Definition repetition_factor (text : string) : Q :=
  if repetition_detected (PyStr.split (PyStr.lower text)) then 1.15 else 1.

Definition calculate_contextual_intensity (text : string) (base : Q) : Q :=
  let intensity := base in
  let intensity := if (0 <? PyStr.count "!"%char text)%nat
                   then intensity * (1 + 0.1 * Num.of_nat (Nat.min (PyStr.count "!"%char text) 3))
                   else intensity in
  let intensity := if PyStr.isupper text && (3 <? String.length text)%nat
                   then intensity * 1.2 else intensity in
  let intensity := if existsb (fun word => PyStr.contains word (PyStr.lower text))
                                profanity_words
                   then intensity * 1.3 else intensity in
  let intensity := if repetition_detected (PyStr.split (PyStr.lower text))
                   then intensity * 1.15 else intensity in
  Num.min 1 intensity.

Record SentimentResult := {
  emotion_type : string;
  intensity : Q;
  hormone_adjustments : list (string * Q);
  confidence : Q;
  triggered_by : string;
  method : string
}.

Definition positive_words : list string :=
  ["good"; "great"; "awesome"; "happy"; "love"; "excellent"; "wonderful";
   "amazing"; "fantastic"; "brilliant"; "perfect"; "beautiful"; "nice";
   "enjoy"; "like"; "fun"; "exciting"; "yes"; "thank"; "thanks"; "sweet";
   "cool"; "best"; "super"; "fine"].

Definition negative_words : list string :=
  ["bad"; "terrible"; "sad"; "hate"; "awful"; "horrible"; "disappointed";
   "frustrated"; "angry"; "upset"; "annoyed"; "stressed"; "fuck"; "shit";
   "damn"; "stupid"; "foolish"; "no"; "don't"; "stop"; "worst"; "suck";
   "nasty"; "gross"; "disgusting"; "dirty"].

Definition count_in (lexicon words : list string) : nat :=
  length (filter (fun word => Is_true (PyStr.mem word lexicon)) words).

Definition _word_level_sentiment_analysis (text : string) : SentimentResult :=
  let words := PyStr.split text in
  let positive_count := count_in positive_words words in
  let negative_count := count_in negative_words words in
  if (0 <? positive_count)%nat && (negative_count <=? positive_count)%nat then
    {| emotion_type := "moderate_positive";
       intensity := Num.min 0.7 (0.4 + Num.of_nat positive_count * 0.1);
       hormone_adjustments := [("dopamine", 0.08); ("serotonin", 0.05)];
       confidence := 0.6;
       triggered_by := pretty positive_count +:+ " positive words";
       method := "word_analysis" |}
  else if (0 <? negative_count)%nat && (positive_count <? negative_count)%nat then
    {| emotion_type := "moderate_negative";
       intensity := Num.min 0.7 (0.4 + Num.of_nat negative_count * 0.1);
       hormone_adjustments := [("cortisol", 0.08); ("serotonin", -0.05)];
       confidence := 0.6;
       triggered_by := pretty negative_count +:+ " negative words";
       method := "word_analysis" |}
  else
    {| emotion_type := "neutral";
       intensity := 0.3;
       hormone_adjustments := [];
       confidence := 0.4;
       triggered_by := "no clear sentiment";
       method := "neutral_fallback" |}.

(** The first pattern of [ps] that occurs in [text_lower]. *)
Definition first_pattern (text_lower : string) (ps : list string) : option string :=
  List.find (fun pattern => PyStr.contains pattern text_lower) ps.

(** The nested loop over categories and their patterns: the first category,
    in table order, one of whose patterns occurs in the text. *)
Fixpoint first_match (text_lower : string) (table : list (string * EmotionConfig))
  : option (string * EmotionConfig * string) :=
  match table with
  | [] => None
  | (emotion, config) :: rest =>
      match first_pattern text_lower (patterns config) with
      | Some pattern => Some (emotion, config, pattern)
      | None => first_match text_lower rest
      end
  end.

Definition analyze_contextual_sentiment (text : string) : SentimentResult :=
  let text_lower := PyStr.strip (PyStr.lower text) in
  match first_match text_lower _EMOTION_PATTERNS with
  | Some (emotion, config, pattern) =>
      {| emotion_type := emotion;
         intensity := calculate_contextual_intensity text (base_intensity config);
         hormone_adjustments := hormones config;
         confidence := 0.9;
         triggered_by := pattern;
         method := "pattern_match" |}
  | None => _word_level_sentiment_analysis text_lower
  end.

(** ** Exceptions and results *)

Inductive exn :=
| KeyError (key : string)
| IndexError
| ValueError.

Inductive Result (A : Type) :=
| Ok (a : A)
| Raise (e : exn).
Arguments Ok {A} a.
Arguments Raise {A} e.

Definition returns {A} (r : Result A) : Prop := exists a, r = Ok a.

(** Sequencing of computations that may raise; [let! x := m in k] runs [m]
    and hands its value to [k], an exception of [m] ending the whole. *)
Class Monad (F : Type -> Type) := {
  ret : forall {A}, A -> F A;
  bind : forall {A B}, F A -> (A -> F B) -> F B
}.

Notation "'let!' x := m 'in' k" := (bind m (fun x => k))
  (at level 10, x name, m at level 100, k at level 200).

#[export] Instance Result_monad : Monad Result := {
  ret A a := Ok a;
  bind A B r k :=
    match r with
    | Ok a => k a
    | Raise e => Raise e
    end
}.

(** ** The mood inference engine *)

Abbreviation HormoneRecord := (gmap string Q).
Abbreviation MoodWeights := (list (string * list (string * Q))).
Abbreviation MoodScores := (list (string * Q)).

Definition record_of (l : list (string * Q)) : HormoneRecord := list_to_map l.

Definition _DEFAULT_HORMONES : HormoneRecord :=
  record_of [("dopamine", 0.5); ("serotonin", 0.5); ("cortisol", 0.5); ("oxytocin", 0.5)].

Definition _DEFAULT_MOOD_WEIGHTS : MoodWeights :=
  [ ("cheerful", [("dopamine", 0.7); ("serotonin", 0.3)]);
    ("anxious", [("cortisol", 0.8); ("dopamine", -0.3)]);
    ("affectionate", [("oxytocin", 0.9)]);
    ("depressed", [("serotonin", -0.5); ("cortisol", 0.6)]);
    ("excited", [("dopamine", 0.8); ("cortisol", 0.2)]);
    ("melancholic", [("serotonin", -0.4); ("dopamine", -0.2)]);
    ("energetic", [("dopamine", 0.6); ("serotonin", 0.4)]);
    ("contemplative", [("serotonin", 0.3); ("cortisol", -0.2)]);
    ("restless", [("cortisol", 0.5); ("dopamine", 0.3)]);
    ("serene", [("serotonin", 0.8); ("cortisol", -0.4)]) ].

(** [hormone_levels.get(hormone, 0.5)] *)
Definition level (hormone_levels : HormoneRecord) (hormone : string) : Q :=
  default 0.5 (hormone_levels !! hormone).

Definition mood_score (hormone_levels : HormoneRecord) (weights : list (string * Q)) : Q :=
  fold_left (fun score hw => score + level hormone_levels hw.1 * hw.2) weights 0.

Definition calculate_mood_scores (hormone_levels : HormoneRecord)
    (mood_weights : MoodWeights) : MoodScores :=
  map (fun mw => (mw.1, mood_score hormone_levels mw.2)) mood_weights.

(** [sorted(mood_scores.items(), key=lambda x: abs(x[1]), reverse=True)]:
    a stable sort, an entry staying ahead of the later entries of the same
    absolute score. *)
Fixpoint insert_ranked (x : string * Q) (l : MoodScores) : MoodScores :=
  match l with
  | [] => [x]
  | y :: r =>
      if Qlt_le_dec (Qabs x.2) (Qabs y.2) then y :: insert_ranked x r
      else x :: y :: r
  end.

Definition sorted_moods (mood_scores : MoodScores) : MoodScores :=
  foldr insert_ranked [] mood_scores.

(** [max(xs)]: the first greatest element; [ValueError] on no element. *)
Definition max_of (xs : list Q) : Result Q :=
  match xs with
  | [] => Raise ValueError
  | x :: r => Ok (fold_left Num.max r x)
  end.

Definition hybrid_name (top_mood : string) (top_score : Q)
    (second_mood : string) (second_score : Q) : string :=
  if Num.ltb 0 top_score && Num.ltb 0 second_score
  then second_mood +:+ "-" +:+ top_mood
  else if Num.ltb top_score 0 && Num.ltb second_score 0
  then "conflicted-" +:+ top_mood
  else "bittersweet-" +:+ (if Num.ltb 0 top_score then top_mood else second_mood).

(** The archetype overrides and the defined state that follows them. *)
Definition archetype_or_defined (hormone_levels : HormoneRecord)
    (top_mood : string) (top_score : Q) : bool * string * Q :=
  let dopamine := level hormone_levels "dopamine" in
  let cortisol := level hormone_levels "cortisol" in
  let serotonin := level hormone_levels "serotonin" in
  let oxytocin := level hormone_levels "oxytocin" in
  if Num.ltb 0.7 dopamine && Num.ltb 0.7 cortisol
  then (true, "manic-energy", (dopamine + cortisol) / 2)
  else if Num.ltb serotonin 0.3 && Num.ltb 0.7 oxytocin
  then (true, "melancholic-affection", (oxytocin + (1 - serotonin)) / 2)
  else if forallb (fun l => Num.ltb 0.8 l)
                  [dopamine; cortisol; serotonin; oxytocin]
  then (true, "overwhelmed", 0.9)
  else if forallb (fun l => Num.ltb l 0.2)
                  [dopamine; cortisol; serotonin; oxytocin]
  then (true, "numb", 0.8)
  else (false, top_mood, Qabs top_score).

Definition detect_undefined_mood_state (mood_scores : MoodScores)
    (hormone_levels : HormoneRecord) (threshold : Q) : Result (bool * string * Q) :=
  match sorted_moods mood_scores with
  | [] => Raise IndexError
  | [(mood, score)] => Ok (false, mood, Qabs score)
  | (top_mood, top_score) :: (second_mood, second_score) :: _ =>
      if Qlt_le_dec (Qabs (Qabs top_score - Qabs second_score)) threshold then
        Ok (true, hybrid_name top_mood top_score second_mood second_score,
            Num.min 1 ((Qabs top_score + Qabs second_score) / 2))
      else
        let! max_abs_score := max_of (map (fun ms => Qabs ms.2) mood_scores) in
        if Qlt_le_dec max_abs_score 0.2
        then Ok (true, "undefined-neutral", max_abs_score)
        else Ok (archetype_or_defined hormone_levels top_mood top_score)
  end.

(** The default threshold of [detect_undefined_mood_state]. *)
Definition default_threshold : Q := 0.15.

Definition emergent_prefixes (hormone_levels : HormoneRecord) : list string :=
  let dopamine := level hormone_levels "dopamine" in
  let cortisol := level hormone_levels "cortisol" in
  let serotonin := level hormone_levels "serotonin" in
  let oxytocin := level hormone_levels "oxytocin" in
  (if Qlt_le_dec 0.6 cortisol then ["tense"]
   else if Qlt_le_dec cortisol 0.3 then ["relaxed"] else [])
  ++ (if Qlt_le_dec 0.7 dopamine then ["energetic"]
      else if Qlt_le_dec dopamine 0.3 then ["lethargic"] else [])
  ++ (if Qlt_le_dec 0.7 oxytocin then ["warm"]
      else if Qlt_le_dec oxytocin 0.3 then ["distant"] else [])
  ++ (if Qlt_le_dec 0.7 serotonin then ["balanced"]
      else if Qlt_le_dec serotonin 0.3 then ["unstable"] else []).

(** The mood of greatest absolute score in table order, starting from
    ["neutral"] at score 0 (the loop of [infer_mood_from_hormones]). *)
Definition best_of (mood_scores : MoodScores) : string * Q :=
  fold_left (fun best ms => if Qlt_le_dec (Qabs best.2) (Qabs ms.2) then ms else best)
            mood_scores ("neutral", 0).

Definition get_mood_context_is_hybrid (mood_name : string) : bool :=
  PyStr.contains "-" mood_name && negb (PyStr.mem mood_name ["well-being"; "self-esteem"]).

Definition get_mood_context_is_emergent (mood_name : string) : bool :=
  existsb (fun prefix => PyStr.contains prefix mood_name)
          ["undefined"; "manic"; "melancholic"; "overwhelmed"; "numb"].

Definition get_mood_context_stability (intensity : Q) : string :=
  if Qlt_le_dec 0.8 intensity then "low"
  else if Qlt_le_dec 0.4 intensity then "medium" else "high".

(** ** The state store *)

(** A JSON document on disk: absent, present but not parseable, or holding
    a value of the type the code writes there. *)
Inductive doc (A : Type) :=
| Missing
| Malformed
| Content (a : A).
Arguments Missing {A}.
Arguments Malformed {A}.
Arguments Content {A} a.

Inductive File :=
| HORMONES_FILE
| MOOD_WEIGHTS_FILE
| MOOD_ADJUSTMENTS_FILE
| MOOD_HISTORY_FILE.

(** The context dictionary of a mood: the keys the code writes and reads,
    each possibly absent from a dictionary handed in by a caller. *)
Module Context.
Record t := {
  mood : option string;
  intensity : option Q;
  is_hybrid : option bool;
  is_emergent : option bool;
  stability : option string
}.
End Context.

Module MoodData.
Record t := {
  current_mood : string;
  intensity : Q;
  context : Context.t;
  last_updated : string
}.
End MoodData.

Module Entry.
Record t := {
  timestamp : string;
  mood : string;
  intensity : Q;
  reason : string;
  is_hybrid : bool;
  is_emergent : bool;
  stability : string;
  hormone_snapshot : option HormoneRecord
}.
End Entry.

Record Store := {
  hormones_json : doc HormoneRecord;
  mood_weights_json : doc MoodWeights;
  mood_adjustments_json : doc MoodData.t;
  mood_history_json : doc (list Entry.t);
  (** Whether a write to the file goes through, and, when it does not,
      whether it fails only after [open(..., "w")] has truncated the file
      (the dump or the flush fails) rather than before (the directory or the
      open fails). *)
  writable : File -> bool;
  truncates : File -> bool;
  (** [clock n] is what the [n]-th call of [datetime.utcnow().isoformat()]
      returns; [ticks] counts the calls made. *)
  clock : nat -> string;
  ticks : nat;
  (** The [n]-th draw of the random generator, as [random.random()] and as
      the index behind [random.choice]; [draws] counts the draws made. *)
  random_floats : nat -> Q;
  random_picks : nat -> nat;
  draws : nat;
  stdout : list string
}.

Definition set_hormones_json (d : doc HormoneRecord) (s : Store) : Store :=
  {| hormones_json := d; mood_weights_json := mood_weights_json s;
     mood_adjustments_json := mood_adjustments_json s;
     mood_history_json := mood_history_json s; writable := writable s;
     truncates := truncates s;
     clock := clock s; ticks := ticks s; random_floats := random_floats s;
     random_picks := random_picks s; draws := draws s; stdout := stdout s |}.

Definition set_mood_weights_json (d : doc MoodWeights) (s : Store) : Store :=
  {| hormones_json := hormones_json s; mood_weights_json := d;
     mood_adjustments_json := mood_adjustments_json s;
     mood_history_json := mood_history_json s; writable := writable s;
     truncates := truncates s;
     clock := clock s; ticks := ticks s; random_floats := random_floats s;
     random_picks := random_picks s; draws := draws s; stdout := stdout s |}.

Definition set_mood_adjustments_json (d : doc MoodData.t) (s : Store) : Store :=
  {| hormones_json := hormones_json s; mood_weights_json := mood_weights_json s;
     mood_adjustments_json := d;
     mood_history_json := mood_history_json s; writable := writable s;
     truncates := truncates s;
     clock := clock s; ticks := ticks s; random_floats := random_floats s;
     random_picks := random_picks s; draws := draws s; stdout := stdout s |}.

Definition set_mood_history_json (d : doc (list Entry.t)) (s : Store) : Store :=
  {| hormones_json := hormones_json s; mood_weights_json := mood_weights_json s;
     mood_adjustments_json := mood_adjustments_json s;
     mood_history_json := d; writable := writable s;
     truncates := truncates s;
     clock := clock s; ticks := ticks s; random_floats := random_floats s;
     random_picks := random_picks s; draws := draws s; stdout := stdout s |}.

Definition set_ticks (n : nat) (s : Store) : Store :=
  {| hormones_json := hormones_json s; mood_weights_json := mood_weights_json s;
     mood_adjustments_json := mood_adjustments_json s;
     mood_history_json := mood_history_json s; writable := writable s;
     truncates := truncates s;
     clock := clock s; ticks := n; random_floats := random_floats s;
     random_picks := random_picks s; draws := draws s; stdout := stdout s |}.

Definition set_draws (n : nat) (s : Store) : Store :=
  {| hormones_json := hormones_json s; mood_weights_json := mood_weights_json s;
     mood_adjustments_json := mood_adjustments_json s;
     mood_history_json := mood_history_json s; writable := writable s;
     truncates := truncates s;
     clock := clock s; ticks := ticks s; random_floats := random_floats s;
     random_picks := random_picks s; draws := n; stdout := stdout s |}.

Definition set_stdout (l : list string) (s : Store) : Store :=
  {| hormones_json := hormones_json s; mood_weights_json := mood_weights_json s;
     mood_adjustments_json := mood_adjustments_json s;
     mood_history_json := mood_history_json s; writable := writable s;
     truncates := truncates s;
     clock := clock s; ticks := ticks s; random_floats := random_floats s;
     random_picks := random_picks s; draws := draws s; stdout := l |}.

(** A handle on one document of the store. *)
Record FileRef (A : Type) := {
  file_id : File;
  get_doc : Store -> doc A;
  set_doc : doc A -> Store -> Store
}.
Arguments file_id {A} f.
Arguments get_doc {A} f s.
Arguments set_doc {A} f d s.

Definition hormones_ref : FileRef HormoneRecord :=
  {| file_id := HORMONES_FILE; get_doc := hormones_json; set_doc := set_hormones_json |}.
Definition mood_weights_ref : FileRef MoodWeights :=
  {| file_id := MOOD_WEIGHTS_FILE; get_doc := mood_weights_json;
     set_doc := set_mood_weights_json |}.
Definition mood_adjustments_ref : FileRef MoodData.t :=
  {| file_id := MOOD_ADJUSTMENTS_FILE; get_doc := mood_adjustments_json;
     set_doc := set_mood_adjustments_json |}.
Definition mood_history_ref : FileRef (list Entry.t) :=
  {| file_id := MOOD_HISTORY_FILE; get_doc := mood_history_json;
     set_doc := set_mood_history_json |}.

(** ** Computations over the store *)

Definition M (A : Type) : Type := Store -> Result A * Store.

#[export] Instance M_monad : Monad M := {
  ret A a := fun s => (Ok a, s);
  bind A B m k := fun s =>
    match m s with
    | (Ok a, s') => k a s'
    | (Raise e, s') => (Raise e, s')
    end
}.

(** A raising pure computation, run in the store. *)
Definition lift {A} (r : Result A) : M A := fun s => (r, s).

Definition pass : M unit := ret ().

Definition print (tag : string) : M unit :=
  fun s => (Ok (), set_stdout (stdout s ++ [tag]) s).

(** [file_path.exists()] *)
Definition file_exists {A} (f : FileRef A) : M bool :=
  fun s => (Ok (match get_doc f s with Missing => false | _ => true end), s).

(** The body of a [try] that opens the file and parses it: the value read,
    or nothing when an exception was raised. *)
Definition try_read {A} (f : FileRef A) : M (option A) :=
  fun s => (Ok (match get_doc f s with Content a => Some a | _ => None end), s).

(** The body of a [try] that opens the file for writing and dumps [a]:
    whether it went through.  A write that fails before the file is opened
    leaves the document as it was; one that fails after [open(..., "w")]
    leaves the file truncated, holding at most a proper prefix of the JSON
    text, which no later read can parse. *)
Definition try_write {A} (f : FileRef A) (a : A) : M bool :=
  fun s => if writable s (file_id f) then (Ok true, set_doc f (Content a) s)
           else if truncates s (file_id f) then (Ok false, set_doc f Malformed s)
           else (Ok false, s).

(** [datetime.utcnow().isoformat()] *)
Definition utcnow : M string :=
  fun s => (Ok (clock s (ticks s)), set_ticks (S (ticks s)) s).

(** [random.random()] *)
Definition random_random : M Q :=
  fun s => (Ok (random_floats s (draws s)), set_draws (S (draws s)) s).

(** [random.choice(xs)] for a non-empty [xs]; [IndexError] on an empty one. *)
Definition random_choice (xs : list string) : M string :=
  fun s =>
    match xs !! (random_picks s (draws s) mod length xs)%nat with
    | Some x => (Ok x, set_draws (S (draws s)) s)
    | None => (Raise IndexError, s)
    end.

Definition _ensure_file {A} (f : FileRef A) (default_data : A) : M unit :=
  let! present := file_exists f in
  if present then pass
  else
    let! written := try_write f default_data in
    if written then print "[autocreate]" else print "[autocreate error]".

Definition load_hormone_levels : M HormoneRecord :=
  let! _ := _ensure_file hormones_ref _DEFAULT_HORMONES in
  let! loaded := try_read hormones_ref in
  match loaded with
  | Some levels => ret levels
  | None => let! _ := print "[Hormone load error]" in ret _DEFAULT_HORMONES
  end.

Definition save_hormone_levels (levels : HormoneRecord) : M unit :=
  let! written := try_write hormones_ref levels in
  if written then print "[Hormone Save]" else print "[Hormone save error]".

Definition load_mood_weights : M MoodWeights :=
  let! _ := _ensure_file mood_weights_ref _DEFAULT_MOOD_WEIGHTS in
  let! loaded := try_read mood_weights_ref in
  match loaded with
  | Some weights => ret weights
  | None => let! _ := print "[Mood weights load error]" in ret _DEFAULT_MOOD_WEIGHTS
  end.

(** ** The hormone engine *)

(** One step of the homeostatic decay, on one level. *)
Definition decay_level (h : Q) : Q :=
  if Qlt_le_dec 0.5 h then Num.max 0.5 (h - 0.01)
  else if Qlt_le_dec h 0.5 then Num.min 0.5 (h + 0.01)
  else h.

(** The decay loop, [for hormone in hormones: ...]. *)
Definition decay (hormones : HormoneRecord) : HormoneRecord :=
  decay_level <$> hormones.

(** [hormones[hormone] = f(hormones[hormone])], the read raising
    [KeyError] on a hormone the record does not hold. *)
Definition update_level (hormone : string) (f : Q -> Q) (hormones : HormoneRecord)
  : Result HormoneRecord :=
  match hormones !! hormone with
  | Some old => Ok (<[hormone := f old]> hormones)
  | None => Raise (KeyError hormone)
  end.

(** The loop over [analysis["hormone_adjustments"].items()]. *)
Fixpoint apply_adjustments (adjustments : list (string * Q)) (intensity_multiplier : Q)
    (hormones : HormoneRecord) : Result HormoneRecord :=
  match adjustments with
  | [] => Ok hormones
  | (hormone, base_adjustment) :: rest =>
      let scaled_adjustment := base_adjustment * intensity_multiplier in
      let! hormones :=
        update_level hormone
          (fun old => Num.max 0 (Num.min 1 (old + scaled_adjustment))) hormones in
      apply_adjustments rest intensity_multiplier hormones
  end.

Definition apply_contextual_hormone_adjustments (text : string) : M HormoneRecord :=
  let analysis := analyze_contextual_sentiment text in
  match hormone_adjustments analysis with
  | _ :: _ =>
      let! hormones := load_hormone_levels in
      let! hormones :=
        lift (apply_adjustments (hormone_adjustments analysis) (intensity analysis)
                                hormones) in
      let hormones := decay hormones in
      let! _ := save_hormone_levels hormones in
      ret hormones
  | [] => load_hormone_levels
  end.

(** The branch of [adjust_hormones] taken for [event]. *)
Definition apply_event (event : option string) (hormones : HormoneRecord)
  : Result HormoneRecord :=
  if decide (event = Some "positive_feedback") then
    let! hormones := update_level "dopamine" (fun old => Num.min 1 (old + 0.1)) hormones in
    update_level "serotonin" (fun old => Num.min 1 (old + 0.05)) hormones
  else if decide (event = Some "stress") then
    let! hormones := update_level "cortisol" (fun old => Num.min 1 (old + 0.1)) hormones in
    update_level "serotonin" (fun old => Num.max 0 (old - 0.05)) hormones
  else if decide (event = Some "social_connection") then
    let! hormones := update_level "oxytocin" (fun old => Num.min 1 (old + 0.1)) hormones in
    update_level "dopamine" (fun old => Num.min 1 (old + 0.05)) hormones
  else if decide (event = Some "isolation") then
    let! hormones := update_level "oxytocin" (fun old => Num.max 0 (old - 0.1)) hormones in
    update_level "cortisol" (fun old => Num.min 1 (old + 0.05)) hormones
  else if decide (event = Some "achievement") then
    let! hormones := update_level "dopamine" (fun old => Num.min 1 (old + 0.15)) hormones in
    update_level "serotonin" (fun old => Num.min 1 (old + 0.1)) hormones
  else if decide (event = Some "disappointment") then
    let! hormones := update_level "dopamine" (fun old => Num.max 0 (old - 0.1)) hormones in
    update_level "serotonin" (fun old => Num.max 0 (old - 0.08)) hormones
  else Ok hormones.

Definition adjust_hormones (event : option string) : M HormoneRecord :=
  let! hormones := load_hormone_levels in
  let! hormones := lift (apply_event event hormones) in
  let hormones := decay hormones in
  let! _ := save_hormone_levels hormones in
  ret hormones.

(** The legacy events that adjust hormones, with the hormones each adjusts. *)
Definition legacy_events : list (string * list string) :=
  [ ("positive_feedback", ["dopamine"; "serotonin"]);
    ("stress", ["cortisol"; "serotonin"]);
    ("social_connection", ["oxytocin"; "dopamine"]);
    ("isolation", ["oxytocin"; "cortisol"]);
    ("achievement", ["dopamine"; "serotonin"]);
    ("disappointment", ["dopamine"; "serotonin"]) ].

(** ** Mood inference over the store *)

Definition generate_emergent_mood_variations (base_mood : string)
    (hormone_levels : HormoneRecord) : M string :=
  let prefixes := emergent_prefixes hormone_levels in
  match prefixes with
  | [] => ret base_mood
  | _ :: _ =>
      let! r := random_random in
      if Qlt_le_dec 0.5 r then
        let! prefix := random_choice prefixes in
        ret (prefix +:+ "-" +:+ base_mood)
      else ret base_mood
  end.

Definition infer_mood_from_hormones (hormone_levels : HormoneRecord)
    (mood_weights : MoodWeights) : M (string * Q) :=
  let mood_scores := calculate_mood_scores hormone_levels mood_weights in
  let! detected := lift (detect_undefined_mood_state mood_scores hormone_levels
                                                     default_threshold) in
  let '(is_undefined, mood_name, intensity) := detected in
  if is_undefined then ret (mood_name, Num.max 0 (Num.min 1 intensity))
  else
    let '(best_mood, best_score) := best_of mood_scores in
    let! final_mood := generate_emergent_mood_variations best_mood hormone_levels in
    ret (final_mood, Num.max 0 (Num.min 1 (Qabs best_score))).

Definition get_mood_context (mood_name : string) (intensity : Q) : Context.t :=
  {| Context.mood := Some mood_name;
     Context.intensity := Some intensity;
     Context.is_hybrid := Some (get_mood_context_is_hybrid mood_name);
     Context.is_emergent := Some (get_mood_context_is_emergent mood_name);
     Context.stability := Some (get_mood_context_stability intensity) |}.

(** ** The mood recorder *)

Definition load_mood_history : M (list Entry.t) :=
  let! present := file_exists mood_history_ref in
  if present then
    let! loaded := try_read mood_history_ref in
    match loaded with
    | Some history => ret history
    | None => let! _ := print "[Mood history load error]" in ret []
    end
  else
    let! written := try_write mood_history_ref [] in
    let! _ := (if written then print "[Mood History]"
               else print "[Mood history init error]") in
    ret [].

Definition save_mood_history (history : list Entry.t) : M unit :=
  let! written := try_write mood_history_ref history in
  if written then pass else print "[Mood history save error]".

(** [history[-n:]] for a positive [n]. *)
Definition last_n {A} (n : nat) (l : list A) : list A :=
  drop (length l - n) l.

(** [if len(history) > 100: history = history[-100:]] *)
Definition trim {A} (history : list A) : list A :=
  if (100 <? length history)%nat then last_n 100 history else history.

Definition wants_snapshot (reason : string) : bool :=
  negb (String.eqb reason "") &&
  (PyStr.contains "contextual" reason || PyStr.contains "hormone_event" reason).

Definition update_mood (new_mood : string) (intensity : Q) (reason : string)
    (hormone_context : option Context.t) : M unit :=
  let hormone_context :=
    match hormone_context with
    | None => get_mood_context new_mood intensity
    | Some context => context
    end in
  let! now := utcnow in
  let mood_data :=
    {| MoodData.current_mood := new_mood;
       MoodData.intensity := intensity;
       MoodData.context := hormone_context;
       MoodData.last_updated := now |} in
  let! written := try_write mood_adjustments_ref mood_data in
  if negb written then print "[Mood update error]"
  else
    let! history := load_mood_history in
    let! now := utcnow in
    let! snapshot :=
      (if wants_snapshot reason
       then let! levels := load_hormone_levels in ret (Some levels)
       else ret None) in
    let history_entry :=
      {| Entry.timestamp := now;
         Entry.mood := new_mood;
         Entry.intensity := intensity;
         Entry.reason := reason;
         Entry.is_hybrid := default false (Context.is_hybrid hormone_context);
         Entry.is_emergent := default false (Context.is_emergent hormone_context);
         Entry.stability := default "medium" (Context.stability hormone_context);
         Entry.hormone_snapshot := snapshot |} in
    let history := trim (history ++ [history_entry]) in
    let! _ := save_mood_history history in
    print "[Mood Update]".

Definition update_mood_from_hormones (reason : string) : M (string * Q * Context.t) :=
  let! hormone_levels := load_hormone_levels in
  let! mood_weights := load_mood_weights in
  let! inferred := infer_mood_from_hormones hormone_levels mood_weights in
  let '(mood, intensity) := inferred in
  let context := get_mood_context mood intensity in
  let! _ := update_mood mood intensity reason (Some context) in
  ret (mood, intensity, context).

(** [get_current_mood]: the stored snapshot, or a neutral one stamped with
    the current time when the document cannot be read. *)
Definition get_current_mood : M MoodData.t :=
  let! loaded := try_read mood_adjustments_ref in
  match loaded with
  | Some mood_data => ret mood_data
  | None =>
      let! _ := print "[Current mood load error]" in
      let! now := utcnow in
      ret {| MoodData.current_mood := "neutral";
             MoodData.intensity := 0.5;
             MoodData.context :=
               {| Context.mood := None;
                  Context.intensity := None;
                  Context.is_hybrid := Some false;
                  Context.is_emergent := Some false;
                  Context.stability := Some "medium" |};
             MoodData.last_updated := now |}
  end.

(** [f"{event}"] for an event that may be [None]. *)
Definition event_text (event : option string) : string := default "None" event.

Definition handle_event_and_update_mood (event : option string)
  : M (string * Q * Context.t * HormoneRecord) :=
  let! new_hormones := adjust_hormones event in
  let! updated := update_mood_from_hormones ("hormone_event:" +:+ event_text event) in
  let '(mood, intensity, context) := updated in
  ret (mood, intensity, context, new_hormones).

Definition apply_sentiment_to_mood (conversation_text : string)
  : M (string * Q * Context.t) :=
  let! new_hormones := apply_contextual_hormone_adjustments conversation_text in
  update_mood_from_hormones "contextual_analysis".

Definition emotion_to_event : list (string * string) :=
  [ ("strong_negative", "stress");
    ("moderate_negative", "stress");
    ("offensive", "stress");
    ("strong_positive", "positive_feedback");
    ("moderate_positive", "positive_feedback");
    ("affectionate", "social_connection");
    ("playful", "positive_feedback");
    ("neutral", "neutral_interaction") ].

(** [d.get(key, fallback)] on an association list. *)
Definition get_or (d : list (string * string)) (key fallback : string) : string :=
  match List.find (fun kv => String.eqb kv.1 key) d with
  | Some kv => kv.2
  | None => fallback
  end.

Definition analyze_conversation_sentiment (conversation_text : string) : string :=
  let analysis := analyze_contextual_sentiment conversation_text in
  get_or emotion_to_event (emotion_type analysis) "neutral_interaction".

Definition force_mood_recalculation : M (string * Q * Context.t) :=
  update_mood_from_hormones "manual_recalculation".

Module Summary.
Record t := {
  current_state : MoodData.t;
  hormone_levels : HormoneRecord;
  recent_moods : list string;
  hybrid_states_count : nat;
  emergent_states_count : nat;
  total_mood_changes : nat;
  has_undefined_states : bool;
  mood_volatility : string
}.
End Summary.

Definition get_mood_summary : M Summary.t :=
  let! current_mood_data := get_current_mood in
  let! hormone_levels := load_hormone_levels in
  let! history := load_mood_history in
  let recent_moods := map Entry.mood (last_n 10 history) in
  let hybrid_count := length (filter (fun e => Is_true (Entry.is_hybrid e)) (last_n 20 history)) in
  let emergent_count :=
    length (filter (fun e => Is_true (Entry.is_emergent e)) (last_n 20 history)) in
  ret {| Summary.current_state := current_mood_data;
         Summary.hormone_levels := hormone_levels;
         Summary.recent_moods := recent_moods;
         Summary.hybrid_states_count := hybrid_count;
         Summary.emergent_states_count := emergent_count;
         Summary.total_mood_changes := length history;
         Summary.has_undefined_states :=
           (0 <? hybrid_count)%nat || (0 <? emergent_count)%nat;
         Summary.mood_volatility :=
           if (6 <? PyStr.distinct recent_moods)%nat then "high"
           else if (3 <? PyStr.distinct recent_moods)%nat then "medium"
           else "low" |}.

(** ** The classifier front end ([emotion_nsfw_checker.py]) *)

Record LabelScore := {
  label : string;
  score : Q
}.

(** [sorted(rs, key=lambda x: -x["score"])]: a stable sort, highest score
    first. *)
Fixpoint insert_by_score (x : LabelScore) (l : list LabelScore) : list LabelScore :=
  match l with
  | [] => [x]
  | y :: r =>
      if Qlt_le_dec (- score y) (- score x) then y :: insert_by_score x r
      else x :: y :: r
  end.

Definition sorted_by_score (rs : list LabelScore) : list LabelScore :=
  foldr insert_by_score [] rs.

Section Classifiers.

(** The two text-classification pipelines, which hand back one list of
    scored labels per input text. *)
Variable goemotions : string -> list (list LabelScore).
Variable toxicity_detector : string -> list (list LabelScore).

(** [pipeline(text)[0]] *)
Definition first_result (outputs : list (list LabelScore)) : Result (list LabelScore) :=
  match outputs with
  | [] => Raise IndexError
  | results :: _ => Ok results
  end.

Definition detect_emotion (text : string) : Result (list LabelScore) :=
  let! results := first_result (goemotions text) in
  let emotions := List.filter (fun r => Num.ltb 0.2 (score r)) results in
  ret (sorted_by_score emotions).

Definition detect_toxicity (text : string) : Result (list LabelScore) :=
  let! results := first_result (toxicity_detector text) in
  let toxic_labels := List.filter (fun r => Num.ltb 0.5 (score r)) results in
  ret (sorted_by_score toxic_labels).

End Classifiers.

(** * Properties *)

(** ** The sentiment analyzer *)

Section Substrings.

Lemma starts_with_contains p s : PyStr.starts_with p s = true -> PyStr.contains p s = true.
Proof. destruct s; simpl; intros ->; reflexivity. Qed.

Lemma contains_later p c s : PyStr.contains p s = true -> PyStr.contains p (String c s) = true.
Proof. simpl. intros ->. apply orb_true_r. Qed.

(** A text that holds [c :: p] holds [p]. *)
Lemma contains_drop_first c p s :
  PyStr.contains (String c p) s = true -> PyStr.contains p s = true.
Proof.
  induction s as [|b s IH]; [discriminate|].
  cbn [PyStr.contains]. intros [H|H]%orb_true_iff.
  - cbn [PyStr.starts_with] in H. apply andb_true_iff in H as [_ H].
    apply contains_later, starts_with_contains, H.
  - apply contains_later, IH, H.
Qed.

(** A text that holds [p ++ q] holds [q]. *)
Lemma contains_suffix p q s :
  PyStr.contains (p +:+ q) s = true -> PyStr.contains q s = true.
Proof.
  induction p as [|c p IH]; simpl; [tauto|].
  intros H. apply IH. eapply contains_drop_first, H.
Qed.

End Substrings.

(** The pattern [" you"] of the first category hides every later pattern
    that ends in it: a text holding ["love you"] is a strong_negative one. *)
Lemma love_you_is_shadowed (text_lower : string) :
  PyStr.contains "love you" text_lower = true ->
  exists config,
    first_match text_lower _EMOTION_PATTERNS = Some ("strong_negative", config, " you").
Proof.
  intros H. apply (contains_suffix "love" " you") in H.
  eexists. unfold _EMOTION_PATTERNS.
  cbn [first_match patterns first_pattern List.find]. rewrite H. reflexivity.
Qed.

(** The categories are tried in table order, the first one with a matching
    pattern winning. *)
Lemma first_match_cons text_lower emotion config rest :
  first_match text_lower ((emotion, config) :: rest) =
  match first_pattern text_lower (patterns config) with
  | Some pattern => Some (emotion, config, pattern)
  | None => first_match text_lower rest
  end.
Proof. reflexivity. Qed.

Lemma category_order :
  map fst _EMOTION_PATTERNS =
  ["strong_negative"; "strong_positive"; "moderate_negative"; "moderate_positive";
   "affectionate"; "playful"; "offensive"].
Proof. reflexivity. Qed.

(** C1. On ["I love you so much!!!"] the analyzer answers strong_negative,
    triggered by [" you"] through a pattern match: the categories are tried
    in the fixed order and strong_negative, which comes first, holds the
    pattern [" you"].  Without that first category the answer would be
    strong_positive, triggered by ["love you"]. *)
Theorem love_you_so_much_is_strong_negative :
  let text := "I love you so much!!!" in
  let result := analyze_contextual_sentiment text in
  emotion_type result = "strong_negative" /\
  triggered_by result = " you" /\
  method result = "pattern_match" /\
  intensity result == 1 /\
  (exists config,
      first_match (PyStr.strip (PyStr.lower text)) (tail _EMOTION_PATTERNS)
      = Some ("strong_positive", config, "love you")).
Proof.
  cbv zeta. repeat split; try reflexivity.
  eexists. vm_compute. reflexivity.
Qed.

Lemma min_proper a b c : b == c -> Num.min a b == Num.min a c.
Proof. unfold Num.min. intros H. destruct (Qlt_le_dec b a), (Qlt_le_dec c a); lra. Qed.

(** The modifiers compose by multiplication, the product being capped at
    [1.0]. *)
Lemma intensity_is_product text base :
  calculate_contextual_intensity text base ==
  Num.min 1 (base * exclamation_factor text * caps_factor text
             * profanity_factor text * repetition_factor text).
Proof.
  unfold calculate_contextual_intensity, exclamation_factor, caps_factor,
    profanity_factor, repetition_factor.
  apply min_proper.
  destruct (0 <? _)%nat, (PyStr.isupper text && _), (existsb _ _),
    (repetition_detected _); ring.
Qed.

(** The repetition test fires when the distinct words are strictly less
    than 70% of the words, that is when the repeated ones are strictly more
    than 30%. *)
Lemma repetition_detected_iff words :
  repetition_detected words = true <->
  (1 < length words /\ 3 * length words < 10 * (length words - PyStr.distinct words))%nat.
Proof.
  unfold repetition_detected. rewrite andb_true_iff, Nat.ltb_lt, Num.ltb_true.
  assert (Hd : (PyStr.distinct words <= length words)%nat).
  { unfold PyStr.distinct. induction words as [|w ws IH]; simpl; [lia|].
    case_decide; simpl; lia. }
  unfold Num.of_nat.
  assert (Heq : inject_Z (Z.of_nat (PyStr.distinct words))
                < inject_Z (Z.of_nat (length words)) * 0.7
                <-> (10 * Z.of_nat (PyStr.distinct words) < 7 * Z.of_nat (length words))%Z).
  { unfold Qlt, Qmult, inject_Z. simpl. lia. }
  rewrite Heq. lia.
Qed.

(** C7. The repetition modifier at its boundary: in a text of ten words of
    which three repeat an earlier one (30% exactly) the intensity is not
    multiplied by 1.15; with one more repeated word it is. *)
Theorem repetition_at_thirty_percent :
  let text := "bad bad bad bad day for me right now okay" in
  let words := PyStr.split (PyStr.lower text) in
  length words = 10%nat /\
  PyStr.distinct words = 7%nat /\
  repetition_detected words = false /\
  calculate_contextual_intensity text 0.6 == 0.6 /\
  emotion_type (analyze_contextual_sentiment text) = "moderate_negative" /\
  intensity (analyze_contextual_sentiment text) == 0.6 /\
  calculate_contextual_intensity "bad bad bad bad bad for me right now okay" 0.6
    == 0.6 * 1.15.
Proof. cbv zeta. repeat split; vm_compute; reflexivity. Qed.

(** ** The ranking of moods *)

(** [ms] is ranked no lower than [ms']: its absolute score is no smaller. *)
Definition outranks (ms ms' : string * Q) : Prop := Qabs ms'.2 <= Qabs ms.2.

#[local] Instance outranks_trans : Transitive outranks.
Proof. unfold outranks. intros x y z ? ?. lra. Qed.

Lemma insert_ranked_perm x l : insert_ranked x l ≡ₚ x :: l.
Proof.
  induction l as [|y l IH]; simpl; [done|].
  destruct (Qlt_le_dec _ _); [|done].
  rewrite IH. apply perm_swap.
Qed.

Lemma sorted_moods_perm mood_scores : sorted_moods mood_scores ≡ₚ mood_scores.
Proof.
  induction mood_scores as [|x l IH]; simpl; [done|].
  rewrite insert_ranked_perm. by rewrite IH.
Qed.

Lemma sorted_moods_length mood_scores :
  length (sorted_moods mood_scores) = length mood_scores.
Proof. by rewrite sorted_moods_perm. Qed.

Lemma insert_ranked_sorted x l :
  StronglySorted outranks l -> StronglySorted outranks (insert_ranked x l).
Proof.
  induction l as [|y l IH]; simpl; intros Hl.
  - repeat constructor.
  - apply StronglySorted_cons in Hl as [Hy Hl].
    destruct (Qlt_le_dec _ _) as [Hlt|Hle].
    + apply StronglySorted_cons. split; [|by apply IH].
      rewrite insert_ranked_perm. constructor; [|done].
      unfold outranks. lra.
    + apply StronglySorted_cons. split.
      * constructor; [done|].
        eapply Forall_impl; [exact Hy|].
        intros z Hz. by trans y.
      * by apply StronglySorted_cons.
Qed.

Lemma sorted_moods_sorted mood_scores : StronglySorted outranks (sorted_moods mood_scores).
Proof.
  induction mood_scores as [|x l IH]; simpl; [constructor|].
  by apply insert_ranked_sorted.
Qed.

(** A table of two moods or more has a top-ranked and a second-ranked
    mood; they hold the two largest absolute scores. *)
Lemma top_two_exist mood_scores :
  (2 <= length mood_scores)%nat ->
  exists top second rest,
    sorted_moods mood_scores = top :: second :: rest /\
    top :: second :: rest ≡ₚ mood_scores /\
    outranks top second /\
    Forall (outranks second) rest.
Proof.
  intros Hlen. pose proof (sorted_moods_length mood_scores) as Hl.
  pose proof (sorted_moods_perm mood_scores) as Hp.
  pose proof (sorted_moods_sorted mood_scores) as Hs.
  destruct (sorted_moods mood_scores) as [|top [|second rest]]; simpl in Hl; try lia.
  exists top, second, rest. split_and!; [done|done|..].
  - apply StronglySorted_cons in Hs as [Hs _]. by inversion Hs.
  - apply StronglySorted_cons in Hs as [_ Hs].
    by apply StronglySorted_cons in Hs as [Hs _].
Qed.

Lemma fold_max_ge_init r x : x <= fold_left Num.max r x.
Proof.
  revert x. induction r as [|a r IH]; intros x; simpl; [lra|].
  pose proof (IH (Num.max x a)). pose proof (Num.max_ge_l x a). lra.
Qed.

Lemma fold_max_ge_all r x y : y ∈ r -> y <= fold_left Num.max r x.
Proof.
  revert x. induction r as [|a r IH]; intros x Hy; simpl.
  - by apply elem_of_nil in Hy.
  - apply elem_of_cons in Hy as [->|Hy]; [|by apply IH].
    pose proof (fold_max_ge_init r (Num.max x a)).
    pose proof (Num.max_ge_r x a). lra.
Qed.

(** [max] of a sequence with an element is at least that element. *)
Lemma max_of_ge xs y : y ∈ xs -> exists m, max_of xs = Ok m /\ y <= m.
Proof.
  destruct xs as [|x r]; intros Hy; [by apply elem_of_nil in Hy|].
  eexists; split; [reflexivity|].
  apply elem_of_cons in Hy as [->|Hy];
    [apply fold_max_ge_init | by apply fold_max_ge_all].
Qed.

(** ** The rule cascade of [detect_undefined_mood_state] *)

Lemma detect_hybrid mood_scores hormone_levels threshold
    top_mood top_score second_mood second_score rest :
  sorted_moods mood_scores = (top_mood, top_score) :: (second_mood, second_score) :: rest ->
  Qabs (Qabs top_score - Qabs second_score) < threshold ->
  detect_undefined_mood_state mood_scores hormone_levels threshold =
  Ok (true, hybrid_name top_mood top_score second_mood second_score,
      Num.min 1 ((Qabs top_score + Qabs second_score) / 2)).
Proof.
  intros Hs Hd. unfold detect_undefined_mood_state. rewrite Hs.
  destruct (Qlt_le_dec _ _); [done|lra].
Qed.

Lemma detect_past_hybrid mood_scores hormone_levels threshold
    top_mood top_score second_mood second_score rest :
  sorted_moods mood_scores = (top_mood, top_score) :: (second_mood, second_score) :: rest ->
  ~ Qabs (Qabs top_score - Qabs second_score) < threshold ->
  detect_undefined_mood_state mood_scores hormone_levels threshold =
  let! max_abs_score := max_of (map (fun ms => Qabs ms.2) mood_scores) in
  if Qlt_le_dec max_abs_score 0.2
  then Ok (true, "undefined-neutral", max_abs_score)
  else Ok (archetype_or_defined hormone_levels top_mood top_score).
Proof.
  intros Hs Hd. unfold detect_undefined_mood_state. rewrite Hs.
  destruct (Qlt_le_dec _ _); [contradiction|done].
Qed.

Lemma hybrid_name_positive top_mood top_score second_mood second_score :
  0 < top_score -> 0 < second_score ->
  hybrid_name top_mood top_score second_mood second_score
  = second_mood +:+ "-" +:+ top_mood.
Proof.
  intros H1%Num.ltb_true H2%Num.ltb_true. unfold hybrid_name. by rewrite H1, H2.
Qed.

Lemma hybrid_name_negative top_mood top_score second_mood second_score :
  top_score < 0 -> second_score < 0 ->
  hybrid_name top_mood top_score second_mood second_score = "conflicted-" +:+ top_mood.
Proof.
  intros H1 H2. unfold hybrid_name.
  assert (Num.ltb 0 top_score = false) as -> by (apply Num.ltb_false; lra).
  apply Num.ltb_true in H1, H2. by rewrite H1, H2.
Qed.

Lemma hybrid_name_top_positive top_mood top_score second_mood second_score :
  0 < top_score -> second_score <= 0 ->
  hybrid_name top_mood top_score second_mood second_score = "bittersweet-" +:+ top_mood.
Proof.
  intros H1 H2. unfold hybrid_name.
  assert (Num.ltb top_score 0 = false) as -> by (apply Num.ltb_false; lra).
  apply Num.ltb_true in H1. apply Num.ltb_false in H2. by rewrite H1, H2.
Qed.

Lemma hybrid_name_second_positive top_mood top_score second_mood second_score :
  top_score <= 0 -> 0 < second_score ->
  hybrid_name top_mood top_score second_mood second_score = "bittersweet-" +:+ second_mood.
Proof.
  intros H1 H2. unfold hybrid_name.
  assert (Num.ltb second_score 0 = false) as -> by (apply Num.ltb_false; lra).
  apply Num.ltb_false in H1. rewrite H1. simpl. by rewrite andb_false_r.
Qed.

Lemma average_abs_clamped a b :
  let intensity := Num.min 1 ((Qabs a + Qabs b) / 2) in
  intensity == Num.max 0 (Num.min 1 ((Qabs a + Qabs b) / 2)) /\ Num.in_unit intensity.
Proof.
  pose proof (Qabs_nonneg a). pose proof (Qabs_nonneg b).
  pose proof (Num.half (Qabs a + Qabs b)).
  cbv zeta. unfold Num.in_unit, Num.max, Num.min.
  destruct (Qlt_le_dec ((Qabs a + Qabs b) / 2) 1);
    destruct (Qlt_le_dec 0 _); lra.
Qed.

(** C2. In a table of two moods or more, let [top] and [second] be the two
    moods of largest absolute score, as the ranking orders them.  When the
    two absolute scores differ by less than 0.15 the state is a hybrid:
    named [second-top] when both scores are positive, [conflicted-top] when
    both are negative, and [bittersweet-] followed by the positive one when
    only one is positive; its intensity is the average of the two absolute
    scores clamped to [0,1].  Scores 0.40 and 0.33 give [second-top] at
    intensity 0.365. *)
Theorem hybrid_rule :
  (forall (mood_scores : MoodScores) (hormone_levels : HormoneRecord),
      (2 <= length mood_scores)%nat ->
      exists top_mood top_score second_mood second_score rest,
        sorted_moods mood_scores
          = (top_mood, top_score) :: (second_mood, second_score) :: rest /\
        (top_mood, top_score) :: (second_mood, second_score) :: rest ≡ₚ mood_scores /\
        Qabs second_score <= Qabs top_score /\
        Forall (fun ms => Qabs ms.2 <= Qabs second_score) rest /\
        (Qabs (Qabs top_score - Qabs second_score) < 0.15 ->
         exists name intensity,
           detect_undefined_mood_state mood_scores hormone_levels default_threshold
             = Ok (true, name, intensity) /\
           intensity == Num.max 0 (Num.min 1 ((Qabs top_score + Qabs second_score) / 2)) /\
           Num.in_unit intensity /\
           (0 < top_score -> 0 < second_score -> name = second_mood +:+ "-" +:+ top_mood) /\
           (top_score < 0 -> second_score < 0 -> name = "conflicted-" +:+ top_mood) /\
           (0 < top_score -> second_score <= 0 -> name = "bittersweet-" +:+ top_mood) /\
           (top_score <= 0 -> 0 < second_score -> name = "bittersweet-" +:+ second_mood)))
  /\
  (forall (top second : string) (hormone_levels : HormoneRecord),
      exists intensity,
        detect_undefined_mood_state [(top, 0.40); (second, 0.33)] hormone_levels
                                    default_threshold
          = Ok (true, second +:+ "-" +:+ top, intensity) /\
        detect_undefined_mood_state [(second, 0.33); (top, 0.40)] hormone_levels
                                    default_threshold
          = Ok (true, second +:+ "-" +:+ top, intensity) /\
        intensity == 0.365).
Proof.
  split.
  - intros mood_scores hormone_levels Hlen.
    destruct (top_two_exist mood_scores Hlen)
      as ([top_mood top_score] & [second_mood second_score] & rest & Hs & Hp & Ht & Hr).
    exists top_mood, top_score, second_mood, second_score, rest.
    split_and!; [done|done|exact Ht|exact Hr|].
    intros Hd. eexists _, _. split; [by eapply detect_hybrid|].
    destruct (average_abs_clamped top_score second_score) as [Hc Hu].
    split_and!; [exact Hc|exact Hu|..].
    + apply hybrid_name_positive.
    + apply hybrid_name_negative.
    + apply hybrid_name_top_positive.
    + apply hybrid_name_second_positive.
  - intros top second hormone_levels. eexists. split_and!; [reflexivity|reflexivity|].
    vm_compute. reflexivity.
Qed.

(** The scenario of C2 on two named moods. *)
Lemma hybrid_rule_witness :
  detect_undefined_mood_state [("cheerful", 0.33); ("excited", 0.40)] _DEFAULT_HORMONES
                              default_threshold
  = Ok (true, "cheerful-excited", Num.min 1 ((Qabs 0.40 + Qabs 0.33) / 2)).
Proof.
  destruct (proj1 hybrid_rule [("cheerful", 0.33); ("excited", 0.40)] _DEFAULT_HORMONES)
    as (top_mood & top_score & second_mood & second_score & rest & Hs & _ & _ & _ & H).
  { simpl. lia. }
  injection Hs as <- <- <- <- <-.
  destruct H as (name & intensity & Hd & _ & _ & Hn & _).
  { vm_compute. reflexivity. }
  rewrite (Hn eq_refl eq_refl) in Hd.
  rewrite Hd. f_equal.
  vm_compute in Hd. injection Hd as <-. reflexivity.
Defined.






(** With the default weight table the record of the scenario is a hybrid
    of its two top-ranked moods: the hybrid rule comes before the
    archetypes. *)
Lemma scenario_record_on_default_weights :
  let hormone_levels :=
    record_of [("dopamine", 0.75); ("cortisol", 0.75);
               ("serotonin", 0.5); ("oxytocin", 0.5)] in
  exists intensity,
    detect_undefined_mood_state (calculate_mood_scores hormone_levels _DEFAULT_MOOD_WEIGHTS)
                                hormone_levels default_threshold
    = Ok (true, "cheerful-excited", intensity) /\
    intensity == 0.7125.
Proof. cbv zeta. eexists. split; [vm_compute; reflexivity|]. vm_compute. reflexivity. Qed.

(** ** Totality of the inference *)

Lemma sorted_moods_nil_inv mood_scores : sorted_moods mood_scores = [] -> mood_scores = [].
Proof.
  intros H. apply (f_equal length) in H. rewrite sorted_moods_length in H.
  by destruct mood_scores.
Qed.

Lemma detect_returns mood_scores hormone_levels threshold :
  mood_scores <> [] ->
  returns (detect_undefined_mood_state mood_scores hormone_levels threshold).
Proof.
  intros Hne. unfold detect_undefined_mood_state, returns.
  destruct (sorted_moods mood_scores) as [|[top_mood top_score] [|[second_mood second_score] rest]]
    eqn:Hs.
  - by apply sorted_moods_nil_inv in Hs.
  - eauto.
  - destruct (Qlt_le_dec _ _); [eauto|].
    destruct mood_scores as [|ms l]; [done|]. simpl.
    destruct (Qlt_le_dec _ _); eauto.
Qed.

Lemma random_choice_returns xs s :
  xs <> [] -> exists x s', random_choice xs s = (Ok x, s').
Proof.
  intros Hne. unfold random_choice.
  destruct (lookup_lt_is_Some_2 xs (random_picks s (draws s) mod length xs)) as [x ->].
  { apply Nat.mod_upper_bound. by destruct xs. }
  eauto.
Qed.

Lemma generate_emergent_mood_variations_returns base_mood hormone_levels s :
  exists mood s', generate_emergent_mood_variations base_mood hormone_levels s = (Ok mood, s').
Proof.
  unfold generate_emergent_mood_variations.
  destruct (emergent_prefixes hormone_levels) as [|p ps] eqn:Hp; [by eexists _, _|].
  cbn. destruct (Qlt_le_dec _ _); [|by eexists _, _].
  destruct (random_choice_returns (p :: ps) (set_draws (S (draws s)) s)) as (x & s' & Hx);
    [done|].
  cbn. rewrite Hx. by eexists _, _.
Qed.

Lemma infer_mood_from_hormones_returns hormone_levels mood_weights s :
  mood_weights <> [] ->
  exists result s', infer_mood_from_hormones hormone_levels mood_weights s = (Ok result, s').
Proof.
  intros Hne. unfold infer_mood_from_hormones.
  destruct (detect_returns (calculate_mood_scores hormone_levels mood_weights)
              hormone_levels default_threshold) as ([[is_undefined mood_name] i] & Hd).
  { by destruct mood_weights. }
  cbn. rewrite Hd. cbn. destruct is_undefined; [by eexists _, _|].
  destruct (best_of _) as [best_mood best_score].
  destruct (generate_emergent_mood_variations_returns best_mood hormone_levels s)
    as (mood & s' & Hg).
  cbn. rewrite Hg. by eexists _, _.
Qed.

(** C9. On an empty weight table the score map is empty and reading the
    top-ranked mood raises [IndexError], in [detect_undefined_mood_state]
    and so in [infer_mood_from_hormones]; on every table with a mood both
    return.  A table of one mood is a defined state. *)
Theorem inference_total_iff_table_nonempty :
  (forall hormone_levels, calculate_mood_scores hormone_levels [] = []) /\
  (forall hormone_levels threshold,
      detect_undefined_mood_state [] hormone_levels threshold = Raise IndexError) /\
  (forall hormone_levels s,
      infer_mood_from_hormones hormone_levels [] s = (Raise IndexError, s)) /\
  (forall mood_scores hormone_levels threshold,
      returns (detect_undefined_mood_state mood_scores hormone_levels threshold)
      <-> mood_scores <> []) /\
  (forall hormone_levels mood_weights s,
      (exists result s',
          infer_mood_from_hormones hormone_levels mood_weights s = (Ok result, s'))
      <-> mood_weights <> []) /\
  (forall mood score hormone_levels threshold,
      detect_undefined_mood_state [(mood, score)] hormone_levels threshold
      = Ok (false, mood, Qabs score)).
Proof.
  split_and!; try reflexivity.
  - intros mood_scores hormone_levels threshold. split.
    + intros [r Hr] ->. discriminate Hr.
    + apply detect_returns.
  - intros hormone_levels mood_weights s. split.
    + intros (r & s' & Hr) ->. discriminate Hr.
    + apply infer_mood_from_hormones_returns.
Qed.

(** ** The persistence layer *)

(** The record [load_hormone_levels] hands back: the stored one, or the
    defaults when the document is missing or unreadable. *)
Definition loaded_hormones (s : Store) : HormoneRecord :=
  match hormones_json s with
  | Content levels => levels
  | _ => _DEFAULT_HORMONES
  end.

(** What a computation leaves untouched besides the hormone document. *)
Definition same_but_hormones (s s' : Store) : Prop :=
  mood_weights_json s' = mood_weights_json s /\
  mood_adjustments_json s' = mood_adjustments_json s /\
  mood_history_json s' = mood_history_json s /\
  writable s' = writable s /\
  clock s' = clock s /\ ticks s' = ticks s /\
  random_floats s' = random_floats s /\ random_picks s' = random_picks s /\
  draws s' = draws s /\ truncates s' = truncates s.

Lemma same_but_hormones_refl s : same_but_hormones s s.
Proof. by repeat split. Qed.

Lemma same_but_hormones_trans s1 s2 s3 :
  same_but_hormones s1 s2 -> same_but_hormones s2 s3 -> same_but_hormones s1 s3.
Proof. unfold same_but_hormones. intros ? ?. split_and!; destruct_and!; congruence. Qed.

Lemma load_hormone_levels_spec s :
  exists s',
    load_hormone_levels s = (Ok (loaded_hormones s), s') /\
    same_but_hormones s s' /\
    (hormones_json s' = hormones_json s \/
     hormones_json s = Missing /\
     (hormones_json s' = Content _DEFAULT_HORMONES \/ hormones_json s' = Malformed)) /\
    loaded_hormones s' = loaded_hormones s.
Proof.
  unfold load_hormone_levels, loaded_hormones, _ensure_file, file_exists, try_read,
    try_write, print, pass.
  destruct s as [hj wj aj hij w tr c t rf rp d out]. cbn.
  destruct hj as [| |levels]; cbn.
  - destruct (w HORMONES_FILE); [|destruct (tr HORMONES_FILE)]; cbn; eexists;
      (split; [reflexivity|]); (split; [by repeat split|]); auto.
  - eexists; (split; [reflexivity|]); (split; [by repeat split|]); auto.
  - eexists; (split; [reflexivity|]); (split; [by repeat split|]); auto.
Qed.

(** A stored record is read back as it is, the store unchanged. *)
Lemma load_hormone_levels_content s levels :
  hormones_json s = Content levels -> load_hormone_levels s = (Ok levels, s).
Proof.
  destruct s as [hj wj aj hij w tr c t rf rp d out]. cbn. intros ->. reflexivity.
Qed.

Lemma save_hormone_levels_spec levels s :
  exists s',
    save_hormone_levels levels s = (Ok (), s') /\
    same_but_hormones s s' /\
    hormones_json s' =
      (if writable s HORMONES_FILE then Content levels
       else if truncates s HORMONES_FILE then Malformed else hormones_json s).
Proof.
  unfold save_hormone_levels, try_write, print.
  destruct s as [hj wj aj hij w tr c t rf rp d out]. cbn.
  destruct (w HORMONES_FILE); [|destruct (tr HORMONES_FILE)]; cbn; eexists;
    (split; [reflexivity|]); (split; [by repeat split|]); auto.
Qed.

(** ** Levels stay in the unit interval *)

Definition record_in_unit (levels : HormoneRecord) : Prop :=
  map_Forall (fun _ v => Num.in_unit v) levels.

Definition hormone_names : list string := ["dopamine"; "serotonin"; "cortisol"; "oxytocin"].

(** The record holds a level for each hormone of [names]. *)
Definition holds (levels : HormoneRecord) (names : list string) : Prop :=
  Forall (fun hormone => is_Some (levels !! hormone)) names.

Lemma default_hormones_in_unit : record_in_unit _DEFAULT_HORMONES.
Proof.
  unfold _DEFAULT_HORMONES, record_of. simpl.
  repeat (apply map_Forall_insert_2; [split; lra|]).
  apply map_Forall_empty.
Qed.

Lemma default_hormones_hold : holds _DEFAULT_HORMONES hormone_names.
Proof. repeat constructor; by eexists. Qed.

Lemma decay_level_in_unit x : Num.in_unit x -> Num.in_unit (decay_level x).
Proof.
  unfold Num.in_unit, decay_level, Num.max, Num.min. intros [? ?].
  repeat destruct (Qlt_le_dec _ _); lra.
Qed.

Lemma decay_in_unit levels : record_in_unit levels -> record_in_unit (decay levels).
Proof.
  unfold record_in_unit, decay. intros H. apply map_Forall_fmap.
  eapply map_Forall_impl; [exact H|]. intros k v. apply decay_level_in_unit.
Qed.

Lemma update_level_in_unit hormone f levels levels' :
  (forall v, Num.in_unit v -> Num.in_unit (f v)) ->
  record_in_unit levels ->
  update_level hormone f levels = Ok levels' ->
  record_in_unit levels'.
Proof.
  unfold update_level. intros Hf Hl.
  destruct (levels !! hormone) as [old|] eqn:Hold; [|discriminate].
  intros [= <-]. apply map_Forall_insert_2; [|done].
  apply Hf. by apply (Hl hormone).
Qed.

Lemma apply_adjustments_in_unit adjustments multiplier levels levels' :
  record_in_unit levels ->
  apply_adjustments adjustments multiplier levels = Ok levels' ->
  record_in_unit levels'.
Proof.
  revert levels. induction adjustments as [|[hormone base] rest IH]; intros levels Hl.
  - by intros [= <-].
  - cbn [apply_adjustments].
    destruct (update_level hormone _ levels) as [levels1|e] eqn:Hu; [|discriminate].
    cbn. apply IH.
    eapply update_level_in_unit; [|exact Hl|exact Hu].
    intros v _. apply Num.clamp_in_unit.
Qed.

Lemma apply_event_in_unit event levels levels' :
  record_in_unit levels ->
  apply_event event levels = Ok levels' ->
  record_in_unit levels'.
Proof.
  assert (Hup : forall d v, 0 <= d -> Num.in_unit v -> Num.in_unit (Num.min 1 (v + d))).
  { unfold Num.in_unit, Num.min. intros d v ? [? ?]. destruct (Qlt_le_dec _ _); lra. }
  assert (Hdown : forall d v, 0 <= d -> Num.in_unit v -> Num.in_unit (Num.max 0 (v - d))).
  { unfold Num.in_unit, Num.max. intros d v ? [? ?]. destruct (Qlt_le_dec _ _); lra. }
  intros Hl. unfold apply_event.
  repeat case_decide;
    try (intros [= <-]; exact Hl);
    (destruct (update_level _ _ levels) as [levels1|e] eqn:Hfirst; [|discriminate]);
    cbn; intros Hsecond;
    (eapply update_level_in_unit; [| |exact Hsecond];
     [|eapply update_level_in_unit; [| exact Hl | exact Hfirst]]);
    intros v Hv; (apply Hup || apply Hdown); (lra || exact Hv).
Qed.

Lemma bind_run {A B} (m : M A) (k : A -> M B) s :
  (let! x := m in k x) s =
  match m s with
  | (Ok a, s') => k a s'
  | (Raise e, s') => (Raise e, s')
  end.
Proof. reflexivity. Qed.

(** The two adjustment operations, step by step: the load, the pure
    adjustment of the loaded record, and on success the decay and the save. *)
Lemma adjust_hormones_run event s :
  exists s1,
    load_hormone_levels s = (Ok (loaded_hormones s), s1) /\
    match apply_event event (loaded_hormones s) with
    | Ok levels =>
        exists s2,
          save_hormone_levels (decay levels) s1 = (Ok (), s2) /\
          adjust_hormones event s = (Ok (decay levels), s2)
    | Raise e => adjust_hormones event s = (Raise e, s1)
    end.
Proof.
  destruct (load_hormone_levels_spec s) as (s1 & Hload & _).
  exists s1. split; [exact Hload|].
  unfold adjust_hormones. rewrite bind_run, Hload, bind_run. unfold lift.
  destruct (apply_event event (loaded_hormones s)) as [levels|e]; [|done].
  destruct (save_hormone_levels_spec (decay levels) s1) as (s2 & Hsave & _).
  exists s2. split; [exact Hsave|]. by rewrite bind_run, Hsave.
Qed.

Lemma apply_contextual_hormone_adjustments_run text s :
  let analysis := analyze_contextual_sentiment text in
  exists s1,
    load_hormone_levels s = (Ok (loaded_hormones s), s1) /\
    match hormone_adjustments analysis with
    | [] => apply_contextual_hormone_adjustments text s = (Ok (loaded_hormones s), s1)
    | _ :: _ =>
        match apply_adjustments (hormone_adjustments analysis) (intensity analysis)
                                (loaded_hormones s) with
        | Ok levels =>
            exists s2,
              save_hormone_levels (decay levels) s1 = (Ok (), s2) /\
              apply_contextual_hormone_adjustments text s = (Ok (decay levels), s2)
        | Raise e => apply_contextual_hormone_adjustments text s = (Raise e, s1)
        end
    end.
Proof.
  cbv zeta. destruct (load_hormone_levels_spec s) as (s1 & Hload & _).
  exists s1. split; [exact Hload|].
  unfold apply_contextual_hormone_adjustments.
  destruct (hormone_adjustments (analyze_contextual_sentiment text)) as [|a rest];
    [exact Hload|].
  rewrite bind_run, Hload, bind_run. unfold lift.
  destruct (apply_adjustments _ _ _) as [levels|e]; [|done].
  destruct (save_hormone_levels_spec (decay levels) s1) as (s2 & Hsave & _).
  exists s2. split; [exact Hsave|]. by rewrite bind_run, Hsave.
Qed.

Lemma loaded_hormones_in_unit s :
  (forall levels, hormones_json s = Content levels -> record_in_unit levels) ->
  record_in_unit (loaded_hormones s).
Proof.
  unfold loaded_hormones. intros H.
  destruct (hormones_json s); auto using default_hormones_in_unit.
Qed.

(** What the store holds after a load followed by a save of [levels]. *)
Lemma stored_after_save s s1 s2 levels saved :
  (forall l, hormones_json s = Content l -> record_in_unit l) ->
  load_hormone_levels s = (Ok (loaded_hormones s), s1) ->
  save_hormone_levels saved s1 = (Ok (), s2) ->
  record_in_unit saved ->
  hormones_json s2 = Content levels -> record_in_unit levels.
Proof.
  intros Hs Hload Hsave Hsaved.
  destruct (load_hormone_levels_spec s) as (s1' & Hload' & _ & Hdoc & _).
  rewrite Hload in Hload'. injection Hload' as <-.
  destruct (save_hormone_levels_spec saved s1) as (s2' & Hsave' & _ & Hdoc2).
  rewrite Hsave in Hsave'. injection Hsave' as <-.
  rewrite Hdoc2. destruct (writable s1 HORMONES_FILE); [by intros [= <-]|].
  destruct (truncates s1 HORMONES_FILE); [discriminate|].
  destruct Hdoc as [->|[_ [->| ->]]]; [apply Hs| |discriminate].
  intros [= <-]. apply default_hormones_in_unit.
Qed.

(** *** The adjustments return on a record that holds the four hormones *)

Lemma update_level_returns hormone f levels names :
  is_Some (levels !! hormone) ->
  holds levels names ->
  exists levels', update_level hormone f levels = Ok levels' /\ holds levels' names.
Proof.
  unfold update_level, holds. intros [old ->] Hn. eexists; split; [done|].
  eapply Forall_impl; [exact Hn|]. intros k Hk. cbn in Hk |- *.
  rewrite lookup_insert. case_decide; [by eexists|done].
Qed.

Lemma holds_elem levels names hormone :
  holds levels names -> hormone ∈ names -> is_Some (levels !! hormone).
Proof. unfold holds. rewrite Forall_forall. auto. Qed.

Lemma apply_adjustments_returns adjustments multiplier levels names :
  Forall (fun a => a.1 ∈ names) adjustments ->
  holds levels names ->
  returns (apply_adjustments adjustments multiplier levels).
Proof.
  revert levels. induction adjustments as [|[hormone base] rest IH]; intros levels Ha Hl.
  - by eexists.
  - apply Forall_cons in Ha as [Hh Ha]. cbn [apply_adjustments].
    edestruct (update_level_returns hormone) as (levels1 & -> & Hl1);
      [by eapply holds_elem|exact Hl|].
    cbn. by apply IH.
Qed.

Lemma apply_event_returns event levels :
  holds levels hormone_names -> returns (apply_event event levels).
Proof.
  intros Hl. unfold apply_event, returns.
  repeat case_decide; try by eexists.
  all: edestruct (update_level_returns) as (levels1 & -> & Hl1);
    [eapply holds_elem; [exact Hl|]|exact Hl|]; [set_solver|].
  all: cbn; edestruct (update_level_returns) as (levels2 & -> & Hl2);
    [eapply holds_elem; [exact Hl1|]|exact Hl1|]; [set_solver|].
  all: by eexists.
Qed.

Lemma first_match_in_table text_lower table emotion config pattern :
  first_match text_lower table = Some (emotion, config, pattern) ->
  (emotion, config) ∈ table /\ pattern ∈ patterns config /\
  PyStr.contains pattern text_lower = true.
Proof.
  induction table as [|[e c] rest IH]; [discriminate|].
  cbn [first_match]. destruct (first_pattern text_lower (patterns c)) as [p|] eqn:Hp.
  - intros [= <- <- <-]. split; [left|].
    unfold first_pattern in Hp. apply find_some in Hp as [Hin Hc].
    split; [by apply list_elem_of_In|done].
  - intros H. destruct (IH H) as (? & ? & ?). split; [by right|done].
Qed.

(** Every sentiment result adjusts hormones of the fixed set only. *)
Lemma analysis_adjusts_known text :
  Forall (fun a => a.1 ∈ hormone_names)
         (hormone_adjustments (analyze_contextual_sentiment text)).
Proof.
  assert (Htable : Forall (fun ec => Forall (fun a => a.1 ∈ hormone_names)
                                            (hormones ec.2)) _EMOTION_PATTERNS).
  { unfold hormone_names. repeat constructor; cbn; set_solver. }
  unfold analyze_contextual_sentiment.
  destruct (first_match _ _) as [[[emotion config] pattern]|] eqn:Hm.
  - apply first_match_in_table in Hm as [Hin _].
    rewrite Forall_forall in Htable. apply (Htable _ Hin).
  - unfold _word_level_sentiment_analysis, hormone_names.
    repeat case_match; cbn; repeat constructor; cbn; set_solver.
Qed.

(** A store to run the operations on: every document writable, the hormone
    record near its bounds, no history yet. *)
Definition example_store : Store :=
  {| hormones_json :=
       Content (record_of [("dopamine", 0.95); ("serotonin", 0.02);
                           ("cortisol", 1); ("oxytocin", 0)]);
     mood_weights_json := Missing;
     mood_adjustments_json := Missing;
     mood_history_json := Missing;
     writable := fun _ => true;
     truncates := fun _ => false;
     clock := fun n => "2024-01-01T00:00:00." +:+ pretty n;
     ticks := 0;
     random_floats := fun _ => 0.75;
     random_picks := fun n => n;
     draws := 0;
     stdout := [] |}.

(** C4. When the stored hormone record has all its levels in [0,1] (or
    there is none, the defaults being loaded), every level of the record an
    adjustment returns is in [0,1], be it [apply_contextual_hormone_adjustments]
    on a text or [adjust_hormones] on an event; so is every level of the
    record the store holds afterwards.  Both operations return when the
    loaded record holds the four hormones. *)
Theorem adjusted_levels_in_unit (s : Store) :
  (forall levels, hormones_json s = Content levels -> record_in_unit levels) ->
  (forall text levels s',
      apply_contextual_hormone_adjustments text s = (Ok levels, s') ->
      record_in_unit levels /\
      (forall stored, hormones_json s' = Content stored -> record_in_unit stored)) /\
  (forall event levels s',
      adjust_hormones event s = (Ok levels, s') ->
      record_in_unit levels /\
      (forall stored, hormones_json s' = Content stored -> record_in_unit stored)) /\
  (holds (loaded_hormones s) hormone_names ->
   (forall text, exists levels s',
         apply_contextual_hormone_adjustments text s = (Ok levels, s')) /\
   (forall event, exists levels s', adjust_hormones event s = (Ok levels, s'))).
Proof.
  intros Hs. pose proof (loaded_hormones_in_unit s Hs) as Hl.
  split_and!.
  - intros text levels s' Hrun.
    destruct (apply_contextual_hormone_adjustments_run text s) as (s1 & Hload & Hcase).
    destruct (hormone_adjustments _) as [|a rest] eqn:Ha.
    + rewrite Hcase in Hrun. injection Hrun as <- <-. split; [done|].
      destruct (load_hormone_levels_spec s) as (s1' & Hload' & _ & Hdoc & _).
      rewrite Hload in Hload'. injection Hload' as <-.
      destruct Hdoc as [->|[_ [->| ->]]]; [done| |by intros stored ?].
      intros stored [= <-]. apply default_hormones_in_unit.
    + destruct (apply_adjustments _ _ _) as [adjusted|e] eqn:Hadj.
      * destruct Hcase as (s2 & Hsave & Hcase). rewrite Hcase in Hrun.
        injection Hrun as <- <-.
        assert (record_in_unit (decay adjusted)) as Hd.
        { apply decay_in_unit. by eapply apply_adjustments_in_unit. }
        split; [done|]. intros stored. by eapply stored_after_save.
      * rewrite Hcase in Hrun. discriminate.
  - intros event levels s' Hrun.
    destruct (adjust_hormones_run event s) as (s1 & Hload & Hcase).
    destruct (apply_event _ _) as [adjusted|e] eqn:Hadj.
    + destruct Hcase as (s2 & Hsave & Hcase). rewrite Hcase in Hrun.
      injection Hrun as <- <-.
      assert (record_in_unit (decay adjusted)) as Hd.
      { apply decay_in_unit. by eapply apply_event_in_unit. }
      split; [done|]. intros stored. by eapply stored_after_save.
    + rewrite Hcase in Hrun. discriminate.
  - intros Hh. split.
    + intros text.
      destruct (apply_contextual_hormone_adjustments_run text s) as (s1 & Hload & Hcase).
      destruct (hormone_adjustments _) as [|a rest] eqn:Ha; [by eexists _, _|].
      destruct (apply_adjustments_returns (a :: rest)
                  (intensity (analyze_contextual_sentiment text))
                  (loaded_hormones s) hormone_names) as [adjusted Hadj].
      { rewrite <- Ha. apply analysis_adjusts_known. }
      { exact Hh. }
      rewrite Hadj in Hcase. destruct Hcase as (s2 & _ & Hcase). by eexists _, _.
    + intros event.
      destruct (adjust_hormones_run event s) as (s1 & Hload & Hcase).
      destruct (apply_event_returns event (loaded_hormones s) Hh) as [adjusted Hadj].
      rewrite Hadj in Hcase. destruct Hcase as (s2 & _ & Hcase). by eexists _, _.
Qed.

Lemma example_store_in_unit levels :
  hormones_json example_store = Content levels -> record_in_unit levels.
Proof.
  intros [= <-]. unfold record_of. simpl.
  repeat (apply map_Forall_insert_2; [split; lra|]).
  apply map_Forall_empty.
Defined.

Lemma example_store_holds : holds (loaded_hormones example_store) hormone_names.
Proof. repeat constructor; by eexists. Defined.

(** An achievement on the example store: dopamine, at 0.95, is capped. *)
Lemma adjusted_levels_in_unit_witness :
  exists levels s',
    adjust_hormones (Some "achievement") example_store = (Ok levels, s') /\
    record_in_unit levels.
Proof.
  destruct (adjusted_levels_in_unit example_store example_store_in_unit)
    as (_ & Hsafe & Htotal).
  destruct (proj2 (Htotal example_store_holds) (Some "achievement")) as (levels & s' & Hrun).
  exists levels, s'. split; [exact Hrun|]. exact (proj1 (Hsafe _ _ _ Hrun)).
Defined.

(** ** The homeostatic decay *)

Lemma of_nat_nonneg n : 0 <= Num.of_nat n.
Proof. unfold Num.of_nat, Qle. simpl. lia. Qed.

Lemma of_nat_succ n : Num.of_nat (S n) == Num.of_nat n + 1.
Proof. unfold Num.of_nat. rewrite Nat2Z.inj_succ, <- Z.add_1_r, inject_Z_plus. reflexivity. Qed.

Lemma of_nat_le n m : (n <= m)%nat -> Num.of_nat n <= Num.of_nat m.
Proof. intros H. unfold Num.of_nat. rewrite <- Zle_Qle. lia. Qed.

(** One step: 0.01 toward 0.5, stopping at 0.5. *)
Lemma decay_level_step x :
  (0.51 <= x -> decay_level x == x - 0.01) /\
  (0.5 < x -> x <= 0.51 -> decay_level x == 0.5) /\
  (x <= 0.49 -> decay_level x == x + 0.01) /\
  (0.49 <= x -> x < 0.5 -> decay_level x == 0.5) /\
  (x == 0.5 -> decay_level x = x).
Proof.
  unfold decay_level, Num.max, Num.min.
  split_and!; intros; repeat destruct (Qlt_le_dec _ _); try lra; reflexivity.
Qed.

(** A step never moves away from 0.5 and never crosses it. *)
Lemma decay_level_above x : 0.5 <= x -> 0.5 <= decay_level x /\ decay_level x <= x.
Proof.
  unfold decay_level, Num.max, Num.min. intros.
  repeat destruct (Qlt_le_dec _ _); lra.
Qed.

Lemma decay_level_below x : x <= 0.5 -> x <= decay_level x /\ decay_level x <= 0.5.
Proof.
  unfold decay_level, Num.max, Num.min. intros.
  repeat destruct (Qlt_le_dec _ _); lra.
Qed.

Lemma decay_level_closer x d :
  0.5 - (d + 0.01) <= x -> x <= 0.5 + (d + 0.01) -> 0 <= d ->
  0.5 - d <= decay_level x /\ decay_level x <= 0.5 + d.
Proof.
  unfold decay_level, Num.max, Num.min. intros.
  repeat destruct (Qlt_le_dec _ _); lra.
Qed.

Lemma iter_decay_above x n : 0.5 <= x -> 0.5 <= Nat.iter n decay_level x.
Proof.
  intros Hx. induction n as [|n IH]; simpl; [done|]. by apply decay_level_above.
Qed.

Lemma iter_decay_below x n : x <= 0.5 -> Nat.iter n decay_level x <= 0.5.
Proof.
  intros Hx. induction n as [|n IH]; simpl; [done|]. by apply decay_level_below.
Qed.

Lemma iter_decay_within n : forall x,
  0.5 - Num.of_nat n * 0.01 <= x -> x <= 0.5 + Num.of_nat n * 0.01 ->
  Nat.iter n decay_level x == 0.5.
Proof.
  induction n as [|n IH]; intros x Hlo Hhi.
  - simpl. change (Num.of_nat 0) with 0 in *. lra.
  - rewrite Nat.iter_succ_r.
    pose proof (of_nat_succ n) as Hs. pose proof (of_nat_nonneg n) as Hn.
    destruct (decay_level_closer x (Num.of_nat n * 0.01)) as [Hlo' Hhi']; [lra..|].
    by apply IH.
Qed.

Lemma iter_decay_lookup n (levels : HormoneRecord) hormone :
  Nat.iter n decay levels !! hormone = Nat.iter n decay_level <$> levels !! hormone.
Proof.
  induction n as [|n IH]; simpl; [by destruct (levels !! hormone)|].
  unfold decay at 1. rewrite lookup_fmap, IH. by destruct (levels !! hormone).
Qed.

Lemma apply_event_unknown event levels :
  (forall name, event = Some name -> name ∉ map fst legacy_events) ->
  apply_event event levels = Ok levels.
Proof.
  intros H. unfold apply_event.
  repeat case_decide; try done; exfalso; (eapply H; [eassumption|]);
    cbn; set_solver.
Qed.

(** A call of [adjust_hormones] on no event, or on an event it does not
    know, is a decay and nothing else. *)
Definition decay_only_call (s : Store) : Store := (adjust_hormones None s).2.

Lemma decay_only_call_spec s levels :
  hormones_json s = Content levels ->
  writable s HORMONES_FILE = true ->
  hormones_json (decay_only_call s) = Content (decay levels) /\
  writable (decay_only_call s) HORMONES_FILE = true.
Proof.
  intros Hc Hw. unfold decay_only_call.
  destruct (adjust_hormones_run None s) as (s1 & Hload & Hcase).
  rewrite (load_hormone_levels_content s levels Hc) in Hload.
  injection Hload as Hlevels <-.
  rewrite <- Hlevels, apply_event_unknown in Hcase by done.
  destruct Hcase as (s2 & Hsave & ->). cbn.
  destruct (save_hormone_levels_spec (decay levels) s) as (s2' & Hsave' & Hsame & Hdoc).
  rewrite Hsave in Hsave'. injection Hsave' as <-.
  rewrite Hw in Hdoc. split; [done|].
  destruct Hsame as (_ & _ & _ & -> & _). done.
Qed.

Lemma iter_decay_only_call n s levels :
  hormones_json s = Content levels ->
  writable s HORMONES_FILE = true ->
  hormones_json (Nat.iter n decay_only_call s) = Content (Nat.iter n decay levels) /\
  writable (Nat.iter n decay_only_call s) HORMONES_FILE = true.
Proof.
  intros Hc Hw. induction n as [|n [IHc IHw]]; simpl; [done|].
  by apply decay_only_call_spec.
Qed.

(** C5. The decay step moves a level by 0.01 toward 0.5 and stops at 0.5,
    leaving a level of 0.5 as it is; both adjustment operations apply it to
    every hormone of the record, adjusted or not.  Under repeated decay-only
    calls the stored levels are the iterates of the step: they approach 0.5
    monotonically, never cross it, and are exactly 0.5 after at most
    [100 * |x - 0.5|] calls, 50 for a level of [0,1]. *)
Theorem decay_converges_to_baseline :
  (forall x,
      (0.51 <= x -> decay_level x == x - 0.01) /\
      (0.5 < x -> x <= 0.51 -> decay_level x == 0.5) /\
      (x <= 0.49 -> decay_level x == x + 0.01) /\
      (0.49 <= x -> x < 0.5 -> decay_level x == 0.5) /\
      (x == 0.5 -> decay_level x = x)) /\
  (forall event s levels s',
      adjust_hormones event s = (Ok levels, s') ->
      exists adjusted,
        apply_event event (loaded_hormones s) = Ok adjusted /\
        forall hormone, levels !! hormone = decay_level <$> adjusted !! hormone) /\
  (forall text s levels s',
      hormone_adjustments (analyze_contextual_sentiment text) <> [] ->
      apply_contextual_hormone_adjustments text s = (Ok levels, s') ->
      exists adjusted,
        apply_adjustments (hormone_adjustments (analyze_contextual_sentiment text))
                          (intensity (analyze_contextual_sentiment text))
                          (loaded_hormones s) = Ok adjusted /\
        forall hormone, levels !! hormone = decay_level <$> adjusted !! hormone) /\
  (forall s levels n,
      hormones_json s = Content levels ->
      writable s HORMONES_FILE = true ->
      exists stored,
        hormones_json (Nat.iter n decay_only_call s) = Content stored /\
        forall hormone,
          stored !! hormone = Nat.iter n decay_level <$> levels !! hormone) /\
  (forall x n,
      (0.5 <= x ->
       0.5 <= Nat.iter (S n) decay_level x /\
       Nat.iter (S n) decay_level x <= Nat.iter n decay_level x) /\
      (x <= 0.5 ->
       Nat.iter n decay_level x <= Nat.iter (S n) decay_level x /\
       Nat.iter (S n) decay_level x <= 0.5)) /\
  (forall x n,
      Qabs (x - 0.5) <= Num.of_nat n * 0.01 -> Nat.iter n decay_level x == 0.5) /\
  (forall x n, Num.in_unit x -> (50 <= n)%nat -> Nat.iter n decay_level x == 0.5).
Proof.
  split_and!.
  - apply decay_level_step.
  - intros event s levels s' Hrun.
    destruct (adjust_hormones_run event s) as (s1 & _ & Hcase).
    destruct (apply_event _ _) as [adjusted|e].
    + destruct Hcase as (s2 & _ & Hcase). rewrite Hcase in Hrun.
      injection Hrun as <- <-. exists adjusted. split; [done|].
      intros hormone. unfold decay. apply lookup_fmap.
    + rewrite Hcase in Hrun. discriminate.
  - intros text s levels s' Hne Hrun.
    destruct (apply_contextual_hormone_adjustments_run text s) as (s1 & _ & Hcase).
    destruct (hormone_adjustments _) as [|a rest]; [done|].
    destruct (apply_adjustments _ _ _) as [adjusted|e].
    + destruct Hcase as (s2 & _ & Hcase). rewrite Hcase in Hrun.
      injection Hrun as <- <-. exists adjusted. split; [done|].
      intros hormone. unfold decay. apply lookup_fmap.
    + rewrite Hcase in Hrun. discriminate.
  - intros s levels n Hc Hw.
    destruct (iter_decay_only_call n s levels Hc Hw) as [Hn _].
    eexists. split; [exact Hn|]. intros hormone. apply iter_decay_lookup.
  - intros x n. split; intros Hx.
    + split; [by apply iter_decay_above|].
      simpl. by apply decay_level_above, iter_decay_above.
    + split; [|by apply iter_decay_below].
      simpl. by apply decay_level_below, iter_decay_below.
  - intros x n Hd. apply Qabs_Qle_condition in Hd as [Hlo Hhi].
    apply iter_decay_within; lra.
  - intros x n [Hlo Hhi] Hn. apply of_nat_le in Hn.
    change (Num.of_nat 50) with 50 in Hn.
    apply iter_decay_within; lra.
Qed.

(** Fifty decay-only calls on the example store bring every stored level
    to 0.5. *)
Lemma decay_converges_to_baseline_witness :
  exists stored,
    hormones_json (Nat.iter 50 decay_only_call example_store) = Content stored /\
    forall hormone level,
      stored !! hormone = Some level -> level == 0.5.
Proof.
  destruct decay_converges_to_baseline as (_ & _ & _ & Hcalls & _ & _ & Hconv).
  destruct (Hcalls example_store _ 50%nat eq_refl eq_refl) as (stored & Hdoc & Hlevels).
  exists stored. split; [exact Hdoc|].
  intros hormone level Hl. rewrite Hlevels in Hl.
  apply fmap_Some in Hl as (x & Hx & ->).
  apply Hconv; [|lia].
  exact (example_store_in_unit _ eq_refl hormone x Hx).
Defined.

(** ** Hormones absent from the record *)

Lemma level_insert_default levels hormone other :
  levels !! hormone = None ->
  level (<[hormone := 0.5]> levels) other = level levels other.
Proof.
  intros Hn. unfold level. rewrite lookup_insert.
  case_decide as Heq; [|done]. subst. by rewrite Hn.
Qed.

Lemma mood_score_insert_default levels hormone weights :
  levels !! hormone = None ->
  mood_score (<[hormone := 0.5]> levels) weights = mood_score levels weights.
Proof.
  intros Hn. unfold mood_score. generalize 0.
  induction weights as [|hw rest IH]; intros acc; simpl; [done|].
  by rewrite IH, level_insert_default.
Qed.

Lemma archetype_insert_default levels hormone top_mood top_score :
  levels !! hormone = None ->
  archetype_or_defined (<[hormone := 0.5]> levels) top_mood top_score
  = archetype_or_defined levels top_mood top_score.
Proof.
  intros Hn. unfold archetype_or_defined. by rewrite !level_insert_default.
Qed.

Lemma emergent_prefixes_insert_default levels hormone :
  levels !! hormone = None ->
  emergent_prefixes (<[hormone := 0.5]> levels) = emergent_prefixes levels.
Proof.
  intros Hn. unfold emergent_prefixes. by rewrite !level_insert_default.
Qed.

Lemma update_level_missing hormone f levels :
  levels !! hormone = None -> update_level hormone f levels = Raise (KeyError hormone).
Proof. unfold update_level. by intros ->. Qed.

Lemma update_level_keeps_missing hormone f levels levels' missing :
  update_level hormone f levels = Ok levels' ->
  levels' !! missing = None <-> levels !! missing = None.
Proof.
  unfold update_level. destruct (levels !! hormone) as [old|] eqn:Hold; [|discriminate].
  intros [= <-]. rewrite lookup_insert_None. split; [tauto|].
  intros Hm. split; [done|]. intros ->. congruence.
Qed.

(** The loop over the deltas stops with [KeyError] at the first adjusted
    hormone the record lacks. *)
Lemma apply_adjustments_missing adjustments multiplier levels :
  Exists (fun a => levels !! a.1 = None) adjustments ->
  exists missing,
    missing ∈ map fst adjustments /\ levels !! missing = None /\
    apply_adjustments adjustments multiplier levels = Raise (KeyError missing).
Proof.
  revert levels. induction adjustments as [|[hormone base] rest IH]; intros levels Hex.
  - by apply Exists_nil in Hex.
  - cbn [apply_adjustments].
    destruct (levels !! hormone) as [old|] eqn:Hold.
    + apply Exists_cons in Hex as [Hex|Hex]; [cbn in Hex; congruence|].
      destruct (update_level hormone _ levels) as [levels1|e] eqn:Hu;
        [|unfold update_level in Hu; rewrite Hold in Hu; discriminate].
      destruct (IH levels1) as (missing & Hin & Hm & Hr).
      { eapply Exists_impl; [exact Hex|]. intros a Ha. cbn in Ha |- *.
        exact (proj2 (update_level_keeps_missing _ _ _ _ _ Hu) Ha). }
      exists missing.
      split_and!; [|exact (proj1 (update_level_keeps_missing _ _ _ _ _ Hu) Hm)|exact Hr].
      cbn [map]. apply elem_of_cons. by right.
    + exists hormone. split_and!; [cbn [map fst]; apply elem_of_cons; by left|done|].
      by rewrite update_level_missing.
Qed.

Lemma two_updates_missing first f1 second f2 levels :
  Exists (fun hormone => levels !! hormone = None) [first; second] ->
  exists missing,
    missing ∈ [first; second] /\ levels !! missing = None /\
    (let! hormones := update_level first f1 levels in update_level second f2 hormones)
    = Raise (KeyError missing).
Proof.
  intros Hex. destruct (levels !! first) as [old|] eqn:Hfirst.
  - assert (levels !! second = None) as Hsecond.
    { apply Exists_cons in Hex as [Hex|Hex]; [congruence|].
      apply Exists_cons in Hex as [Hex|Hex]; [done|]. by apply Exists_nil in Hex. }
    exists second. split_and!; [set_solver|done|].
    unfold update_level at 1. rewrite Hfirst. cbn.
    apply update_level_missing. rewrite lookup_insert_None. split; [done|].
    intros ->. congruence.
  - exists first. split_and!; [set_solver|done|].
    by rewrite update_level_missing.
Qed.

Lemma apply_event_missing event hormones_of_event levels :
  (event, hormones_of_event) ∈ legacy_events ->
  Exists (fun hormone => levels !! hormone = None) hormones_of_event ->
  exists missing,
    missing ∈ hormones_of_event /\ levels !! missing = None /\
    apply_event (Some event) levels = Raise (KeyError missing).
Proof.
  assert (Hall : Forall (fun eh =>
            Exists (fun hormone => levels !! hormone = None) eh.2 ->
            exists missing,
              missing ∈ eh.2 /\ levels !! missing = None /\
              apply_event (Some eh.1) levels = Raise (KeyError missing)) legacy_events).
  { unfold legacy_events.
    repeat constructor; cbn [fst snd]; intros Hex; unfold apply_event;
      repeat case_decide; try congruence; by apply two_updates_missing. }
  intros Hin. rewrite Forall_forall in Hall. apply (Hall _ Hin).
Qed.

(** C10. A hormone the record lacks counts as 0.5 when moods are scored
    and when the archetypes are checked: scoring the record is scoring the
    record with that hormone set to 0.5, and so it is for the rule cascade
    and for the prefixes of the emergent variation.  The two adjustment
    operations read the stored record by key instead: when a sentiment
    result, or a known legacy event, adjusts a hormone the stored record
    lacks, the operation raises [KeyError] on such a hormone and the store
    is left as it was. *)
Theorem missing_hormone_is_a_KeyError :
  (forall levels hormone, levels !! hormone = None -> level levels hormone = 0.5) /\
  (forall levels hormone mood_weights,
      levels !! hormone = None ->
      calculate_mood_scores (<[hormone := 0.5]> levels) mood_weights
      = calculate_mood_scores levels mood_weights) /\
  (forall levels hormone mood_scores threshold,
      levels !! hormone = None ->
      detect_undefined_mood_state mood_scores (<[hormone := 0.5]> levels) threshold
      = detect_undefined_mood_state mood_scores levels threshold) /\
  (forall levels hormone,
      levels !! hormone = None ->
      emergent_prefixes (<[hormone := 0.5]> levels) = emergent_prefixes levels) /\
  (forall text s levels,
      hormones_json s = Content levels ->
      Exists (fun a => levels !! a.1 = None)
             (hormone_adjustments (analyze_contextual_sentiment text)) ->
      exists missing,
        missing ∈ map fst (hormone_adjustments (analyze_contextual_sentiment text)) /\
        levels !! missing = None /\
        apply_contextual_hormone_adjustments text s = (Raise (KeyError missing), s)) /\
  (forall event hormones_of_event s levels,
      hormones_json s = Content levels ->
      (event, hormones_of_event) ∈ legacy_events ->
      Exists (fun hormone => levels !! hormone = None) hormones_of_event ->
      exists missing,
        missing ∈ hormones_of_event /\
        levels !! missing = None /\
        adjust_hormones (Some event) s = (Raise (KeyError missing), s)).
Proof.
  split_and!.
  - intros levels hormone Hn. unfold level. by rewrite Hn.
  - intros levels hormone mood_weights Hn. unfold calculate_mood_scores.
    apply map_ext. intros mw. by rewrite mood_score_insert_default.
  - intros levels hormone mood_scores threshold Hn.
    unfold detect_undefined_mood_state.
    repeat case_match; try done. cbn. repeat case_match; try done.
    by rewrite archetype_insert_default.
  - apply emergent_prefixes_insert_default.
  - intros text s levels Hc Hex.
    destruct (apply_contextual_hormone_adjustments_run text s) as (s1 & Hload & Hcase).
    rewrite (load_hormone_levels_content s levels Hc) in Hload.
    injection Hload as Hlevels <-. rewrite <- Hlevels in Hcase.
    destruct (apply_adjustments_missing _ (intensity (analyze_contextual_sentiment text))
                _ Hex) as (missing & Hin & Hm & Hr).
    exists missing. split_and!; [done..|].
    destruct (hormone_adjustments _) as [|a rest]; [by apply Exists_nil in Hex|].
    by rewrite Hr in Hcase.
  - intros event hormones_of_event s levels Hc Hin Hex.
    destruct (adjust_hormones_run (Some event) s) as (s1 & Hload & Hcase).
    rewrite (load_hormone_levels_content s levels Hc) in Hload.
    injection Hload as Hlevels <-. rewrite <- Hlevels in Hcase.
    destruct (apply_event_missing event hormones_of_event levels Hin Hex)
      as (missing & Hin' & Hm & Hr).
    exists missing. split_and!; [done..|]. by rewrite Hr in Hcase.
Qed.

(** A record without serotonin, as a hand-edited document may hold. *)
Definition store_without_serotonin : Store :=
  set_hormones_json
    (Content (record_of [("dopamine", 0.5); ("cortisol", 0.5); ("oxytocin", 0.5)]))
    example_store.

(** On a record without serotonin, a text of thanks and a stress event
    both end in [KeyError]. *)
Lemma missing_hormone_is_a_KeyError_witness :
  apply_contextual_hormone_adjustments "thanks a lot" store_without_serotonin
  = (Raise (KeyError "serotonin"), store_without_serotonin) /\
  adjust_hormones (Some "stress") store_without_serotonin
  = (Raise (KeyError "serotonin"), store_without_serotonin).
Proof.
  destruct missing_hormone_is_a_KeyError as (_ & _ & _ & _ & Htext & Hevent).
  split.
  - destruct (Htext "thanks a lot" store_without_serotonin _ eq_refl)
      as (missing & Hin & Hm & Hr).
    { apply Exists_cons_tl, Exists_cons_hd. reflexivity. }
    apply elem_of_cons in Hin as [->|Hin]; [discriminate Hm|].
    apply elem_of_cons in Hin as [->|Hin]; [exact Hr|].
    by apply elem_of_nil in Hin.
  - destruct (Hevent "stress" ["cortisol"; "serotonin"] store_without_serotonin _ eq_refl)
      as (missing & Hin & Hm & Hr).
    { unfold legacy_events. set_solver. }
    { apply Exists_cons_tl, Exists_cons_hd. reflexivity. }
    apply elem_of_cons in Hin as [->|Hin]; [discriminate Hm|].
    apply elem_of_cons in Hin as [->|Hin]; [exact Hr|].
    by apply elem_of_nil in Hin.
Defined.

(** ** The mood history *)

(** The history [load_mood_history] hands back. *)
Definition stored_history (s : Store) : list Entry.t :=
  match mood_history_json s with
  | Content history => history
  | _ => []
  end.

Section LastN.
Context {A : Type}.
Implicit Types l : list A.

Lemma trim_last_n l : trim l = last_n 100 l.
Proof.
  unfold trim, last_n. destruct (100 <? length l)%nat eqn:H; [done|].
  apply Nat.ltb_ge in H. by replace (length l - 100)%nat with 0%nat by lia.
Qed.

Lemma last_n_length n l : length (last_n n l) = Nat.min n (length l).
Proof. unfold last_n. rewrite length_drop. lia. Qed.

Lemma last_n_app_r n l1 l2 : (n <= length l2)%nat -> last_n n (l1 ++ l2) = last_n n l2.
Proof.
  intros H. unfold last_n. rewrite length_app.
  replace (length l1 + length l2 - n)%nat
    with (length l1 + (length l2 - n))%nat by lia.
  by rewrite drop_app_add.
Qed.

Lemma last_n_short n l : (length l <= n)%nat -> last_n n l = l.
Proof. intros H. unfold last_n. by replace (length l - n)%nat with 0%nat by lia. Qed.

(** Trimming before an append does not change what a later trim keeps. *)
Lemma last_n_app_last_n n l1 l2 : last_n n (last_n n l1 ++ l2) = last_n n (l1 ++ l2).
Proof.
  destruct (decide (length l1 <= n)%nat) as [Hle|Hgt];
    [by rewrite (last_n_short n l1 Hle)|].
  unfold last_n at 1 3. rewrite !length_app, last_n_length.
  rewrite <- (take_drop (length l1 - n) l1) at 4. rewrite <- app_assoc.
  replace (length l1 + length l2 - n)%nat
    with ((length l1 - n) + length l2)%nat by lia.
  rewrite drop_app_add' by (rewrite length_take; lia).
  unfold last_n. f_equal. lia.
Qed.

Lemma last_n_snoc_last n l x : (0 < n)%nat -> last (last_n n (l ++ [x])) = Some x.
Proof.
  intros Hn. unfold last_n. rewrite length_app. simpl.
  replace (length l + 1 - n)%nat with (length l - (n - 1))%nat by lia.
  rewrite drop_app_le by lia. apply last_snoc.
Qed.

End LastN.

Lemma last_n_map {A B} (f : A -> B) n (l : list A) :
  map f (last_n n l) = last_n n (map f l).
Proof. unfold last_n. by rewrite length_map, <- fmap_drop. Qed.

(** *** One call of [update_mood] *)

Module Call.
Record t := {
  new_mood : string;
  intensity : Q;
  reason : string;
  hormone_context : option Context.t
}.
End Call.

Definition call_update_mood (c : Call.t) : M unit :=
  update_mood (Call.new_mood c) (Call.intensity c) (Call.reason c) (Call.hormone_context c).

(** The store after the calls [calls], made in order. *)
Definition run_calls (calls : list Call.t) (s : Store) : Store :=
  foldl (fun s c => (call_update_mood c s).2) s calls.

(** The entry each call left at the end of the stored history, in call
    order. *)
Fixpoint appended_entries (calls : list Call.t) (s : Store) : list Entry.t :=
  match calls with
  | [] => []
  | c :: rest =>
      let s' := (call_update_mood c s).2 in
      option_list (last (stored_history s')) ++ appended_entries rest s'
  end.

(** What identifies an entry as the one of a call. *)
Definition entry_key (e : Entry.t) : string * Q * string :=
  (Entry.mood e, Entry.intensity e, Entry.reason e).

Definition call_key (c : Call.t) : string * Q * string :=
  (Call.new_mood c, Call.intensity c, Call.reason c).

(** What the steps of [update_mood] leave untouched: the permissions and
    the clock. *)
Definition same_world (s s' : Store) : Prop :=
  writable s' = writable s /\ clock s' = clock s /\ ticks s' = ticks s /\
  truncates s' = truncates s.

Lemma load_mood_history_spec s :
  exists s',
    load_mood_history s = (Ok (stored_history s), s') /\
    same_world s s' /\
    mood_adjustments_json s' = mood_adjustments_json s.
Proof.
  unfold load_mood_history, stored_history, file_exists, try_read, try_write, print.
  destruct s as [hj wj aj hij w tr c t rf rp d out]. cbn.
  destruct hij as [| |history]; cbn;
    [destruct (w MOOD_HISTORY_FILE); [|destruct (tr MOOD_HISTORY_FILE)]; cbn|..];
    eexists; (split; [reflexivity|]); by repeat split.
Qed.

Lemma save_mood_history_spec history s :
  writable s MOOD_HISTORY_FILE = true ->
  exists s',
    save_mood_history history s = (Ok (), s') /\
    same_world s s' /\
    mood_history_json s' = Content history.
Proof.
  unfold save_mood_history, try_write, pass.
  destruct s as [hj wj aj hij w tr c t rf rp d out]. cbn. intros ->. cbn.
  eexists; (split; [reflexivity|]); by repeat split.
Qed.

(** The optional hormone snapshot of a history entry. *)
Lemma snapshot_spec (wanted : bool) s :
  exists snapshot s',
    (if wanted then let! levels := load_hormone_levels in ret (Some levels)
     else ret None) s = (Ok snapshot, s') /\
    same_world s s'.
Proof.
  destruct wanted.
  - destruct (load_hormone_levels_spec s) as (s' & Hload & Hsame & _).
    exists (Some (loaded_hormones s)), s'. rewrite bind_run, Hload.
    split; [done|]. destruct Hsame as (_ & _ & _ & ? & ? & ? & _ & _ & _ & ?).
    by repeat split.
  - exists None, s. by repeat split.
Qed.

Lemma print_spec tag s :
  exists s', print tag s = (Ok (), s') /\
    same_world s s' /\
    mood_history_json s' = mood_history_json s /\
    mood_adjustments_json s' = mood_adjustments_json s /\
    stdout s' = (stdout s ++ [tag])%list.
Proof. eexists. by repeat split. Qed.

Lemma update_mood_appends new_mood intensity reason hormone_context s :
  writable s MOOD_ADJUSTMENTS_FILE = true ->
  writable s MOOD_HISTORY_FILE = true ->
  exists entry s',
    update_mood new_mood intensity reason hormone_context s = (Ok (), s') /\
    mood_history_json s' = Content (trim (stored_history s ++ [entry])) /\
    writable s' = writable s /\
    entry_key entry = (new_mood, intensity, reason) /\
    Entry.timestamp entry = clock s (S (ticks s)).
Proof.
  intros Ha Hh. unfold update_mood.
  set (context := match hormone_context with
                  | Some c => c
                  | None => get_mood_context new_mood intensity
                  end).
  rewrite bind_run. unfold utcnow at 1.
  rewrite bind_run. unfold try_write at 1.
  change (writable (set_ticks (S (ticks s)) s) (file_id mood_adjustments_ref))
    with (writable s MOOD_ADJUSTMENTS_FILE).
  rewrite Ha. cbn [negb].
  set (s1 := set_doc mood_adjustments_ref _ _).
  destruct (load_mood_history_spec s1) as (s2 & Hload & (Hw2 & Hc2 & Ht2 & _) & _).
  rewrite bind_run, Hload, bind_run. unfold utcnow at 1.
  set (s3 := set_ticks _ s2).
  destruct (snapshot_spec (wants_snapshot reason) s3)
    as (snapshot & s4 & Hsnap & (Hw4 & _ & _)).
  rewrite bind_run, Hsnap.
  set (entry := {| Entry.timestamp := clock s2 (ticks s2) |}).
  destruct (save_mood_history_spec (trim (stored_history s1 ++ [entry])) s4)
    as (s5 & Hsave & (Hw5 & _ & _) & Hdoc5).
  { rewrite Hw4. change (writable s3) with (writable s2). rewrite Hw2. exact Hh. }
  rewrite bind_run, Hsave.
  destruct (print_spec "[Mood Update]" s5) as (s6 & Hprint & (Hw6 & _ & _) & Hdoc6 & _).
  rewrite Hprint. exists entry, s6. split_and!.
  - reflexivity.
  - rewrite Hdoc6, Hdoc5. reflexivity.
  - rewrite Hw6, Hw5, Hw4. change (writable s3) with (writable s2). by rewrite Hw2.
  - reflexivity.
  - cbn. rewrite Hc2, Ht2. reflexivity.
Qed.

(** *** A sequence of calls *)

Lemma run_calls_cons c calls s :
  run_calls (c :: calls) s = run_calls calls (call_update_mood c s).2.
Proof. reflexivity. Qed.

(** One call appends its entry and trims. *)
Lemma call_update_mood_spec c s :
  writable s MOOD_ADJUSTMENTS_FILE = true ->
  writable s MOOD_HISTORY_FILE = true ->
  exists entry,
    mood_history_json (call_update_mood c s).2
      = Content (last_n 100 (stored_history s ++ [entry])) /\
    last (stored_history (call_update_mood c s).2) = Some entry /\
    writable (call_update_mood c s).2 = writable s /\
    entry_key entry = call_key c.
Proof.
  intros Ha Hh.
  destruct (update_mood_appends (Call.new_mood c) (Call.intensity c) (Call.reason c)
              (Call.hormone_context c) s Ha Hh) as (entry & s' & Hrun & Hdoc & Hw & Hkey & _).
  exists entry. unfold call_update_mood. rewrite Hrun. cbn [snd].
  rewrite trim_last_n in Hdoc. split_and!; [done| |done|done].
  unfold stored_history at 1. rewrite Hdoc. apply last_n_snoc_last. lia.
Qed.

Lemma appended_entries_keys calls : forall s,
  writable s MOOD_ADJUSTMENTS_FILE = true ->
  writable s MOOD_HISTORY_FILE = true ->
  map entry_key (appended_entries calls s) = map call_key calls.
Proof.
  induction calls as [|c rest IH]; intros s Ha Hh; [done|].
  destruct (call_update_mood_spec c s Ha Hh) as (entry & _ & Hlast & Hw & Hkey).
  cbn [appended_entries]. rewrite Hlast.
  change (option_list (Some entry)) with [entry]. cbn [app map].
  rewrite Hkey. f_equal. apply IH; by rewrite Hw.
Qed.

(** With the snapshot and the history writable, the stored history after
    the calls is the trimmed concatenation of any list [before] whose trim
    was stored and of the entries the calls appended. *)
Lemma run_calls_history calls : forall s before,
  writable s MOOD_ADJUSTMENTS_FILE = true ->
  writable s MOOD_HISTORY_FILE = true ->
  stored_history s = last_n 100 before ->
  mood_history_json s = Content (stored_history s) ->
  mood_history_json (run_calls calls s)
    = Content (last_n 100 (before ++ appended_entries calls s)).
Proof.
  induction calls as [|c rest IH]; intros s before Ha Hh Hb Hs.
  - cbn. by rewrite app_nil_r, <- Hb.
  - rewrite run_calls_cons. cbn [appended_entries].
    destruct (call_update_mood_spec c s Ha Hh) as (entry & Hdoc & Hlast & Hw & _).
    rewrite Hlast. change (option_list (Some entry)) with [entry].
    assert (stored_history (call_update_mood c s).2 = last_n 100 (before ++ [entry]))
      as Hb'.
    { unfold stored_history at 1. rewrite Hdoc, Hb. apply last_n_app_last_n. }
    rewrite (IH _ (before ++ [entry])%list); [by rewrite <- app_assoc|by rewrite Hw..|done|].
    by rewrite Hdoc, Hb', Hb, last_n_app_last_n.
Qed.

(** C6. Whatever the stored history at the start, after a hundred calls or
    more of [update_mood], each of which could write the snapshot and the
    history, the stored history has exactly 100 entries: the entries of the
    last 100 calls, in call order.  After fewer calls it is the last 100 of
    the initial history followed by the appended entries: the oldest go
    first. *)
Theorem history_keeps_last_hundred (s : Store) (calls : list Call.t) :
  writable s MOOD_ADJUSTMENTS_FILE = true ->
  writable s MOOD_HISTORY_FILE = true ->
  (calls <> [] ->
   mood_history_json (run_calls calls s)
     = Content (last_n 100 (stored_history s ++ appended_entries calls s))) /\
  length (appended_entries calls s) = length calls /\
  map entry_key (appended_entries calls s) = map call_key calls /\
  ((100 <= length calls)%nat ->
   exists history,
     mood_history_json (run_calls calls s) = Content history /\
     length history = 100%nat /\
     history = last_n 100 (appended_entries calls s) /\
     map entry_key history = last_n 100 (map call_key calls)).
Proof.
  intros Ha Hh.
  pose proof (appended_entries_keys calls s Ha Hh) as Hkeys.
  assert (Hlen : length (appended_entries calls s) = length calls).
  { apply (f_equal length) in Hkeys. by rewrite !length_map in Hkeys. }
  assert (Hgen : calls <> [] ->
     mood_history_json (run_calls calls s)
       = Content (last_n 100 (stored_history s ++ appended_entries calls s))).
  { intros Hne. destruct calls as [|c rest]; [done|]. clear Hkeys Hlen.
    rewrite run_calls_cons. cbn [appended_entries].
    destruct (call_update_mood_spec c s Ha Hh) as (entry & Hdoc & Hlast & Hw & _).
    rewrite Hlast. change (option_list (Some entry)) with [entry].
    rewrite (run_calls_history rest _ (stored_history s ++ [entry])%list);
      [by rewrite <- app_assoc|by rewrite Hw..| |].
    - unfold stored_history at 1. by rewrite Hdoc.
    - unfold stored_history. by rewrite Hdoc. }
  split_and!; [exact Hgen|exact Hlen|exact Hkeys|].
  intros Hn. eexists. split; [apply Hgen; intros ->; simpl in Hn; lia|].
  rewrite last_n_app_r by lia.
  split_and!; [|done|].
  - rewrite last_n_length. lia.
  - by rewrite last_n_map, Hkeys.
Qed.

(** A hundred and three calls on the example store. *)
Definition example_calls : list Call.t :=
  map (fun n => {| Call.new_mood := "mood-" +:+ pretty n;
                   Call.intensity := 0.5;
                   Call.reason := "contextual_analysis";
                   Call.hormone_context := None |})
      (seq 0 103).

Lemma history_keeps_last_hundred_witness :
  exists history,
    mood_history_json (run_calls example_calls example_store) = Content history /\
    length history = 100%nat /\
    map entry_key history = last_n 100 (map call_key example_calls).
Proof.
  destruct (history_keeps_last_hundred example_store example_calls eq_refl eq_refl)
    as (_ & _ & _ & H).
  destruct H as (history & Hdoc & Hlen & _ & Hkeys).
  { unfold example_calls. rewrite length_map, length_seq. lia. }
  exists history. by split_and!.
Defined.

(** ** A snapshot that cannot be written *)

Definition loaded_mood_weights (s : Store) : MoodWeights :=
  match mood_weights_json s with
  | Content weights => weights
  | _ => _DEFAULT_MOOD_WEIGHTS
  end.

(** What the steps before [update_mood] leave untouched. *)
Definition same_mood_documents (s s' : Store) : Prop :=
  mood_history_json s' = mood_history_json s /\
  mood_adjustments_json s' = mood_adjustments_json s /\
  writable s' = writable s /\ truncates s' = truncates s.

Lemma load_mood_weights_spec s :
  exists s',
    load_mood_weights s = (Ok (loaded_mood_weights s), s') /\
    same_mood_documents s s'.
Proof.
  unfold load_mood_weights, loaded_mood_weights, _ensure_file, file_exists, try_read,
    try_write, print, pass.
  destruct s as [hj wj aj hij w tr c t rf rp d out]. cbn.
  destruct wj as [| |weights]; cbn;
    [destruct (w MOOD_WEIGHTS_FILE); [|destruct (tr MOOD_WEIGHTS_FILE)]; cbn|..];
    eexists; (split; [reflexivity|]); by repeat split.
Qed.

Lemma generate_emergent_mood_variations_frame base_mood hormone_levels s r s' :
  generate_emergent_mood_variations base_mood hormone_levels s = (r, s') ->
  same_mood_documents s s'.
Proof.
  unfold generate_emergent_mood_variations.
  destruct (emergent_prefixes hormone_levels) as [|p ps].
  - intros [= <- <-]. by repeat split.
  - rewrite bind_run. unfold random_random at 1.
    destruct (Qlt_le_dec _ _).
    + rewrite bind_run. unfold random_choice at 1.
      destruct (_ !! _); intros [= <- <-]; by repeat split.
    + intros [= <- <-]. by repeat split.
Qed.

Lemma infer_mood_from_hormones_frame hormone_levels mood_weights s r s' :
  infer_mood_from_hormones hormone_levels mood_weights s = (r, s') ->
  same_mood_documents s s'.
Proof.
  unfold infer_mood_from_hormones. rewrite bind_run. unfold lift at 1.
  destruct (detect_undefined_mood_state _ _ _) as [[[is_undefined mood_name] i]|e].
  - destruct is_undefined; [intros [= <- <-]; by repeat split|].
    destruct (best_of _) as [best_mood best_score]. rewrite bind_run.
    destruct (generate_emergent_mood_variations _ _ _) as [[mood|e] s1] eqn:Hg;
      intros [= <- <-]; by eapply generate_emergent_mood_variations_frame.
  - intros [= <- <-]. by repeat split.
Qed.

Lemma update_mood_unwritable new_mood intensity reason hormone_context s :
  writable s MOOD_ADJUSTMENTS_FILE = false ->
  exists s',
    update_mood new_mood intensity reason hormone_context s = (Ok (), s') /\
    mood_history_json s' = mood_history_json s /\
    mood_adjustments_json s' =
      (if truncates s MOOD_ADJUSTMENTS_FILE then Malformed else mood_adjustments_json s) /\
    stdout s' = (stdout s ++ ["[Mood update error]"])%list.
Proof.
  intros Ha. unfold update_mood.
  rewrite bind_run. unfold utcnow at 1.
  rewrite bind_run. unfold try_write at 1.
  change (writable (set_ticks (S (ticks s)) s) (file_id mood_adjustments_ref))
    with (writable s MOOD_ADJUSTMENTS_FILE).
  change (truncates (set_ticks (S (ticks s)) s) (file_id mood_adjustments_ref))
    with (truncates s MOOD_ADJUSTMENTS_FILE).
  rewrite Ha. destruct (truncates s MOOD_ADJUSTMENTS_FILE); cbn [negb];
    (eexists; split; [reflexivity|]); by repeat split.
Qed.

(** C8. When the snapshot document cannot be written, [update_mood] logs
    the error and returns at once: the history is left as it was, no entry
    being appended for the call, and the new mood is not written to the
    snapshot, which is left as it was when the write fails before the file
    is opened, and truncated, hence unreadable, when it fails after.  The
    caller [update_mood_from_hormones] still hands back the mood, the
    intensity and the context it computed. *)
Theorem snapshot_write_failure_skips_history (s : Store) :
  writable s MOOD_ADJUSTMENTS_FILE = false ->
  (forall new_mood intensity reason hormone_context,
      exists s',
        update_mood new_mood intensity reason hormone_context s = (Ok (), s') /\
        mood_history_json s' = mood_history_json s /\
        mood_adjustments_json s' =
          (if truncates s MOOD_ADJUSTMENTS_FILE then Malformed
           else mood_adjustments_json s) /\
        stdout s' = (stdout s ++ ["[Mood update error]"])%list) /\
  (forall reason,
      exists s1 s2,
        load_hormone_levels s = (Ok (loaded_hormones s), s1) /\
        load_mood_weights s1 = (Ok (loaded_mood_weights s), s2) /\
        forall mood intensity s3,
          infer_mood_from_hormones (loaded_hormones s) (loaded_mood_weights s) s2
            = (Ok (mood, intensity), s3) ->
          exists s',
            update_mood_from_hormones reason s
              = (Ok (mood, intensity, get_mood_context mood intensity), s') /\
            mood_history_json s' = mood_history_json s /\
            mood_adjustments_json s' =
              (if truncates s MOOD_ADJUSTMENTS_FILE then Malformed
               else mood_adjustments_json s)).
Proof.
  intros Ha. split.
  - intros new_mood intensity reason hormone_context.
    apply (update_mood_unwritable new_mood intensity reason hormone_context s Ha).
  - intros reason.
    destruct (load_hormone_levels_spec s) as (s1 & Hload & Hsame & _).
    destruct Hsame as (Hw1 & Hm1 & Hh1 & Hwr1 & _ & _ & _ & _ & _ & Htr1).
    destruct (load_mood_weights_spec s1) as (s2 & Hweights & (Hh2 & Hm2 & Hwr2 & Htr2)).
    assert (loaded_mood_weights s1 = loaded_mood_weights s) as Hlw.
    { unfold loaded_mood_weights. by rewrite Hw1. }
    rewrite Hlw in Hweights.
    exists s1, s2. split_and!; [done..|].
    intros mood intensity s3 Hinfer.
    destruct (infer_mood_from_hormones_frame _ _ _ _ _ Hinfer) as (Hh3 & Hm3 & Hwr3 & Htr3).
    destruct (update_mood_unwritable mood intensity reason
                (Some (get_mood_context mood intensity)) s3)
      as (s4 & Hrun & Hh4 & Hm4 & _).
    { by rewrite Hwr3, Hwr2, Hwr1. }
    exists s4. split_and!.
    + unfold update_mood_from_hormones.
      rewrite bind_run, Hload, bind_run, Hweights, bind_run, Hinfer.
      cbv beta iota zeta. by rewrite bind_run, Hrun.
    + by rewrite Hh4, Hh3, Hh2, Hh1.
    + by rewrite Hm4, Htr3, Htr2, Htr1, Hm3, Hm2, Hm1.
Qed.

(** The example store with a snapshot document that cannot be written. *)
Definition store_with_locked_snapshot : Store :=
  {| hormones_json := hormones_json example_store;
     mood_weights_json := mood_weights_json example_store;
     mood_adjustments_json := Missing;
     mood_history_json := Content [];
     writable := fun f => match f with MOOD_ADJUSTMENTS_FILE => false | _ => true end;
     truncates := fun _ => false;
     clock := clock example_store; ticks := 0;
     random_floats := random_floats example_store;
     random_picks := random_picks example_store; draws := 0;
     stdout := [] |}.

(** On that store a call leaves the history empty and logs the error. *)
Lemma snapshot_write_failure_skips_history_witness :
  exists s',
    update_mood "cheerful" 0.7 "manual_recalculation" None store_with_locked_snapshot
      = (Ok (), s') /\
    mood_history_json s' = Content [] /\
    stdout s' = ["[Mood update error]"].
Proof.
  destruct (proj1 (snapshot_write_failure_skips_history store_with_locked_snapshot eq_refl)
              "cheerful" 0.7 "manual_recalculation" None) as (s' & Hrun & Hh & _ & Hout).
  exists s'. by split_and!.
Defined.

(** The claim of C8 fails on that store: the call returns with the error
    logged, and the history, which could be written, holds no entry. *)
Lemma snapshot_write_failure_loses_the_entry :
  writable store_with_locked_snapshot MOOD_ADJUSTMENTS_FILE = false /\
  writable store_with_locked_snapshot MOOD_HISTORY_FILE = true /\
  (update_mood "cheerful" 0.7 "manual_recalculation" None store_with_locked_snapshot).1
    = Ok () /\
  stored_history
    (update_mood "cheerful" 0.7 "manual_recalculation" None store_with_locked_snapshot).2
    = [] /\
  stdout
    (update_mood "cheerful" 0.7 "manual_recalculation" None store_with_locked_snapshot).2
    = ["[Mood update error]"].
Proof. split_and!; vm_compute; reflexivity. Qed.

(** * Further properties *)

(** ** More on the sentiment analyzer *)

Lemma starts_with_trans q p s :
  PyStr.starts_with q p = true -> PyStr.starts_with p s = true ->
  PyStr.starts_with q s = true.
Proof.
  revert p s. induction q as [|a q IH]; intros p s; [done|].
  destruct p as [|b p]; [done|]. destruct s as [|c s]; [done|].
  cbn [PyStr.starts_with]. rewrite !andb_true_iff.
  intros [Hab Hq] [Hbc Hp]. split; [|by eapply IH].
  apply Ascii.eqb_eq in Hab, Hbc. apply Ascii.eqb_eq. congruence.
Qed.

Lemma starts_with_contained q p s :
  PyStr.starts_with q p = true -> PyStr.contains p s = true ->
  PyStr.contains q s = true.
Proof.
  intros Hq. induction s as [|c s IH].
  - cbn [PyStr.contains]. rewrite !orb_false_r. by apply starts_with_trans.
  - cbn [PyStr.contains]. intros [H|H]%orb_true_iff.
    + apply orb_true_iff. left. by eapply starts_with_trans.
    + apply orb_true_iff. right. by apply IH.
Qed.

(** [in] is transitive: a text that holds [p] holds what [p] holds. *)
Lemma contains_trans q p s :
  PyStr.contains q p = true -> PyStr.contains p s = true -> PyStr.contains q s = true.
Proof.
  revert s. induction p as [|c p IH]; intros s.
  - cbn [PyStr.contains]. rewrite orb_false_r. apply starts_with_contained.
  - cbn [PyStr.contains]. intros [H|H]%orb_true_iff.
    + by apply starts_with_contained.
    + intros Hs. apply IH; [done|]. by eapply contains_drop_first.
Qed.

(** The patterns of the table, in the order the nested loop tries them. *)
Definition all_patterns (table : list (string * EmotionConfig)) : list string :=
  concat (map (fun ec => patterns ec.2) table).

Lemma find_app_none {A} (f : A -> bool) l1 l2 :
  List.find f l1 = None -> List.find f (l1 ++ l2) = List.find f l2.
Proof.
  induction l1 as [|x l1 IH]; [done|]. simpl. destruct (f x); [done|]. exact IH.
Qed.

Lemma find_app_some {A} (f : A -> bool) l1 l2 x :
  List.find f l1 = Some x -> List.find f (l1 ++ l2) = Some x.
Proof.
  induction l1 as [|y l1 IH]; [done|]. simpl. destruct (f y); [done|]. exact IH.
Qed.

(** The trigger of a pattern match is the first pattern of the whole table
    that occurs in the text. *)
Lemma first_match_is_first text_lower table emotion config pattern :
  first_match text_lower table = Some (emotion, config, pattern) ->
  List.find (fun q => PyStr.contains q text_lower) (all_patterns table) = Some pattern.
Proof.
  induction table as [|[e c] rest IH]; [done|].
  cbn [first_match]. unfold all_patterns. cbn [map concat snd].
  destruct (first_pattern text_lower (patterns c)) as [p|] eqn:Hp.
  - intros [= <- <- <-]. by apply find_app_some.
  - intros H. rewrite find_app_none by exact Hp. by apply IH.
Qed.

(** Whether a pattern tried before [p] is a substring of [p]. *)
Fixpoint shadowed_by_earlier (tried : list string) (p : string) : bool :=
  match tried with
  | [] => false
  | q :: rest =>
      if String.eqb q p then false
      else PyStr.contains q p || shadowed_by_earlier rest p
  end.

Lemma found_is_not_shadowed text_lower tried p :
  List.find (fun q => PyStr.contains q text_lower) tried = Some p ->
  shadowed_by_earlier tried p = false.
Proof.
  induction tried as [|q rest IH]; [done|]. cbn [List.find shadowed_by_earlier].
  destruct (PyStr.contains q text_lower) eqn:Hq.
  - intros [= ->]. by rewrite String.eqb_refl.
  - intros Hf. destruct (String.eqb q p); [done|].
    apply orb_false_iff. split; [|by apply IH].
    destruct (PyStr.contains q p) eqn:Hqp; [|done].
    apply find_some in Hf as [_ Hp].
    by rewrite (contains_trans q p text_lower Hqp Hp) in Hq.
Qed.

Fixpoint last_char (s : string) : option ascii :=
  match s with
  | EmptyString => None
  | String c EmptyString => Some c
  | String _ r => last_char r
  end.

Lemma last_char_app a b : b <> "" -> last_char (a +:+ b) = last_char b.
Proof.
  intros Hb. induction a as [|c a IH]; [done|].
  change (String c a +:+ b) with (String c (a +:+ b)). cbn [last_char].
  destruct (a +:+ b) eqn:Hab; [|exact IH].
  destruct a; [by subst|discriminate].
Qed.

(** The patterns that an earlier pattern of the table is a substring of. *)
Definition shadowed_patterns : list string :=
  ["you're terrible"; "you're awful"; "love you"; "i love you"; "you're amazing";
   "you're wonderful"; "thank you"; "i kiss you"; "hold you"; "miss you"; "kiss you";
   "lets go for a ride"].

(** X1. Twelve patterns of the table are never what triggers a result: for
    each of them an earlier pattern, in the order the table is tried, is a
    substring of it, so that earlier pattern is found first.  Every other
    pattern of the table does trigger, on the text made of a full stop and
    the pattern. *)
Theorem shadowed_patterns_never_trigger :
  (forall text,
      Forall (fun p => p ∈ all_patterns _EMOTION_PATTERNS /\
                       triggered_by (analyze_contextual_sentiment text) <> p)
             shadowed_patterns) /\
  Forall (fun p => p ∈ shadowed_patterns \/
                   triggered_by (analyze_contextual_sentiment ("." +:+ p)) = p)
         (all_patterns _EMOTION_PATTERNS).
Proof.
  split; [intros text|
    unfold all_patterns; cbn [map concat app _EMOTION_PATTERNS patterns snd];
    repeat (apply Forall_cons_2;
            [first [right; vm_compute; reflexivity
                   |left; unfold shadowed_patterns; set_solver]|]);
    apply Forall_nil_2].
  assert (Hshadowed : Forall (fun p => shadowed_by_earlier (all_patterns _EMOTION_PATTERNS) p
                                      = true) shadowed_patterns).
  { repeat constructor. }
  assert (Hlast : Forall (fun p => last_char p <> Some "s"%char /\
                                   last_char p <> Some "t"%char) shadowed_patterns).
  { repeat constructor; discriminate. }
  assert (Hin : Forall (fun p => p ∈ all_patterns _EMOTION_PATTERNS) shadowed_patterns).
  { unfold shadowed_patterns, all_patterns. cbn. repeat constructor; set_solver. }
  rewrite Forall_forall in Hshadowed, Hlast, Hin. apply Forall_forall.
  intros p Hp. split; [by apply Hin|]. intros Ht.
  unfold analyze_contextual_sentiment in Ht.
  destruct (first_match _ _) as [[[emotion config] pattern]|] eqn:Hm.
  - cbn in Ht. subst pattern. apply first_match_is_first, found_is_not_shadowed in Hm.
    by rewrite (Hshadowed p Hp) in Hm.
  - destruct (Hlast p Hp) as [Hs Hsent]. rewrite <- Ht in Hs, Hsent.
    unfold _word_level_sentiment_analysis in Hs, Hsent.
    repeat case_match; cbn [triggered_by] in Hs, Hsent.
    + by rewrite last_char_app in Hs.
    + by rewrite last_char_app in Hs.
    + by apply Hsent.
Qed.

Lemma exclamation_factor_bounds text :
  1 <= exclamation_factor text /\ exclamation_factor text <= 1.3 /\
  ((3 <= PyStr.count "!"%char text)%nat -> exclamation_factor text == 1.3) /\
  (PyStr.count "!"%char text = 0%nat -> exclamation_factor text = 1).
Proof.
  unfold exclamation_factor.
  pose proof (Nat.le_min_r (PyStr.count "!"%char text) 3) as Hk.
  destruct (0 <? _)%nat eqn:Hc.
  - apply Nat.ltb_lt in Hc.
    pose proof (of_nat_nonneg (Nat.min (PyStr.count "!"%char text) 3)) as H0.
    apply of_nat_le in Hk. change (Num.of_nat 3) with 3 in Hk.
    split_and!; [lra|lra| |lia].
    intros H3. rewrite Nat.min_r by lia. reflexivity.
  - apply Nat.ltb_ge in Hc. split_and!; [lra|lra|lia|done].
Qed.

(** X2. The contextual cues never lower an intensity and never take it
    above 1.0: for a base of 0 or more the result is at least
    [min(1, base)], at most 1.0, and at most 2.3322 times the base (all
    four cues at their strongest); from three exclamation marks on the
    exclamation factor stays at 1.3. *)
Theorem contextual_intensity_bounds (text : string) (base : Q) :
  0 <= base ->
  Num.min 1 base <= calculate_contextual_intensity text base /\
  calculate_contextual_intensity text base <= 1 /\
  calculate_contextual_intensity text base <= base * 2.3322 /\
  (base <= 1 -> base <= calculate_contextual_intensity text base) /\
  ((3 <= PyStr.count "!"%char text)%nat -> exclamation_factor text == 1.3).
Proof.
  intros Hb. pose proof (intensity_is_product text base) as Hp.
  destruct (exclamation_factor_bounds text) as (He1 & He2 & He3 & _).
  assert (Hprod : base <= base * exclamation_factor text * caps_factor text
                          * profanity_factor text * repetition_factor text /\
                  base * exclamation_factor text * caps_factor text
                  * profanity_factor text * repetition_factor text <= base * 2.3322).
  { assert (base <= base * exclamation_factor text /\
            base * exclamation_factor text <= base * 1.3) as [H1 H2] by (split; nra).
    unfold caps_factor, profanity_factor, repetition_factor.
    destruct (PyStr.isupper text && _), (existsb _ _), (repetition_detected _); lra. }
  revert Hp Hprod. generalize (base * exclamation_factor text * caps_factor text
                               * profanity_factor text * repetition_factor text).
  intros product Hp [Hlo Hhi]. rewrite Hp. unfold Num.min.
  split_and!; [| | |intros Hb1|exact He3]; repeat destruct (Qlt_le_dec _ _); lra.
Qed.

Lemma contextual_intensity_bounds_witness :
  0.8 <= calculate_contextual_intensity "You are AMAZING!!" 0.8 /\
  calculate_contextual_intensity "You are AMAZING!!" 0.8 <= 1.
Proof.
  destruct (contextual_intensity_bounds "You are AMAZING!!" 0.8) as (_ & H1 & _ & H2 & _);
    [lra|].
  split; [apply H2; lra|exact H1].
Defined.

Lemma count_in_le lexicon words : (count_in lexicon words <= length words)%nat.
Proof. unfold count_in. apply length_filter. Qed.

(** X3. Every sentiment result is of one of three shapes.  A pattern match
    has confidence 0.9, an intensity between 0.6 and 1.0, a category of the
    table and a trigger that occurs in the normalised text; a word analysis
    has confidence 0.6, an intensity between 0.5 and 0.7 and a moderate
    category; the fallback is neutral at intensity 0.3, confidence 0.4.
    The hormone deltas are empty exactly for a neutral result, name only
    the four hormones and are at most 0.15 in size. *)
Theorem sentiment_result_shape (text : string) :
  let result := analyze_contextual_sentiment text in
  ((method result = "pattern_match" /\ confidence result = 0.9 /\
    0.6 <= intensity result /\ intensity result <= 1 /\
    emotion_type result ∈ map fst _EMOTION_PATTERNS /\
    PyStr.contains (triggered_by result) (PyStr.strip (PyStr.lower text)) = true) \/
   (method result = "word_analysis" /\ confidence result = 0.6 /\
    0.5 <= intensity result /\ intensity result <= 0.7 /\
    emotion_type result ∈ ["moderate_positive"; "moderate_negative"]) \/
   (method result = "neutral_fallback" /\ confidence result = 0.4 /\
    intensity result = 0.3 /\ emotion_type result = "neutral")) /\
  (hormone_adjustments result = [] <-> emotion_type result = "neutral") /\
  Forall (fun a => a.1 ∈ hormone_names /\ Qabs a.2 <= 0.15) (hormone_adjustments result).
Proof.
  assert (Htable : Forall (fun ec =>
            0.6 <= base_intensity ec.2 /\ base_intensity ec.2 <= 1 /\
            hormones ec.2 <> [] /\ ec.1 <> "neutral" /\
            Forall (fun a => a.1 ∈ hormone_names /\ Qabs a.2 <= 0.15) (hormones ec.2))
          _EMOTION_PATTERNS).
  { unfold hormone_names, _EMOTION_PATTERNS.
    repeat (apply Forall_cons_2; [cbn [fst snd base_intensity hormones]|]);
      try apply Forall_nil_2.
    all: split_and!; [lra|lra|discriminate|discriminate|].
    all: repeat (apply Forall_cons_2; [split; [cbn; set_solver|]|]);
      try apply Forall_nil_2; apply Qabs_Qle_condition; cbn; split; lra. }
  cbv zeta. unfold analyze_contextual_sentiment.
  destruct (first_match _ _) as [[[emotion config] pattern]|] eqn:Hm.
  - apply first_match_in_table in Hm as (Hin & _ & Hc).
    rewrite Forall_forall in Htable.
    destruct (Htable _ Hin) as (Hb1 & Hb2 & Hne & Hnn & Hadj). cbn [fst snd] in *.
    cbn [method confidence intensity emotion_type triggered_by hormone_adjustments].
    destruct (contextual_intensity_bounds text (base_intensity config))
      as (_ & Hle & _ & Hge & _); [lra|].
    split_and!; [left|split; [intros H; by apply Hne in H|intros H; by apply Hnn in H]|done].
    split_and!; [done|done|specialize (Hge Hb2); lra|done| |done].
    apply list_elem_of_fmap. by exists (emotion, config).
  - unfold _word_level_sentiment_analysis, hormone_names.
    set (p := count_in positive_words _). set (n := count_in negative_words _).
    destruct ((0 <? p)%nat && (n <=? p)%nat) eqn:Hpos;
      [|destruct ((0 <? n)%nat && (p <? n)%nat) eqn:Hneg];
      cbn [method confidence intensity emotion_type triggered_by hormone_adjustments].
    + apply andb_true_iff in Hpos as [Hp%Nat.ltb_lt _].
      apply (of_nat_le 1) in Hp. change (Num.of_nat 1) with 1 in Hp.
      split_and!; [right; left|split; intros Habs; discriminate Habs|].
      * split_and!; [done|done| | |set_solver];
          unfold Num.min; destruct (Qlt_le_dec _ _); lra.
      * repeat (apply Forall_cons_2; [split; [cbn; set_solver|]|]);
          try apply Forall_nil_2; apply Qabs_Qle_condition; cbn; split; lra.
    + apply andb_true_iff in Hneg as [Hn%Nat.ltb_lt _].
      apply (of_nat_le 1) in Hn. change (Num.of_nat 1) with 1 in Hn.
      split_and!; [right; left|split; intros Habs; discriminate Habs|].
      * split_and!; [done|done| | |set_solver];
          unfold Num.min; destruct (Qlt_le_dec _ _); lra.
      * repeat (apply Forall_cons_2; [split; [cbn; set_solver|]|]);
          try apply Forall_nil_2; apply Qabs_Qle_condition; cbn; split; lra.
    + split_and!; [right; right|done|constructor]. done.
Qed.

(** ** More on the rule cascade *)

Lemma starts_with_app p s : PyStr.starts_with p (p +:+ s) = true.
Proof.
  induction p as [|c p IH]; [done|].
  change (String c p +:+ s) with (String c (p +:+ s)).
  cbn [PyStr.starts_with]. by rewrite Ascii.eqb_refl, IH.
Qed.

(** [p in a + p + b] *)
Lemma contains_middle a p b : PyStr.contains p (a +:+ p +:+ b) = true.
Proof.
  induction a as [|c a IH].
  - change ("" +:+ p +:+ b) with (p +:+ b).
    apply starts_with_contains, starts_with_app.
  - change (String c a +:+ p +:+ b) with (String c (a +:+ p +:+ b)).
    by apply contains_later.
Qed.

(** Every hybrid name holds the separator. *)
Lemma hybrid_name_has_dash top_mood top_score second_mood second_score :
  PyStr.contains "-" (hybrid_name top_mood top_score second_mood second_score) = true.
Proof.
  unfold hybrid_name. repeat case_match.
  - apply contains_middle.
  - apply (contains_middle "conflicted" "-").
  - apply (contains_middle "bittersweet" "-").
  - apply (contains_middle "bittersweet" "-").
Qed.

Lemma fold_max_in r x : fold_left Num.max r x ∈ x :: r.
Proof.
  revert x. induction r as [|a r IH]; intros x; simpl; [by left|].
  specialize (IH (Num.max x a)). apply elem_of_cons in IH as [->|IH].
  - unfold Num.max. destruct (Qlt_le_dec x a); [right|]; by left.
  - by do 2 right.
Qed.

(** The maximum the flat-affect rule computes is the absolute score of the
    top-ranked mood. *)
Lemma max_of_is_top mood_scores top rest m :
  sorted_moods mood_scores = top :: rest ->
  max_of (map (fun ms => Qabs ms.2) mood_scores) = Ok m ->
  m == Qabs top.2.
Proof.
  intros Hs Hm.
  pose proof (sorted_moods_perm mood_scores) as Hp. rewrite Hs in Hp.
  pose proof (sorted_moods_sorted mood_scores) as Hsorted. rewrite Hs in Hsorted.
  apply StronglySorted_cons in Hsorted as [Htop _]. rewrite Forall_forall in Htop.
  assert (Hge : Qabs top.2 <= m).
  { destruct (max_of_ge (map (fun ms => Qabs ms.2) mood_scores) (Qabs top.2))
      as (m' & Hm' & Hle).
    { apply list_elem_of_fmap. exists top. split; [done|]. rewrite <- Hp. by left. }
    rewrite Hm in Hm'. by injection Hm' as <-. }
  assert (Hle : m <= Qabs top.2).
  { destruct (map _ mood_scores) as [|x r] eqn:Hmap; [discriminate|].
    injection Hm as <-. pose proof (fold_max_in r x) as Hin.
    rewrite <- Hmap in Hin. apply list_elem_of_fmap in Hin as (ms & -> & Hms).
    rewrite <- Hp in Hms. apply elem_of_cons in Hms as [->|Hms]; [lra|].
    apply (Htop ms Hms). }
  lra.
Qed.

(** The archetypes that can come out of the overrides. *)
Lemma archetype_names hormone_levels top_mood top_score mood_name intensity :
  archetype_or_defined hormone_levels top_mood top_score = (true, mood_name, intensity) ->
  mood_name ∈ ["manic-energy"; "melancholic-affection"; "numb"].
Proof.
  unfold archetype_or_defined.
  destruct (Num.ltb 0.7 (level hormone_levels "dopamine")) eqn:Hd;
    destruct (Num.ltb 0.7 (level hormone_levels "cortisol")) eqn:Hc;
    cbn [andb]; try (intros [= <- _]; set_solver);
    (destruct (Num.ltb _ 0.3 && Num.ltb 0.7 _); [intros [= <- _]; set_solver|]);
    cbn [forallb];
    destruct (Num.ltb 0.8 (level hormone_levels "dopamine")) eqn:Hd8;
    destruct (Num.ltb 0.8 (level hormone_levels "cortisol")) eqn:Hc8;
    cbn [andb];
    try (apply Num.ltb_true in Hd8; apply Num.ltb_false in Hd; lra);
    try (apply Num.ltb_true in Hc8; apply Num.ltb_false in Hc; lra);
    repeat case_match; intros [= <- _]; set_solver.
Qed.

(** X4. The archetype [overwhelmed] is never detected: levels all above
    0.8 have dopamine and cortisol above 0.7, which is [manic-energy], the
    archetype tried first.  No table, record or threshold gives an undefined
    state of that name. *)
Theorem overwhelmed_is_never_detected
    (mood_scores : MoodScores) (hormone_levels : HormoneRecord) (threshold intensity : Q) :
  detect_undefined_mood_state mood_scores hormone_levels threshold
  <> Ok (true, "overwhelmed", intensity).
Proof.
  unfold detect_undefined_mood_state.
  destruct (sorted_moods mood_scores) as [|[top_mood top_score] [|[second_mood second_score] rest]];
    [discriminate|discriminate|].
  destruct (Qlt_le_dec _ _).
  - intros [= Hname _].
    pose proof (hybrid_name_has_dash top_mood top_score second_mood second_score) as Hd.
    rewrite Hname in Hd. discriminate Hd.
  - destruct (max_of _) as [m|e]; [|discriminate]. cbn.
    destruct (Qlt_le_dec m 0.2); [discriminate|].
    intros [= Ha]. apply archetype_names in Ha. set_solver.
Qed.

(** X5. The flat-affect rule fires in a narrow window only.  In a table
    of two moods or more on which the hybrid rule does not fire at the
    default threshold, all absolute scores below 0.2 give the state
    [undefined-neutral]; its intensity is the top absolute score, which is
    then at least 0.15, every other absolute score being at most 0.05. *)
Theorem flat_affect_window
    (mood_scores : MoodScores) (hormone_levels : HormoneRecord)
    top_mood top_score second_mood second_score rest :
  sorted_moods mood_scores = (top_mood, top_score) :: (second_mood, second_score) :: rest ->
  ~ Qabs (Qabs top_score - Qabs second_score) < 0.15 ->
  Forall (fun ms => Qabs ms.2 < 0.2) mood_scores ->
  exists intensity,
    detect_undefined_mood_state mood_scores hormone_levels default_threshold
    = Ok (true, "undefined-neutral", intensity) /\
    intensity == Qabs top_score /\
    0.15 <= intensity /\ intensity < 0.2 /\
    Forall (fun ms => Qabs ms.2 <= 0.05) ((second_mood, second_score) :: rest).
Proof.
  intros Hs Hhybrid Hflat.
  pose proof (sorted_moods_perm mood_scores) as Hp. rewrite Hs in Hp.
  pose proof (sorted_moods_sorted mood_scores) as Hsorted. rewrite Hs in Hsorted.
  apply StronglySorted_cons in Hsorted as [Htop Hsorted].
  apply StronglySorted_cons in Hsorted as [Hsecond _].
  assert (Hts : Qabs second_score <= Qabs top_score).
  { apply Forall_cons in Htop as [H _]. exact H. }
  assert (Htop2 : Qabs top_score < 0.2).
  { rewrite Forall_forall in Hflat. apply (Hflat (top_mood, top_score)).
    rewrite <- Hp. by left. }
  assert (Hgap : Qabs second_score + 0.15 <= Qabs top_score).
  { destruct (Qlt_le_dec (Qabs top_score) (Qabs second_score + 0.15)) as [Hlt|]; [|done].
    exfalso. apply Hhybrid. apply Qabs_Qlt_condition. split; lra. }
  pose proof (Qabs_nonneg second_score) as Hnn.
  rewrite (detect_past_hybrid _ _ _ _ _ _ _ _ Hs Hhybrid).
  destruct (max_of (map (fun ms => Qabs ms.2) mood_scores)) as [m|e] eqn:Hm.
  - pose proof (max_of_is_top _ _ _ _ Hs Hm) as Heq. cbn [snd] in Heq. cbn.
    destruct (Qlt_le_dec m 0.2); [|lra].
    exists m. split_and!; [done|done|lra|lra|].
    apply Forall_cons. split; [cbn; lra|].
    eapply Forall_impl; [exact Hsecond|]. intros ms Hms. unfold outranks in Hms.
    cbn in Hms |- *. lra.
  - destruct mood_scores; [|discriminate Hm].
    apply Permutation_nil_r in Hp. discriminate Hp.
Qed.

Lemma flat_affect_window_witness :
  detect_undefined_mood_state [("calm", 0.18); ("bored", -0.02)] _DEFAULT_HORMONES
                              default_threshold
  = Ok (true, "undefined-neutral", Qabs 0.18).
Proof.
  destruct (flat_affect_window [("calm", 0.18); ("bored", -0.02)] _DEFAULT_HORMONES
              "calm" 0.18 "bored" (-0.02) [] eq_refl) as (intensity & Hd & _).
  - apply Qle_not_lt. vm_compute. discriminate.
  - repeat constructor.
  - rewrite Hd. f_equal. vm_compute in Hd. by injection Hd as <-.
Defined.

(** X6. Every undefined state is flagged by the context it is recorded
    with: its label holds the separator or is [numb], so [get_mood_context]
    marks it hybrid or emergent, unless a hybrid happens to be spelled like
    one of the two exempted labels. *)
Theorem undefined_states_are_flagged
    (mood_scores : MoodScores) (hormone_levels : HormoneRecord)
    (threshold intensity : Q) (mood_name : string) :
  detect_undefined_mood_state mood_scores hormone_levels threshold
    = Ok (true, mood_name, intensity) ->
  mood_name ∉ ["well-being"; "self-esteem"] ->
  let context := get_mood_context mood_name intensity in
  (PyStr.contains "-" mood_name = true \/ mood_name = "numb") /\
  (Context.is_hybrid context = Some true \/ Context.is_emergent context = Some true).
Proof.
  intros Hd Hex.
  assert (Hshape : PyStr.contains "-" mood_name = true \/ mood_name = "numb").
  { unfold detect_undefined_mood_state in Hd.
    destruct (sorted_moods mood_scores)
      as [|[top_mood top_score] [|[second_mood second_score] rest]];
      [discriminate|discriminate|].
    destruct (Qlt_le_dec _ _).
    - injection Hd as <- _. left. apply hybrid_name_has_dash.
    - destruct (max_of _) as [m|e]; [|discriminate]. cbn in Hd.
      destruct (Qlt_le_dec m 0.2); [injection Hd as <- _; by left|].
      injection Hd as Hd. apply archetype_names in Hd.
      repeat (apply elem_of_cons in Hd as [->|Hd]); [by left|by left|by right|].
      by apply elem_of_nil in Hd. }
  cbv zeta. split; [exact Hshape|].
  unfold get_mood_context, get_mood_context_is_hybrid. cbn [Context.is_hybrid Context.is_emergent].
  destruct Hshape as [Hdash| ->]; [|by right].
  left. rewrite Hdash. cbn [andb]. f_equal.
  destruct (PyStr.mem mood_name _) eqn:Hmem; [|done].
  exfalso. apply Hex. unfold PyStr.mem in Hmem. cbn [existsb] in Hmem.
  rewrite orb_false_r in Hmem.
  apply orb_true_iff in Hmem as [H|H]; apply String.eqb_eq in H; subst; set_solver.
Qed.

Lemma undefined_states_are_flagged_witness :
  Context.is_hybrid (get_mood_context "cheerful-excited" (Num.min 1 ((Qabs 0.40 + Qabs 0.33) / 2)))
  = Some true.
Proof.
  destruct (undefined_states_are_flagged [("cheerful", 0.33); ("excited", 0.40)]
              _DEFAULT_HORMONES default_threshold
              (Num.min 1 ((Qabs 0.40 + Qabs 0.33) / 2)) "cheerful-excited")
    as [_ [H|H]]; [reflexivity|set_solver|exact H|discriminate H].
Defined.

(** ** More on the inference *)

Lemma fold_best mood_scores : forall best,
  fold_left (fun best ms => if Qlt_le_dec (Qabs best.2) (Qabs ms.2) then ms else best)
            mood_scores best
  = match sorted_moods mood_scores with
    | [] => best
    | top :: _ => if Qlt_le_dec (Qabs best.2) (Qabs top.2) then top else best
    end.
Proof.
  induction mood_scores as [|x l IH]; intros best; [done|].
  cbn [fold_left sorted_moods foldr]. fold (sorted_moods l). rewrite IH.
  destruct (sorted_moods l) as [|top rest]; cbn [insert_ranked]; [done|].
  destruct (Qlt_le_dec (Qabs x.2) (Qabs top.2));
    destruct (Qlt_le_dec (Qabs best.2) (Qabs x.2));
    repeat destruct (Qlt_le_dec _ _); try done; lra.
Qed.

(** X7. The loop of [infer_mood_from_hormones] that picks the best mood
    picks the top-ranked mood of [detect_undefined_mood_state] whenever that
    mood's score is not zero; when it is zero, or on an empty table, the
    loop answers ["neutral"] at score 0 instead. *)
Theorem best_mood_is_top_ranked (mood_scores : MoodScores) :
  best_of mood_scores =
  match sorted_moods mood_scores with
  | [] => ("neutral", 0)
  | top :: _ => if Qlt_le_dec 0 (Qabs top.2) then top else ("neutral", 0)
  end.
Proof. unfold best_of. by rewrite fold_best. Qed.

Lemma clamp_unit x : Num.in_unit (Num.max 0 (Num.min 1 x)).
Proof. apply Num.clamp_in_unit. Qed.

Lemma generate_emergent_mood_variations_shape base_mood hormone_levels s mood s' :
  generate_emergent_mood_variations base_mood hormone_levels s = (Ok mood, s') ->
  mood = base_mood \/
  exists prefix, prefix ∈ emergent_prefixes hormone_levels /\
                 mood = prefix +:+ "-" +:+ base_mood.
Proof.
  unfold generate_emergent_mood_variations.
  destruct (emergent_prefixes hormone_levels) as [|p ps] eqn:Hp.
  - intros [= <- _]. by left.
  - rewrite bind_run. unfold random_random at 1.
    destruct (Qlt_le_dec _ _); [|intros [= <- _]; by left].
    rewrite bind_run. unfold random_choice at 1.
    destruct (_ !! _) as [prefix|] eqn:Hl; [|discriminate].
    intros [= <- _]. right. exists prefix. split; [|done].
    by eapply list_elem_of_lookup_2.
Qed.

Lemma inferred_mood_in_unit hormone_levels mood_weights s mood intensity s' :
  infer_mood_from_hormones hormone_levels mood_weights s = (Ok (mood, intensity), s') ->
  Num.in_unit intensity.
Proof.
  unfold infer_mood_from_hormones. rewrite bind_run. unfold lift at 1.
  destruct (detect_undefined_mood_state _ _ _) as [[[is_undefined mood_name] raw]|e];
    [|discriminate].
  destruct is_undefined; [intros [= _ <- _]; apply clamp_unit|].
  destruct (best_of _) as [best_mood best_score]. rewrite bind_run.
  destruct (generate_emergent_mood_variations _ _ _) as [[final|e] s1]; [|discriminate].
  intros [= _ <- _]. apply clamp_unit.
Qed.

(** X8. Whatever [infer_mood_from_hormones] returns has its intensity in
    [0,1].  An undefined state is returned under the label of the cascade,
    without a random draw; a defined state is returned under the best mood
    of the table, alone or behind one of the prefixes the hormone levels
    call for, at the clamped absolute score of that mood. *)
Theorem inferred_mood_shape
    (hormone_levels : HormoneRecord) (mood_weights : MoodWeights) (s s' : Store)
    (mood : string) (intensity : Q) :
  infer_mood_from_hormones hormone_levels mood_weights s = (Ok (mood, intensity), s') ->
  let mood_scores := calculate_mood_scores hormone_levels mood_weights in
  Num.in_unit intensity /\
  exists is_undefined mood_name raw,
    detect_undefined_mood_state mood_scores hormone_levels default_threshold
      = Ok (is_undefined, mood_name, raw) /\
    if is_undefined
    then mood = mood_name /\ intensity = Num.max 0 (Num.min 1 raw) /\ s' = s
    else
      intensity = Num.max 0 (Num.min 1 (Qabs (best_of mood_scores).2)) /\
      (mood = (best_of mood_scores).1 \/
       exists prefix, prefix ∈ emergent_prefixes hormone_levels /\
                      mood = prefix +:+ "-" +:+ (best_of mood_scores).1).
Proof.
  cbv zeta. unfold infer_mood_from_hormones. rewrite bind_run. unfold lift at 1.
  destruct (detect_undefined_mood_state _ _ _) as [[[is_undefined mood_name] raw]|e];
    [|discriminate].
  destruct is_undefined.
  - intros [= <- <- <-]. split; [apply clamp_unit|]. by eexists _, _, _.
  - destruct (best_of _) as [best_mood best_score]. rewrite bind_run.
    destruct (generate_emergent_mood_variations _ _ _) as [[final|e] s1] eqn:Hg;
      [|discriminate].
    intros [= <- <- <-]. split; [apply clamp_unit|].
    eexists _, _, _. split; [done|]. split; [done|].
    by eapply generate_emergent_mood_variations_shape.
Qed.

Lemma inferred_mood_shape_witness :
  exists mood intensity s',
    infer_mood_from_hormones (loaded_hormones example_store) _DEFAULT_MOOD_WEIGHTS
                             example_store = (Ok (mood, intensity), s') /\
    Num.in_unit intensity.
Proof.
  destruct (infer_mood_from_hormones_returns (loaded_hormones example_store)
              _DEFAULT_MOOD_WEIGHTS example_store) as ([mood intensity] & s' & Hrun);
    [done|].
  exists mood, intensity, s'. split; [exact Hrun|].
  exact (proj1 (inferred_mood_shape _ _ _ _ _ _ Hrun)).
Defined.

(** The levels at which no prefix is called for. *)
Definition in_neutral_band (hormone_levels : HormoneRecord) : Prop :=
  (0.3 <= level hormone_levels "cortisol" /\ level hormone_levels "cortisol" <= 0.6) /\
  (0.3 <= level hormone_levels "dopamine" /\ level hormone_levels "dopamine" <= 0.7) /\
  (0.3 <= level hormone_levels "oxytocin" /\ level hormone_levels "oxytocin" <= 0.7) /\
  (0.3 <= level hormone_levels "serotonin" /\ level hormone_levels "serotonin" <= 0.7).

Lemma emergent_prefixes_nil hormone_levels :
  emergent_prefixes hormone_levels = [] <-> in_neutral_band hormone_levels.
Proof.
  unfold emergent_prefixes, in_neutral_band.
  repeat destruct (Qlt_le_dec _ _); cbn [app]; split;
    try discriminate; try done; try (intros; split_and!; lra); intros; exfalso; lra.
Qed.

(** X9. The emergent variation.  The candidate prefixes are at most four,
    one per hormone, and there is none exactly when cortisol lies in
    [0.3, 0.6] and the three other levels in [0.3, 0.7]: the mood is then
    returned as it is and the random generator is not touched.  Otherwise
    one number is drawn; at 0.5 or below the mood is returned as it is, and
    above 0.5 a second draw picks the prefix put before it. *)
Theorem emergent_variation_cases (base_mood : string) (hormone_levels : HormoneRecord)
    (s : Store) :
  let prefixes := emergent_prefixes hormone_levels in
  (length prefixes <= 4)%nat /\
  (in_neutral_band hormone_levels ->
   generate_emergent_mood_variations base_mood hormone_levels s = (Ok base_mood, s)) /\
  (~ in_neutral_band hormone_levels ->
   random_floats s (draws s) <= 0.5 ->
   generate_emergent_mood_variations base_mood hormone_levels s
   = (Ok base_mood, set_draws (S (draws s)) s)) /\
  (~ in_neutral_band hormone_levels ->
   0.5 < random_floats s (draws s) ->
   exists prefix,
     prefixes !! (random_picks s (S (draws s)) mod length prefixes)%nat = Some prefix /\
     generate_emergent_mood_variations base_mood hormone_levels s
     = (Ok (prefix +:+ "-" +:+ base_mood), set_draws (S (S (draws s))) s)).
Proof.
  cbv zeta. split_and!.
  - unfold emergent_prefixes. repeat destruct (Qlt_le_dec _ _); cbn; lia.
  - intros Hb%emergent_prefixes_nil. unfold generate_emergent_mood_variations.
    by rewrite Hb.
  - intros Hb Hr. rewrite <- emergent_prefixes_nil in Hb.
    unfold generate_emergent_mood_variations.
    destruct (emergent_prefixes hormone_levels) as [|p ps]; [done|].
    rewrite bind_run. unfold random_random at 1.
    destruct (Qlt_le_dec _ _); [lra|done].
  - intros Hb Hr. rewrite <- emergent_prefixes_nil in Hb.
    unfold generate_emergent_mood_variations.
    destruct (emergent_prefixes hormone_levels) as [|p ps] eqn:Hp; [done|].
    rewrite bind_run. unfold random_random at 1.
    destruct (Qlt_le_dec _ _); [|lra].
    rewrite bind_run. unfold random_choice at 1.
    change (draws (set_draws (S (draws s)) s)) with (S (draws s)).
    change (random_picks (set_draws (S (draws s)) s)) with (random_picks s).
    destruct (lookup_lt_is_Some_2 (p :: ps)
                (random_picks s (S (draws s)) mod length (p :: ps))) as [prefix Hl].
    { apply Nat.mod_upper_bound. done. }
    exists prefix. split; [exact Hl|]. by rewrite Hl.
Qed.

Lemma emergent_variation_cases_witness :
  generate_emergent_mood_variations "cheerful" _DEFAULT_HORMONES example_store
  = (Ok "cheerful", example_store).
Proof.
  apply (proj1 (proj2 (emergent_variation_cases "cheerful" _DEFAULT_HORMONES example_store))).
  unfold in_neutral_band. split_and!; vm_compute; discriminate.
Defined.

(** ** The order of the table *)

(** The absolute score of an entry as a canonical rational, on which equal
    values are equal terms. *)
Definition rank_key (ms : string * Q) : Qc := Q2Qc (Qabs ms.2).

Lemma rank_key_le a b : outranks a b -> Qcle (rank_key b) (rank_key a).
Proof.
  unfold outranks, rank_key, Qcle. cbn [this Q2Qc]. by rewrite !Qred_correct.
Qed.

(** Two orders of one table are ranked into the same sequence of absolute
    scores. *)
Lemma sorted_moods_keys l l' :
  l ≡ₚ l' -> rank_key <$> sorted_moods l = rank_key <$> sorted_moods l'.
Proof.
  intros Hp.
  apply (StronglySorted_unique_strong (fun a b : Qc => Qcle b a)).
  - intros x y _ _ Hxy Hyx. by apply Qcle_antisym.
  - eapply StronglySorted_fmap; [|apply sorted_moods_sorted]. apply rank_key_le.
  - eapply StronglySorted_fmap; [|apply sorted_moods_sorted]. apply rank_key_le.
  - apply fmap_Permutation. by rewrite !sorted_moods_perm.
Qed.

Lemma archetype_agrees hormone_levels top_mood top_score top_mood' top_score' :
  Qabs top_score == Qabs top_score' ->
  (archetype_or_defined hormone_levels top_mood top_score).1.1
  = (archetype_or_defined hormone_levels top_mood' top_score').1.1 /\
  (archetype_or_defined hormone_levels top_mood top_score).2
  == (archetype_or_defined hormone_levels top_mood' top_score').2.
Proof.
  intros Heq. unfold archetype_or_defined.
  repeat case_match; cbn [fst snd]; split; done.
Qed.

(** Agreement of two results of the cascade on all but the label. *)
Definition same_state (r r' : Result (bool * string * Q)) : Prop :=
  match r, r' with
  | Ok (is_undefined, _, intensity), Ok (is_undefined', _, intensity') =>
      is_undefined = is_undefined' /\ intensity == intensity'
  | Raise e, Raise e' => e = e'
  | _, _ => False
  end.

(** X10. Whether a state is undefined, and its intensity, do not depend on
    the order of the moods in the table: two tables with the same entries
    in different orders give the same flag and the same intensity (or both
    raise).  Only the label can change, when moods tie on absolute score. *)
Theorem detection_ignores_table_order
    (mood_scores mood_scores' : MoodScores) (hormone_levels : HormoneRecord) (threshold : Q) :
  mood_scores ≡ₚ mood_scores' ->
  same_state (detect_undefined_mood_state mood_scores hormone_levels threshold)
             (detect_undefined_mood_state mood_scores' hormone_levels threshold).
Proof.
  intros Hp. pose proof (sorted_moods_keys _ _ Hp) as Hk.
  destruct (sorted_moods mood_scores)
    as [|[top_mood top_score] [|[second_mood second_score] rest]] eqn:Hs;
    destruct (sorted_moods mood_scores')
      as [|[top_mood' top_score'] [|[second_mood' second_score'] rest']] eqn:Hs';
    try discriminate Hk.
  - unfold detect_undefined_mood_state. by rewrite Hs, Hs'.
  - unfold detect_undefined_mood_state. rewrite Hs, Hs'.
    injection Hk as Hk%Qred_eq_iff. by split.
  - injection Hk as Ht%Qred_eq_iff Hsec%Qred_eq_iff _. cbn [snd] in Ht, Hsec.
    assert (Hcond : Qabs (Qabs top_score - Qabs second_score)
                    == Qabs (Qabs top_score' - Qabs second_score')).
    { by rewrite Ht, Hsec. }
    destruct (Qlt_le_dec (Qabs (Qabs top_score - Qabs second_score)) threshold) as [Hh|Hh].
    + rewrite (detect_hybrid _ _ _ _ _ _ _ _ Hs Hh).
      rewrite (detect_hybrid _ _ _ _ _ _ _ _ Hs'); [|by rewrite <- Hcond].
      split; [done|]. apply min_proper. by rewrite Ht, Hsec.
    + rewrite (detect_past_hybrid _ _ _ _ _ _ _ _ Hs); [|lra].
      rewrite (detect_past_hybrid _ _ _ _ _ _ _ _ Hs'); [|rewrite <- Hcond; lra].
      destruct (max_of (map (fun ms => Qabs ms.2) mood_scores)) as [m|e] eqn:Hm;
        [|destruct mood_scores; [discriminate Hs|discriminate Hm]].
      destruct (max_of (map (fun ms => Qabs ms.2) mood_scores')) as [m'|e] eqn:Hm';
        [|destruct mood_scores'; [discriminate Hs'|discriminate Hm']].
      pose proof (max_of_is_top _ _ _ _ Hs Hm) as Hmt.
      pose proof (max_of_is_top _ _ _ _ Hs' Hm') as Hmt'. cbn [snd] in Hmt, Hmt'.
      cbn [bind Result_monad].
      destruct (Qlt_le_dec m 0.2), (Qlt_le_dec m' 0.2); try lra.
      * split; [done|lra].
      * cbn [same_state].
        destruct (archetype_agrees hormone_levels top_mood top_score top_mood' top_score' Ht)
          as [Hflag Hint].
        destruct (archetype_or_defined hormone_levels top_mood top_score) as [[? ?] ?].
        destruct (archetype_or_defined hormone_levels top_mood' top_score') as [[? ?] ?].
        by split.
Qed.

Lemma detection_ignores_table_order_witness :
  same_state
    (detect_undefined_mood_state [("cheerful", 0.4); ("anxious", -0.4); ("serene", 0.1)]
                                 _DEFAULT_HORMONES default_threshold)
    (detect_undefined_mood_state [("serene", 0.1); ("anxious", -0.4); ("cheerful", 0.4)]
                                 _DEFAULT_HORMONES default_threshold).
Proof.
  apply detection_ignores_table_order.
  apply (Permutation_rev [("cheerful", 0.4); ("anxious", -0.4); ("serene", 0.1)]).
Defined.

(** ** Round trips through the store *)

(** What the loaders, the savers and [print] leave untouched: everything
    but the hormone document, the history document and the console. *)
Definition frame (s s' : Store) : Prop :=
  writable s' = writable s /\ clock s' = clock s /\ ticks s' = ticks s /\
  random_floats s' = random_floats s /\ random_picks s' = random_picks s /\
  draws s' = draws s /\
  mood_weights_json s' = mood_weights_json s /\
  mood_adjustments_json s' = mood_adjustments_json s /\
  truncates s' = truncates s.

Lemma frame_refl s : frame s s.
Proof. by repeat split. Qed.

Lemma frame_trans s1 s2 s3 : frame s1 s2 -> frame s2 s3 -> frame s1 s3.
Proof. unfold frame. intros ? ?. destruct_and!. split_and!; congruence. Qed.

(** The document an attempt to write [a] leaves behind: [a] when the write
    goes through, an unreadable file when it fails after the open, the
    document as it was when it fails before. *)
Definition after_write {A} (f : File) (a : A) (before : doc A) (s : Store) : doc A :=
  if writable s f then Content a
  else if truncates s f then Malformed else before.

Lemma load_hormone_levels_frame s :
  exists s',
    load_hormone_levels s = (Ok (loaded_hormones s), s') /\
    frame s s' /\
    mood_history_json s' = mood_history_json s /\
    loaded_hormones s' = loaded_hormones s /\
    (hormones_json s <> Missing -> hormones_json s' = hormones_json s) /\
    (hormones_json s = Missing ->
     hormones_json s' = after_write HORMONES_FILE _DEFAULT_HORMONES Missing s).
Proof.
  unfold load_hormone_levels, loaded_hormones, _ensure_file, file_exists, try_read,
    try_write, print, pass, after_write.
  destruct s as [hj wj aj hij w tr c t rf rp d out]. cbn.
  destruct hj as [| |levels]; cbn.
  - destruct (w HORMONES_FILE); [|destruct (tr HORMONES_FILE)]; cbn; eexists;
      (split; [reflexivity|]); by repeat split.
  - eexists; (split; [reflexivity|]); by repeat split.
  - eexists; (split; [reflexivity|]); by repeat split.
Qed.

Lemma save_hormone_levels_frame levels s :
  exists s',
    save_hormone_levels levels s = (Ok (), s') /\
    frame s s' /\
    mood_history_json s' = mood_history_json s /\
    hormones_json s' = after_write HORMONES_FILE levels (hormones_json s) s /\
    stdout s' = (stdout s ++ [if writable s HORMONES_FILE then "[Hormone Save]"
                              else "[Hormone save error]"])%list.
Proof.
  unfold save_hormone_levels, try_write, print, after_write.
  destruct s as [hj wj aj hij w tr c t rf rp d out]. cbn.
  destruct (w HORMONES_FILE); [|destruct (tr HORMONES_FILE)]; cbn; eexists;
    (split; [reflexivity|]); by repeat split.
Qed.

(** X11. The hormone record round trip.  A save that goes through is read
    back as saved, by a load that changes nothing.  A save that fails is
    logged and swallowed.  When it fails before the file is opened, the
    document stays as it was and the next load hands back what was stored
    before, or the defaults; when it fails after, the stored record is lost:
    the file is left truncated, and the next load (and every later one, the
    loader never rewriting a file that exists) hands back the defaults. *)
Theorem hormone_levels_round_trip (levels : HormoneRecord) (s : Store) :
  exists s1 s2 reloaded,
    save_hormone_levels levels s = (Ok (), s1) /\
    load_hormone_levels s1 = (Ok reloaded, s2) /\
    if writable s HORMONES_FILE
    then reloaded = levels /\ s2 = s1 /\ hormones_json s1 = Content levels
    else stdout s1 = (stdout s ++ ["[Hormone save error]"])%list /\
         if truncates s HORMONES_FILE
         then hormones_json s1 = Malformed /\ reloaded = _DEFAULT_HORMONES /\
              hormones_json s2 = Malformed
         else hormones_json s1 = hormones_json s /\ reloaded = loaded_hormones s.
Proof.
  destruct (save_hormone_levels_frame levels s) as (s1 & Hsave & _ & _ & Hdoc & Hout).
  destruct (load_hormone_levels_frame s1) as (s2 & Hload & _ & _ & _ & Hkeep & _).
  exists s1, s2, (loaded_hormones s1). split_and!; [done|done|].
  unfold after_write in Hdoc.
  destruct (writable s HORMONES_FILE); [|destruct (truncates s HORMONES_FILE)].
  - split_and!; [|by apply load_hormone_levels_content in Hdoc as Hl; congruence|done].
    unfold loaded_hormones. by rewrite Hdoc.
  - split; [done|]. split_and!; [done|unfold loaded_hormones; by rewrite Hdoc|].
    rewrite Hkeep; by rewrite Hdoc.
  - split; [done|]. split; [done|]. unfold loaded_hormones. by rewrite Hdoc.
Qed.

Lemma load_mood_weights_frame s :
  exists s',
    load_mood_weights s = (Ok (loaded_mood_weights s), s') /\
    hormones_json s' = hormones_json s /\
    mood_history_json s' = mood_history_json s /\
    mood_adjustments_json s' = mood_adjustments_json s /\
    writable s' = writable s /\ clock s' = clock s /\ ticks s' = ticks s /\
    random_floats s' = random_floats s /\ random_picks s' = random_picks s /\
    draws s' = draws s /\
    loaded_mood_weights s' = loaded_mood_weights s /\
    (mood_weights_json s <> Missing -> mood_weights_json s' = mood_weights_json s) /\
    truncates s' = truncates s.
Proof.
  unfold load_mood_weights, loaded_mood_weights, _ensure_file, file_exists, try_read,
    try_write, print, pass.
  destruct s as [hj wj aj hij w tr c t rf rp d out]. cbn.
  destruct wj as [| |weights]; cbn;
    [destruct (w MOOD_WEIGHTS_FILE); [|destruct (tr MOOD_WEIGHTS_FILE)]; cbn|..];
    eexists; (split; [reflexivity|]); by repeat split.
Qed.

Lemma load_mood_history_frame s :
  exists s',
    load_mood_history s = (Ok (stored_history s), s') /\
    frame s s' /\
    hormones_json s' = hormones_json s /\
    stored_history s' = stored_history s /\
    (mood_history_json s <> Missing -> mood_history_json s' = mood_history_json s) /\
    (mood_history_json s = Missing ->
     mood_history_json s' = after_write MOOD_HISTORY_FILE [] Missing s).
Proof.
  unfold load_mood_history, stored_history, file_exists, try_read, try_write, print,
    after_write.
  destruct s as [hj wj aj hij w tr c t rf rp d out]. cbn.
  destruct hij as [| |history]; cbn;
    [destruct (w MOOD_HISTORY_FILE); [|destruct (tr MOOD_HISTORY_FILE)]; cbn|..];
    eexists; (split; [reflexivity|]); by repeat split.
Qed.

Lemma save_mood_history_frame history s :
  exists s',
    save_mood_history history s = (Ok (), s') /\
    frame s s' /\
    hormones_json s' = hormones_json s /\
    mood_history_json s' = after_write MOOD_HISTORY_FILE history (mood_history_json s) s /\
    stdout s' = (if writable s MOOD_HISTORY_FILE then stdout s
                 else stdout s ++ ["[Mood history save error]"])%list.
Proof.
  unfold save_mood_history, try_write, print, pass, after_write.
  destruct s as [hj wj aj hij w tr c t rf rp d out]. cbn.
  destruct (w MOOD_HISTORY_FILE); [|destruct (tr MOOD_HISTORY_FILE)]; cbn; eexists;
    (split; [reflexivity|]); by repeat split.
Qed.

(** X12. The loaders never overwrite a document that exists, readable or
    not: an unreadable hormone, weight or history document is left as it is
    and the defaults (the empty history) are handed back.  Loading a second
    time gives the same value as the first. *)
Theorem loaders_keep_existing_documents (s : Store) :
  (exists s1 s2,
      load_hormone_levels s = (Ok (loaded_hormones s), s1) /\
      load_hormone_levels s1 = (Ok (loaded_hormones s), s2) /\
      (hormones_json s = Malformed ->
       loaded_hormones s = _DEFAULT_HORMONES /\ hormones_json s2 = Malformed)) /\
  (exists s1 s2,
      load_mood_weights s = (Ok (loaded_mood_weights s), s1) /\
      load_mood_weights s1 = (Ok (loaded_mood_weights s), s2) /\
      (mood_weights_json s = Malformed ->
       loaded_mood_weights s = _DEFAULT_MOOD_WEIGHTS /\ mood_weights_json s2 = Malformed)) /\
  (exists s1 s2,
      load_mood_history s = (Ok (stored_history s), s1) /\
      load_mood_history s1 = (Ok (stored_history s), s2) /\
      (mood_history_json s = Malformed ->
       stored_history s = [] /\ mood_history_json s2 = Malformed)).
Proof.
  split_and!.
  - destruct (load_hormone_levels_frame s) as (s1 & H1 & _ & _ & Hl1 & Hk1 & _).
    destruct (load_hormone_levels_frame s1) as (s2 & H2 & _ & _ & _ & Hk2 & _).
    exists s1, s2. rewrite Hl1 in H2. split_and!; [done..|].
    intros Hm. split; [unfold loaded_hormones; by rewrite Hm|].
    rewrite Hk2, Hk1; rewrite ?Hk1; by rewrite ?Hm.
  - destruct (load_mood_weights_frame s)
      as (s1 & H1 & _ & _ & _ & _ & _ & _ & _ & _ & _ & Hl1 & Hk1 & _).
    destruct (load_mood_weights_frame s1)
      as (s2 & H2 & _ & _ & _ & _ & _ & _ & _ & _ & _ & _ & Hk2 & _).
    exists s1, s2. rewrite Hl1 in H2. split_and!; [done..|].
    intros Hm. split; [unfold loaded_mood_weights; by rewrite Hm|].
    rewrite Hk2, Hk1; rewrite ?Hk1; by rewrite ?Hm.
  - destruct (load_mood_history_frame s) as (s1 & H1 & _ & _ & Hl1 & Hk1 & _).
    destruct (load_mood_history_frame s1) as (s2 & H2 & _ & _ & _ & Hk2 & _).
    exists s1, s2. rewrite Hl1 in H2. split_and!; [done..|].
    intros Hm. split; [unfold stored_history; by rewrite Hm|].
    rewrite Hk2, Hk1; rewrite ?Hk1; by rewrite ?Hm.
Qed.

(** X13. The history round trip.  A saved history is what the next load
    hands back when the document could be written.  Otherwise the save is
    logged and swallowed: when it fails before the file is opened, the load
    hands back the history stored before (none, when the document is
    missing or unreadable); when it fails after, the file is left truncated
    and the stored history is lost, the load handing back the empty
    history. *)
Theorem mood_history_round_trip (history : list Entry.t) (s : Store) :
  exists s1 s2 reloaded,
    save_mood_history history s = (Ok (), s1) /\
    load_mood_history s1 = (Ok reloaded, s2) /\
    if writable s MOOD_HISTORY_FILE
    then reloaded = history /\ mood_history_json s2 = Content history
    else stdout s1 = (stdout s ++ ["[Mood history save error]"])%list /\
         if truncates s MOOD_HISTORY_FILE
         then mood_history_json s1 = Malformed /\ reloaded = [] /\
              mood_history_json s2 = Malformed
         else mood_history_json s1 = mood_history_json s /\ reloaded = stored_history s.
Proof.
  destruct (save_mood_history_frame history s) as (s1 & Hsave & _ & _ & Hdoc & Hout).
  destruct (load_mood_history_frame s1) as (s2 & Hload & _ & _ & _ & Hk & _).
  exists s1, s2, (stored_history s1). split_and!; [done|done|].
  unfold after_write in Hdoc.
  destruct (writable s MOOD_HISTORY_FILE); [|destruct (truncates s MOOD_HISTORY_FILE)].
  - split; [unfold stored_history; by rewrite Hdoc|]. rewrite Hk; by rewrite Hdoc.
  - split; [done|]. split_and!; [done|unfold stored_history; by rewrite Hdoc|].
    rewrite Hk; by rewrite Hdoc.
  - split; [done|]. split; [done|]. unfold stored_history. by rewrite Hdoc.
Qed.

(** ** More on the mood recorder *)

(** The history entry [update_mood] builds on store [s]. *)
Definition history_entry (new_mood : string) (intensity : Q) (reason : string)
    (context : Context.t) (s : Store) : Entry.t :=
  {| Entry.timestamp := clock s (S (ticks s));
     Entry.mood := new_mood;
     Entry.intensity := intensity;
     Entry.reason := reason;
     Entry.is_hybrid := default false (Context.is_hybrid context);
     Entry.is_emergent := default false (Context.is_emergent context);
     Entry.stability := default "medium" (Context.stability context);
     Entry.hormone_snapshot :=
       if wants_snapshot reason then Some (loaded_hormones s) else None |}.

(** The context [update_mood] works with. *)
Definition context_of (new_mood : string) (intensity : Q)
    (hormone_context : option Context.t) : Context.t :=
  match hormone_context with
  | None => get_mood_context new_mood intensity
  | Some context => context
  end.

Lemma snapshot_frame (wanted : bool) s :
  exists s',
    (if wanted then let! levels := load_hormone_levels in ret (Some levels)
     else ret None) s
    = (Ok (if wanted then Some (loaded_hormones s) else None), s') /\
    frame s s' /\
    mood_history_json s' = mood_history_json s /\
    loaded_hormones s' = loaded_hormones s.
Proof.
  destruct wanted.
  - destruct (load_hormone_levels_frame s) as (s' & Hload & Hf & Hh & Hl & _).
    exists s'. by rewrite bind_run, Hload.
  - exists s. split_and!; [done|apply frame_refl|done|done].
Qed.

(** A call of [update_mood] that can write the snapshot, in full. *)
Lemma update_mood_spec new_mood intensity reason hormone_context s :
  writable s MOOD_ADJUSTMENTS_FILE = true ->
  let context := context_of new_mood intensity hormone_context in
  exists s',
    update_mood new_mood intensity reason hormone_context s = (Ok (), s') /\
    mood_adjustments_json s' =
      Content {| MoodData.current_mood := new_mood;
                 MoodData.intensity := intensity;
                 MoodData.context := context;
                 MoodData.last_updated := clock s (ticks s) |} /\
    mood_history_json s' =
      after_write MOOD_HISTORY_FILE
        (trim (stored_history s ++ [history_entry new_mood intensity reason context s]))
        (mood_history_json s) s /\
    writable s' = writable s /\ clock s' = clock s /\ ticks s' = S (S (ticks s)) /\
    draws s' = draws s /\
    loaded_hormones s' = loaded_hormones s /\
    exists log,
      stdout s' = (log ++ (if writable s MOOD_HISTORY_FILE then []
                           else ["[Mood history save error]"]) ++ ["[Mood Update]"])%list.
Proof.
  intros Ha context. unfold update_mood. fold (context_of new_mood intensity hormone_context).
  fold context.
  rewrite bind_run. unfold utcnow at 1.
  rewrite bind_run. unfold try_write at 1.
  change (writable (set_ticks (S (ticks s)) s) (file_id mood_adjustments_ref))
    with (writable s MOOD_ADJUSTMENTS_FILE).
  rewrite Ha. cbn [negb].
  set (s1 := set_doc mood_adjustments_ref _ _).
  destruct (load_mood_history_frame s1)
    as (s2 & Hload & (Hw2 & Hc2 & Ht2 & _ & _ & Hd2 & _ & Ha2 & Htr2) & Hh2 & _ & Hk2 & Hm2).
  rewrite bind_run, Hload, bind_run. unfold utcnow at 1.
  set (s3 := set_ticks _ s2).
  destruct (snapshot_frame (wants_snapshot reason) s3)
    as (s4 & Hsnap & (Hw4 & Hc4 & Ht4 & _ & _ & Hd4 & _ & Ha4 & Htr4) & Hh4 & Hl4).
  rewrite bind_run, Hsnap.
  set (entry := {| Entry.timestamp := clock s2 (ticks s2) |}).
  destruct (save_mood_history_frame (trim (stored_history s1 ++ [entry])) s4)
    as (s5 & Hsave & (Hw5 & Hc5 & Ht5 & _ & _ & Hd5 & _ & Ha5 & _) & Hh5 & Hdoc5 & Hout5).
  rewrite bind_run, Hsave.
  assert (Hentry : entry = history_entry new_mood intensity reason context s).
  { unfold entry, history_entry. rewrite Hc2, Ht2. f_equal.
    change (loaded_hormones s3) with (loaded_hormones s2).
    unfold loaded_hormones. by rewrite Hh2. }
  eexists. split; [reflexivity|]. cbn [print fst snd].
  change (mood_adjustments_json (set_stdout _ s5)) with (mood_adjustments_json s5).
  change (mood_history_json (set_stdout _ s5)) with (mood_history_json s5).
  change (writable (set_stdout _ s5)) with (writable s5).
  change (clock (set_stdout _ s5)) with (clock s5).
  change (ticks (set_stdout _ s5)) with (ticks s5).
  change (draws (set_stdout _ s5)) with (draws s5).
  change (loaded_hormones (set_stdout _ s5)) with (loaded_hormones s5).
  change (stdout (set_stdout ?l s5)) with l.
  assert (Hws : writable s4 = writable s).
  { rewrite Hw4. change (writable s3) with (writable s2). by rewrite Hw2. }
  assert (Hts : truncates s4 = truncates s).
  { rewrite Htr4. change (truncates s3) with (truncates s2). by rewrite Htr2. }
  split_and!.
  - rewrite Ha5, Ha4. change (mood_adjustments_json s3) with (mood_adjustments_json s2).
    by rewrite Ha2.
  - rewrite Hdoc5. unfold after_write. rewrite Hws, Hts.
    destruct (writable s MOOD_HISTORY_FILE) eqn:Hwh; [by rewrite Hentry|].
    destruct (truncates s MOOD_HISTORY_FILE) eqn:Hth; [done|].
    rewrite Hh4. change (mood_history_json s3) with (mood_history_json s2).
    change (mood_history_json s) with (mood_history_json s1).
    destruct (mood_history_json s1) eqn:Hs1; [|by apply Hk2..].
    rewrite (Hm2 eq_refl). unfold after_write.
    change (writable s1) with (writable s). change (truncates s1) with (truncates s).
    by rewrite Hwh, Hth.
  - rewrite Hw5, Hw4. change (writable s3) with (writable s2). by rewrite Hw2.
  - rewrite Hc5, Hc4. change (clock s3) with (clock s2). by rewrite Hc2.
  - rewrite Ht5, Ht4. change (ticks s3) with (S (ticks s2)). by rewrite Ht2.
  - rewrite Hd5, Hd4. change (draws s3) with (draws s2). by rewrite Hd2.
  - unfold loaded_hormones at 1. rewrite Hh5. fold (loaded_hormones s4). rewrite Hl4.
    change (loaded_hormones s3) with (loaded_hormones s2).
    unfold loaded_hormones at 1. by rewrite Hh2.
  - rewrite Hout5, Hws. destruct (writable s MOOD_HISTORY_FILE).
    + by exists (stdout s4).
    + exists (stdout s4). by rewrite <- app_assoc.
Qed.

(** X14. The snapshot round trip.  After a call of [update_mood] that
    could write the snapshot, [get_current_mood] hands back the mood, the
    intensity and the context of that call, stamped with the time of the
    call, whether or not the history could be written; it changes nothing.
    When the snapshot cannot be read, it hands back a neutral mood at 0.5,
    neither hybrid nor emergent, of medium stability. *)
Theorem current_mood_round_trip
    (new_mood : string) (intensity : Q) (reason : string)
    (hormone_context : option Context.t) (s : Store) :
  (writable s MOOD_ADJUSTMENTS_FILE = true ->
   exists s',
     update_mood new_mood intensity reason hormone_context s = (Ok (), s') /\
     get_current_mood s' =
       (Ok {| MoodData.current_mood := new_mood;
              MoodData.intensity := intensity;
              MoodData.context := context_of new_mood intensity hormone_context;
              MoodData.last_updated := clock s (ticks s) |}, s')) /\
  ((forall data, mood_adjustments_json s <> Content data) ->
   exists data s',
     get_current_mood s = (Ok data, s') /\
     MoodData.current_mood data = "neutral" /\
     MoodData.intensity data = 0.5 /\
     Context.is_hybrid (MoodData.context data) = Some false /\
     Context.is_emergent (MoodData.context data) = Some false /\
     Context.stability (MoodData.context data) = Some "medium" /\
     MoodData.last_updated data = clock s (ticks s)).
Proof.
  split.
  - intros Ha.
    destruct (update_mood_spec new_mood intensity reason hormone_context s Ha)
      as (s' & Hrun & Hdoc & _).
    exists s'. split; [exact Hrun|].
    unfold get_current_mood. rewrite bind_run. unfold try_read at 1.
    change (get_doc mood_adjustments_ref s') with (mood_adjustments_json s').
    by rewrite Hdoc.
  - intros Hno. unfold get_current_mood. rewrite bind_run. unfold try_read at 1.
    change (get_doc mood_adjustments_ref s) with (mood_adjustments_json s).
    destruct (mood_adjustments_json s) as [| |data] eqn:Hdoc;
      [| |by destruct (Hno data)]; by eexists _, _.
Qed.

Lemma current_mood_round_trip_witness :
  exists s',
    update_mood "cheerful" 0.7 "manual_recalculation" None example_store = (Ok (), s') /\
    get_current_mood s' =
      (Ok {| MoodData.current_mood := "cheerful";
             MoodData.intensity := 0.7;
             MoodData.context := get_mood_context "cheerful" 0.7;
             MoodData.last_updated := clock example_store 0 |}, s').
Proof.
  exact (proj1 (current_mood_round_trip "cheerful" 0.7 "manual_recalculation" None
                  example_store) eq_refl).
Defined.

(** X15. A history that cannot be written does not end the call.  With
    the snapshot written and the history not, a call of [update_mood] that
    returns has logged the save error and, after it, the mood update line
    with which the function ends; the snapshot holds the new mood; and no
    entry has been added to the history.  The history document is left as
    it was when the write fails before the file is opened; when it fails
    after, the file is left truncated and the whole stored history is
    lost. *)
Theorem history_write_failure_is_swallowed
    (new_mood : string) (intensity : Q) (reason : string)
    (hormone_context : option Context.t) (s s' : Store) :
  writable s MOOD_ADJUSTMENTS_FILE = true ->
  writable s MOOD_HISTORY_FILE = false ->
  update_mood new_mood intensity reason hormone_context s = (Ok (), s') ->
  (exists log,
      stdout s' = (log ++ ["[Mood history save error]"; "[Mood Update]"])%list) /\
  (exists data,
      mood_adjustments_json s' = Content data /\
      MoodData.current_mood data = new_mood /\
      MoodData.intensity data = intensity) /\
  mood_history_json s' =
    (if truncates s MOOD_HISTORY_FILE then Malformed else mood_history_json s) /\
  stored_history s' = (if truncates s MOOD_HISTORY_FILE then [] else stored_history s).
Proof.
  intros Ha Hh Hrun.
  destruct (update_mood_spec new_mood intensity reason hormone_context s Ha)
    as (s1 & Hrun1 & Hdoc & Hhist & _ & _ & _ & _ & _ & log & Hlog).
  rewrite Hrun in Hrun1. injection Hrun1 as <-.
  unfold after_write in Hhist. rewrite Hh in Hhist, Hlog.
  split_and!; [by exists log|by eexists|done|].
  unfold stored_history. rewrite Hhist. by destruct (truncates s MOOD_HISTORY_FILE).
Qed.

(** The example store with an empty history that cannot be written, the
    write failing before the file is opened or after. *)
Definition store_with_locked_history (after_open : bool) : Store :=
  {| hormones_json := hormones_json example_store;
     mood_weights_json := mood_weights_json example_store;
     mood_adjustments_json := Missing;
     mood_history_json := Content [];
     writable := fun f => match f with MOOD_HISTORY_FILE => false | _ => true end;
     truncates := fun _ => after_open;
     clock := clock example_store; ticks := 0;
     random_floats := random_floats example_store;
     random_picks := random_picks example_store; draws := 0;
     stdout := [] |}.

Lemma history_write_failure_is_swallowed_witness :
  (exists s' data,
      update_mood "cheerful" 0.7 "manual_recalculation" None
        (store_with_locked_history false) = (Ok (), s') /\
      mood_adjustments_json s' = Content data /\
      MoodData.current_mood data = "cheerful" /\
      mood_history_json s' = Content []) /\
  (exists s' data,
      update_mood "cheerful" 0.7 "manual_recalculation" None
        (store_with_locked_history true) = (Ok (), s') /\
      mood_adjustments_json s' = Content data /\
      MoodData.current_mood data = "cheerful" /\
      mood_history_json s' = Malformed).
Proof.
  split.
  - destruct (update_mood "cheerful" 0.7 "manual_recalculation" None
                (store_with_locked_history false)) as [[[]|e] s'] eqn:Hrun;
      [|by vm_compute in Hrun].
    destruct (history_write_failure_is_swallowed "cheerful" 0.7 "manual_recalculation" None
                (store_with_locked_history false) s' eq_refl eq_refl Hrun)
      as (_ & (data & Hdoc & Hmood & _) & Hhist & _).
    by exists s', data.
  - destruct (update_mood "cheerful" 0.7 "manual_recalculation" None
                (store_with_locked_history true)) as [[[]|e] s'] eqn:Hrun;
      [|by vm_compute in Hrun].
    destruct (history_write_failure_is_swallowed "cheerful" 0.7 "manual_recalculation" None
                (store_with_locked_history true) s' eq_refl eq_refl Hrun)
      as (_ & (data & Hdoc & Hmood & _) & Hhist & _).
    by exists s', data.
Defined.

(** X16. The cap of the history holds after every single call: whatever
    the length of the stored history before, a call of [update_mood] that
    could write both documents leaves [min(100, n + 1)] entries, the last
    of which is the entry of the call; with a reason that mentions
    ["contextual"] or ["hormone_event"] that entry carries the hormone
    record as a load hands it back, and no record otherwise. *)
Theorem one_call_caps_the_history
    (new_mood : string) (intensity : Q) (reason : string)
    (hormone_context : option Context.t) (s : Store) :
  writable s MOOD_ADJUSTMENTS_FILE = true ->
  writable s MOOD_HISTORY_FILE = true ->
  exists s' history entry,
    update_mood new_mood intensity reason hormone_context s = (Ok (), s') /\
    mood_history_json s' = Content history /\
    length history = Nat.min 100 (length (stored_history s) + 1) /\
    last history = Some entry /\
    Entry.mood entry = new_mood /\
    Entry.intensity entry = intensity /\
    Entry.reason entry = reason /\
    Entry.hormone_snapshot entry =
      (if negb (String.eqb reason "") &&
          (PyStr.contains "contextual" reason || PyStr.contains "hormone_event" reason)
       then Some (loaded_hormones s) else None).
Proof.
  intros Ha Hh.
  destruct (update_mood_spec new_mood intensity reason hormone_context s Ha)
    as (s' & Hrun & _ & Hhist & _).
  unfold after_write in Hhist. rewrite Hh, trim_last_n in Hhist.
  exists s', (last_n 100 (stored_history s ++
      [history_entry new_mood intensity reason
         (context_of new_mood intensity hormone_context) s])),
    (history_entry new_mood intensity reason
       (context_of new_mood intensity hormone_context) s).
  split_and!; [exact Hrun|exact Hhist| | |done..].
  - rewrite last_n_length, length_app. cbn [length]. lia.
  - apply last_n_snoc_last. lia.
Qed.

Lemma one_call_caps_the_history_witness :
  exists s' history,
    update_mood "cheerful" 0.7 "contextual_analysis" None example_store = (Ok (), s') /\
    mood_history_json s' = Content history /\
    length history = 1%nat.
Proof.
  destruct (one_call_caps_the_history "cheerful" 0.7 "contextual_analysis" None
              example_store eq_refl eq_refl)
    as (s' & history & entry & Hrun & Hdoc & Hlen & _).
  by exists s', history.
Defined.

(** ** The legacy path *)

Lemma emotion_type_known text :
  emotion_type (analyze_contextual_sentiment text) ∈ map fst emotion_to_event.
Proof.
  unfold analyze_contextual_sentiment.
  destruct (first_match _ _) as [[[emotion config] pattern]|] eqn:Hm.
  - apply first_match_in_table in Hm as [Hin _]. cbn [emotion_type].
    unfold _EMOTION_PATTERNS in Hin.
    repeat (apply elem_of_cons in Hin as [[= -> _]|Hin]; [cbn; set_solver|]).
    by apply elem_of_nil in Hin.
  - unfold _word_level_sentiment_analysis.
    repeat case_match; cbn; set_solver.
Qed.

Lemma neutral_iff_no_adjustments text :
  hormone_adjustments (analyze_contextual_sentiment text) = [] <->
  emotion_type (analyze_contextual_sentiment text) = "neutral".
Proof.
  unfold analyze_contextual_sentiment.
  destruct (first_match _ _) as [[[emotion config] pattern]|] eqn:Hm.
  - apply first_match_in_table in Hm as [Hin _].
    cbn [emotion_type hormone_adjustments].
    unfold _EMOTION_PATTERNS in Hin.
    repeat (apply elem_of_cons in Hin as [[= -> ->]|Hin]; [by split|]).
    by apply elem_of_nil in Hin.
  - unfold _word_level_sentiment_analysis.
    repeat case_match; cbn; by split.
Qed.

(** X17. The legacy event of a text is one of [stress],
    [positive_feedback], [social_connection] and [neutral_interaction],
    never [isolation], [achievement] or [disappointment]; it is
    [neutral_interaction], which [adjust_hormones] does not know, exactly
    when the text is neutral, and an event [adjust_hormones] knows
    otherwise. *)
Theorem legacy_event_of_a_text (text : string) :
  let event := analyze_conversation_sentiment text in
  event ∈ ["stress"; "positive_feedback"; "social_connection"; "neutral_interaction"] /\
  (event = "neutral_interaction" <->
   emotion_type (analyze_contextual_sentiment text) = "neutral") /\
  (event = "neutral_interaction" <->
   hormone_adjustments (analyze_contextual_sentiment text) = []) /\
  (event <> "neutral_interaction" <-> event ∈ map fst legacy_events).
Proof.
  cbv zeta. unfold analyze_conversation_sentiment.
  rewrite neutral_iff_no_adjustments.
  pose proof (emotion_type_known text) as Hk.
  revert Hk. generalize (emotion_type (analyze_contextual_sentiment text)).
  intros emotion Hk. unfold emotion_to_event in Hk. cbn [map fst] in Hk.
  repeat (apply elem_of_cons in Hk as [->|Hk];
          [cbn; split_and!; [set_solver|by split|by split|split; [set_solver|done]]|]).
  apply elem_of_cons in Hk as [->|Hk]; [|by apply elem_of_nil in Hk].
  cbn. split_and!; [set_solver|by split|by split|].
  split; [done|]. unfold legacy_events. cbn. set_solver.
Qed.

(** X18. The two paths treat a neutral text differently.  The text path,
    [apply_contextual_hormone_adjustments], only loads the record: no level
    moves, nothing is saved.  The legacy path, [adjust_hormones] on the
    event of the text, applies the decay to every level and saves the
    result (a save that fails leaves the document as the load left it, or
    truncated). *)
Theorem neutral_text_on_both_paths (text : string) (s : Store) :
  emotion_type (analyze_contextual_sentiment text) = "neutral" ->
  apply_contextual_hormone_adjustments text s = load_hormone_levels s /\
  exists s1 s2,
    load_hormone_levels s = (Ok (loaded_hormones s), s1) /\
    loaded_hormones s1 = loaded_hormones s /\
    adjust_hormones (Some (analyze_conversation_sentiment text)) s
      = (Ok (decay (loaded_hormones s)), s2) /\
    hormones_json s2 =
      (if writable s HORMONES_FILE then Content (decay (loaded_hormones s))
       else if truncates s HORMONES_FILE then Malformed else hormones_json s1).
Proof.
  intros Hn.
  assert (analyze_conversation_sentiment text = "neutral_interaction") as ->.
  { unfold analyze_conversation_sentiment. by rewrite Hn. }
  apply neutral_iff_no_adjustments in Hn.
  split; [unfold apply_contextual_hormone_adjustments; by rewrite Hn|].
  destruct (load_hormone_levels_frame s)
    as (s1 & Hload & (Hw & _ & _ & _ & _ & _ & _ & _ & Htr) & _ & Hl & _).
  destruct (adjust_hormones_run (Some "neutral_interaction") s) as (s1' & Hload' & Hcase).
  rewrite Hload in Hload'. injection Hload' as <-.
  rewrite apply_event_unknown in Hcase.
  2:{ intros name [= <-]. unfold legacy_events. cbn. set_solver. }
  destruct Hcase as (s2 & Hsave & Hrun).
  destruct (save_hormone_levels_frame (decay (loaded_hormones s)) s1)
    as (s2' & Hsave' & _ & _ & Hdoc & _).
  rewrite Hsave in Hsave'. injection Hsave' as <-.
  exists s1, s2. split_and!; [done..|]. unfold after_write in Hdoc. by rewrite Hdoc, Hw, Htr.
Qed.

Lemma neutral_text_on_both_paths_witness :
  apply_contextual_hormone_adjustments "the sky is blue" example_store
  = load_hormone_levels example_store.
Proof.
  apply (neutral_text_on_both_paths "the sky is blue" example_store). reflexivity.
Defined.

(** ** From hormones to a recorded mood *)

(** The inference touches the random generator only. *)
Lemma infer_mood_from_hormones_draws hormone_levels mood_weights s r s' :
  infer_mood_from_hormones hormone_levels mood_weights s = (r, s') ->
  s' = s \/ exists n, s' = set_draws n s.
Proof.
  unfold infer_mood_from_hormones. rewrite bind_run. unfold lift at 1.
  destruct (detect_undefined_mood_state _ _ _) as [[[is_undefined mood_name] i]|e];
    [|intros [= _ <-]; by left].
  destruct is_undefined; [intros [= _ <-]; by left|].
  destruct (best_of _) as [best_mood best_score]. rewrite bind_run.
  unfold generate_emergent_mood_variations.
  destruct (emergent_prefixes hormone_levels) as [|p ps].
  - cbn. intros [= _ <-]. by left.
  - rewrite bind_run. unfold random_random at 1.
    destruct (Qlt_le_dec _ _).
    + rewrite bind_run. unfold random_choice at 1.
      destruct (_ !! _); cbn; intros [= _ <-]; right; by eexists.
    + cbn. intros [= _ <-]. right. by eexists.
Qed.

(** [update_mood_from_hormones] on a store whose snapshot and history can
    be written: what it returns is what it records. *)
Lemma update_mood_from_hormones_spec reason s mood intensity context s' :
  writable s MOOD_ADJUSTMENTS_FILE = true ->
  writable s MOOD_HISTORY_FILE = true ->
  update_mood_from_hormones reason s = (Ok (mood, intensity, context), s') ->
  context = get_mood_context mood intensity /\
  Num.in_unit intensity /\
  loaded_hormones s' = loaded_hormones s /\
  (exists last_updated,
      mood_adjustments_json s' =
        Content {| MoodData.current_mood := mood;
                   MoodData.intensity := intensity;
                   MoodData.context := context;
                   MoodData.last_updated := last_updated |}) /\
  exists history entry,
    mood_history_json s' = Content history /\
    last history = Some entry /\
    Entry.mood entry = mood /\
    Entry.intensity entry = intensity /\
    Entry.reason entry = reason /\
    Entry.is_hybrid entry = get_mood_context_is_hybrid mood /\
    Entry.is_emergent entry = get_mood_context_is_emergent mood /\
    Entry.stability entry = get_mood_context_stability intensity /\
    Entry.hormone_snapshot entry =
      (if wants_snapshot reason then Some (loaded_hormones s) else None).
Proof.
  intros Ha Hh. unfold update_mood_from_hormones.
  destruct (load_hormone_levels_frame s) as (s1 & Hload & (Hw1 & _) & _ & Hl1 & _).
  rewrite bind_run, Hload.
  destruct (load_mood_weights_frame s1)
    as (s2 & Hweights & Hhj2 & _ & _ & Hw2 & _).
  rewrite bind_run, Hweights, bind_run.
  destruct (infer_mood_from_hormones _ _ s2) as [[[mood0 intensity0]|e] s3] eqn:Hinfer;
    [|discriminate].
  assert (Hs3 : writable s3 = writable s2 /\ hormones_json s3 = hormones_json s2).
  { destruct (infer_mood_from_hormones_draws _ _ _ _ _ Hinfer) as [->|[n ->]]; by split. }
  destruct Hs3 as [Hw3 Hhj3].
  destruct (update_mood_spec mood0 intensity0 reason
              (Some (get_mood_context mood0 intensity0)) s3)
    as (s4 & Hrun & Hdoc & Hhist & _ & _ & _ & _ & Hl4 & _).
  { by rewrite Hw3, Hw2, Hw1. }
  cbv beta iota zeta. rewrite bind_run, Hrun. intros [= <- <- <- <-].
  assert (Hl3 : loaded_hormones s3 = loaded_hormones s).
  { unfold loaded_hormones at 1. rewrite Hhj3, Hhj2. fold (loaded_hormones s1). exact Hl1. }
  split_and!; [done| |by rewrite Hl4| |].
  - destruct (inferred_mood_in_unit _ _ _ _ _ _ Hinfer). by split.
  - by eexists.
  - unfold after_write in Hhist. rewrite Hw3, Hw2, Hw1, Hh, trim_last_n in Hhist.
    eexists _, (history_entry mood0 intensity0 reason
                  (get_mood_context mood0 intensity0) s3).
    split_and!; [exact Hhist|apply last_n_snoc_last; lia|done..|].
    cbn [history_entry Entry.hormone_snapshot]. by rewrite Hl3.
Qed.

Lemma wants_snapshot_hormone_event event :
  wants_snapshot ("hormone_event:" +:+ event) = true.
Proof.
  unfold wants_snapshot. apply andb_true_iff. split; [done|].
  apply orb_true_iff. right.
  apply (starts_with_contains "hormone_event"), (starts_with_app "hormone_event" (":" +:+ event)).
Qed.

(** What [adjust_hormones] and [apply_contextual_hormone_adjustments] leave
    behind when the hormone document can be written. *)
Lemma adjust_hormones_saved event s new_hormones s' :
  writable s HORMONES_FILE = true ->
  adjust_hormones event s = (Ok new_hormones, s') ->
  hormones_json s' = Content new_hormones /\ writable s' = writable s /\
  exists adjusted,
    apply_event event (loaded_hormones s) = Ok adjusted /\ new_hormones = decay adjusted.
Proof.
  intros Hw Hrun.
  destruct (load_hormone_levels_frame s) as (s1 & Hload & (Hw1 & _) & _).
  destruct (adjust_hormones_run event s) as (s1' & Hload' & Hcase).
  rewrite Hload in Hload'. injection Hload' as <-.
  destruct (apply_event event (loaded_hormones s)) as [adjusted|e];
    [|rewrite Hcase in Hrun; discriminate].
  destruct Hcase as (s2 & Hsave & Hrun'). rewrite Hrun' in Hrun. injection Hrun as <- <-.
  destruct (save_hormone_levels_frame (decay adjusted) s1)
    as (s2' & Hsave' & (Hw2 & _) & _ & Hdoc & _).
  rewrite Hsave in Hsave'. injection Hsave' as <-.
  unfold after_write in Hdoc. rewrite Hw1, Hw in Hdoc. split_and!; [done|by rewrite Hw2, Hw1|by exists adjusted].
Qed.

Lemma apply_contextual_saved text s new_hormones s' :
  writable s HORMONES_FILE = true ->
  apply_contextual_hormone_adjustments text s = (Ok new_hormones, s') ->
  loaded_hormones s' = new_hormones /\ writable s' = writable s.
Proof.
  intros Hw Hrun.
  destruct (load_hormone_levels_frame s) as (s1 & Hload & (Hw1 & _) & _ & Hl1 & _).
  destruct (apply_contextual_hormone_adjustments_run text s) as (s1' & Hload' & Hcase).
  rewrite Hload in Hload'. injection Hload' as <-.
  destruct (hormone_adjustments _) as [|a rest].
  - rewrite Hcase in Hrun. injection Hrun as <- <-. by split.
  - destruct (apply_adjustments _ _ _) as [adjusted|e];
      [|rewrite Hcase in Hrun; discriminate].
    destruct Hcase as (s2 & Hsave & Hrun'). rewrite Hrun' in Hrun. injection Hrun as <- <-.
    destruct (save_hormone_levels_frame (decay adjusted) s1)
      as (s2' & Hsave' & (Hw2 & _) & _ & Hdoc & _).
    rewrite Hsave in Hsave'. injection Hsave' as <-.
    unfold after_write in Hdoc. rewrite Hw1, Hw in Hdoc.
    split; [unfold loaded_hormones; by rewrite Hdoc|by rewrite Hw2, Hw1].
Qed.

(** X19. [update_mood_from_hormones] records what it returns.  On a store
    whose snapshot and history can be written, the mood and intensity it
    returns are those of the stored snapshot and of the last history entry,
    the context is the one [get_mood_context] computes for them, the
    intensity lies in [0,1], and the hormone record is as a load found it.
    The entry carries that record as its snapshot exactly when the reason
    mentions the hormones. *)
Theorem recorded_mood_is_returned_mood
    (reason : string) (s s' : Store) (mood : string) (intensity : Q) (context : Context.t) :
  writable s MOOD_ADJUSTMENTS_FILE = true ->
  writable s MOOD_HISTORY_FILE = true ->
  update_mood_from_hormones reason s = (Ok (mood, intensity, context), s') ->
  context = get_mood_context mood intensity /\
  Num.in_unit intensity /\
  loaded_hormones s' = loaded_hormones s /\
  (exists data,
      mood_adjustments_json s' = Content data /\
      MoodData.current_mood data = mood /\
      MoodData.intensity data = intensity /\
      MoodData.context data = context) /\
  exists history entry,
    mood_history_json s' = Content history /\
    last history = Some entry /\
    Entry.mood entry = mood /\
    Entry.intensity entry = intensity /\
    Entry.reason entry = reason /\
    Entry.is_hybrid entry = get_mood_context_is_hybrid mood /\
    Entry.is_emergent entry = get_mood_context_is_emergent mood /\
    Entry.stability entry = get_mood_context_stability intensity /\
    Entry.hormone_snapshot entry =
      (if wants_snapshot reason then Some (loaded_hormones s) else None).
Proof.
  intros Ha Hh Hrun.
  destruct (update_mood_from_hormones_spec _ _ _ _ _ _ Ha Hh Hrun)
    as (Hc & Hu & Hl & [stamp Hdoc] & history & entry & H1 & H2 & H3 & H4 & H5 & H6 & H7 & H8 & H9).
  split_and!; [done..| |].
  - eexists. by split_and!.
  - exists history, entry. by split_and!.
Qed.

Lemma recorded_mood_is_returned_mood_witness :
  exists mood intensity context s',
    update_mood_from_hormones "manual_recalculation" example_store
      = (Ok (mood, intensity, context), s') /\
    context = get_mood_context mood intensity /\
    Num.in_unit intensity.
Proof.
  destruct (update_mood_from_hormones "manual_recalculation" example_store)
    as [[[[mood intensity] context]|e] s'] eqn:Hrun; [|by vm_compute in Hrun].
  exists mood, intensity, context, s'.
  destruct (recorded_mood_is_returned_mood "manual_recalculation" example_store s'
              mood intensity context eq_refl eq_refl Hrun) as (Hc & Hu & _).
  by split_and!.
Defined.

(** X20. An event leaves its trace.  When the three documents can be
    written and [handle_event_and_update_mood] returns, the hormone record
    it returns is the decayed adjustment of the loaded one and is the
    record now stored; the last history entry has the reason
    ["hormone_event:"] followed by the event, the returned mood and
    intensity, and that same hormone record as its snapshot. *)
Theorem event_is_recorded_with_its_hormones
    (event : option string) (s s' : Store)
    (mood : string) (intensity : Q) (context : Context.t) (new_hormones : HormoneRecord) :
  writable s HORMONES_FILE = true ->
  writable s MOOD_ADJUSTMENTS_FILE = true ->
  writable s MOOD_HISTORY_FILE = true ->
  handle_event_and_update_mood event s = (Ok (mood, intensity, context, new_hormones), s') ->
  (exists adjusted,
      apply_event event (loaded_hormones s) = Ok adjusted /\ new_hormones = decay adjusted) /\
  loaded_hormones s' = new_hormones /\
  exists history entry,
    mood_history_json s' = Content history /\
    last history = Some entry /\
    Entry.reason entry = "hormone_event:" +:+ event_text event /\
    Entry.mood entry = mood /\
    Entry.intensity entry = intensity /\
    Entry.hormone_snapshot entry = Some new_hormones.
Proof.
  intros Hw Ha Hh. unfold handle_event_and_update_mood. rewrite bind_run.
  destruct (adjust_hormones event s) as [[levels|e] s1] eqn:Hadj; [|discriminate].
  destruct (adjust_hormones_saved _ _ _ _ Hw Hadj) as (Hdoc & Hw1 & Hadjusted).
  rewrite bind_run.
  destruct (update_mood_from_hormones _ s1) as [[[[mood0 intensity0] context0]|e] s2] eqn:Hup;
    [|discriminate].
  intros [= <- <- <- <- <-].
  destruct (update_mood_from_hormones_spec _ _ _ _ _ _ (eq_trans (f_equal (fun w => w _) Hw1) Ha)
              (eq_trans (f_equal (fun w => w _) Hw1) Hh) Hup)
    as (_ & _ & Hl & _ & history & entry & H1 & H2 & H3 & H4 & H5 & _ & _ & _ & H9).
  assert (Hlevels : loaded_hormones s1 = levels).
  { unfold loaded_hormones. by rewrite Hdoc. }
  split_and!; [done|by rewrite Hl|].
  exists history, entry. split_and!; [done..|].
  by rewrite H9, wants_snapshot_hormone_event, Hlevels.
Qed.

Lemma event_is_recorded_with_its_hormones_witness :
  exists mood intensity context new_hormones s',
    handle_event_and_update_mood (Some "achievement") example_store
      = (Ok (mood, intensity, context, new_hormones), s') /\
    loaded_hormones s' = new_hormones.
Proof.
  destruct (handle_event_and_update_mood (Some "achievement") example_store)
    as [[[[[mood intensity] context] new_hormones]|e] s'] eqn:Hrun;
    [|by vm_compute in Hrun].
  exists mood, intensity, context, new_hormones, s'. split; [done|].
  by destruct (event_is_recorded_with_its_hormones (Some "achievement") example_store s'
                 mood intensity context new_hormones eq_refl eq_refl eq_refl Hrun)
    as (_ & Hl & _).
Defined.

(** X21. A text leaves its trace.  When the three documents can be written
    and [apply_sentiment_to_mood] returns, the last history entry has the
    reason ["contextual_analysis"], the returned mood and intensity, and as
    its snapshot the hormone record stored after the adjustment of the
    text; the returned context is the one computed for the returned mood. *)
Theorem text_is_recorded_with_its_hormones
    (conversation_text : string) (s s' : Store)
    (mood : string) (intensity : Q) (context : Context.t) :
  writable s HORMONES_FILE = true ->
  writable s MOOD_ADJUSTMENTS_FILE = true ->
  writable s MOOD_HISTORY_FILE = true ->
  apply_sentiment_to_mood conversation_text s = (Ok (mood, intensity, context), s') ->
  context = get_mood_context mood intensity /\
  Num.in_unit intensity /\
  exists new_hormones s1 history entry,
    apply_contextual_hormone_adjustments conversation_text s = (Ok new_hormones, s1) /\
    loaded_hormones s' = new_hormones /\
    mood_history_json s' = Content history /\
    last history = Some entry /\
    Entry.reason entry = "contextual_analysis" /\
    Entry.mood entry = mood /\
    Entry.intensity entry = intensity /\
    Entry.hormone_snapshot entry = Some new_hormones.
Proof.
  intros Hw Ha Hh. unfold apply_sentiment_to_mood. rewrite bind_run.
  destruct (apply_contextual_hormone_adjustments conversation_text s)
    as [[levels|e] s1] eqn:Hadj; [|discriminate].
  destruct (apply_contextual_saved _ _ _ _ Hw Hadj) as (Hlevels & Hw1).
  intros Hup.
  destruct (update_mood_from_hormones_spec _ _ _ _ _ _ (eq_trans (f_equal (fun w => w _) Hw1) Ha)
              (eq_trans (f_equal (fun w => w _) Hw1) Hh) Hup)
    as (Hc & Hu & Hl & _ & history & entry & H1 & H2 & H3 & H4 & H5 & _ & _ & _ & H9).
  split_and!; [done..|].
  exists levels, s1, history, entry. split_and!; [done|by rewrite Hl|done..|].
  by rewrite H9, Hlevels.
Qed.

Lemma text_is_recorded_with_its_hormones_witness :
  exists mood intensity context s',
    apply_sentiment_to_mood "thanks a lot" example_store
      = (Ok (mood, intensity, context), s') /\
    context = get_mood_context mood intensity.
Proof.
  destruct (apply_sentiment_to_mood "thanks a lot" example_store)
    as [[[[mood intensity] context]|e] s'] eqn:Hrun; [|by vm_compute in Hrun].
  exists mood, intensity, context, s'. split; [done|].
  by destruct (text_is_recorded_with_its_hormones "thanks a lot" example_store s'
                 mood intensity context eq_refl eq_refl eq_refl Hrun)
    as (Hc & _).
Defined.

(** ** The classifier front end *)

(** [a] is listed no later than [b]: its score is no smaller. *)
Definition by_score (a b : LabelScore) : Prop := score b <= score a.

#[local] Instance by_score_trans : Transitive by_score.
Proof. unfold by_score. intros x y z ? ?. lra. Qed.

Lemma insert_by_score_perm x l : insert_by_score x l ≡ₚ x :: l.
Proof.
  induction l as [|y l IH]; simpl; [done|].
  destruct (Qlt_le_dec _ _); [|done].
  rewrite IH. apply perm_swap.
Qed.

Lemma sorted_by_score_perm rs : sorted_by_score rs ≡ₚ rs.
Proof.
  induction rs as [|x l IH]; simpl; [done|].
  rewrite insert_by_score_perm. by rewrite IH.
Qed.

Lemma insert_by_score_sorted x l :
  StronglySorted by_score l -> StronglySorted by_score (insert_by_score x l).
Proof.
  induction l as [|y l IH]; simpl; intros Hl.
  - repeat constructor.
  - apply StronglySorted_cons in Hl as [Hy Hl].
    destruct (Qlt_le_dec _ _) as [Hlt|Hle].
    + apply StronglySorted_cons. split; [|by apply IH].
      rewrite insert_by_score_perm. constructor; [|done].
      unfold by_score. lra.
    + apply StronglySorted_cons. split.
      * constructor; [unfold by_score; lra|].
        eapply Forall_impl; [exact Hy|].
        intros z Hz. unfold by_score in *. lra.
      * by apply StronglySorted_cons.
Qed.

Lemma sorted_by_score_sorted rs : StronglySorted by_score (sorted_by_score rs).
Proof.
  induction rs as [|x l IH]; simpl; [constructor|].
  by apply insert_by_score_sorted.
Qed.

(** What [detect_emotion] and [detect_toxicity] make of the labels of the
    first output, [cutoff] being 0.2 and 0.5. *)
Definition ranked_above (cutoff : Q) (results ranked : list LabelScore) : Prop :=
  ranked ≡ₚ List.filter (fun r => Num.ltb cutoff (score r)) results /\
  (forall r, r ∈ ranked <-> r ∈ results /\ cutoff < score r) /\
  StronglySorted by_score ranked.

Lemma sorted_filter_ranked cutoff results :
  ranked_above cutoff results
    (sorted_by_score (List.filter (fun r => Num.ltb cutoff (score r)) results)).
Proof.
  split_and!; [apply sorted_by_score_perm| |apply sorted_by_score_sorted].
  intros r. rewrite sorted_by_score_perm, list_elem_of_In, filter_In, Num.ltb_true.
  by rewrite <- list_elem_of_In.
Qed.

(** X22. The two classifier front ends keep the labels of the first
    output whose score is above the cutoff (0.2 for emotions, 0.5 for
    toxicity), each as often as it occurs, and list them from the highest
    score to the lowest; a score equal to the cutoff is dropped.  They raise
    [IndexError] when the pipeline hands back no output. *)
Theorem classifier_labels_are_ranked
    (goemotions toxicity_detector : string -> list (list LabelScore)) (text : string) :
  match goemotions text with
  | [] => detect_emotion goemotions text = Raise IndexError
  | results :: _ =>
      exists emotions,
        detect_emotion goemotions text = Ok emotions /\ ranked_above 0.2 results emotions
  end /\
  match toxicity_detector text with
  | [] => detect_toxicity toxicity_detector text = Raise IndexError
  | results :: _ =>
      exists toxic_labels,
        detect_toxicity toxicity_detector text = Ok toxic_labels /\
        ranked_above 0.5 results toxic_labels
  end.
Proof.
  unfold detect_emotion, detect_toxicity. split.
  - destruct (goemotions text) as [|results rest]; [done|].
    eexists. split; [reflexivity|]. apply sorted_filter_ranked.
  - destruct (toxicity_detector text) as [|results rest]; [done|].
    eexists. split; [reflexivity|]. apply sorted_filter_ranked.
Qed.

(** ** The mood summary *)

Lemma distinct_le words : (PyStr.distinct words <= length words)%nat.
Proof.
  unfold PyStr.distinct. induction words as [|w ws IH]; simpl; [lia|].
  case_decide; simpl; lia.
Qed.

Lemma get_current_mood_frame s :
  exists data s',
    get_current_mood s = (Ok data, s') /\
    hormones_json s' = hormones_json s /\
    mood_history_json s' = mood_history_json s /\
    (forall stored, mood_adjustments_json s = Content stored -> data = stored).
Proof.
  unfold get_current_mood. rewrite bind_run. unfold try_read at 1.
  change (get_doc mood_adjustments_ref s) with (mood_adjustments_json s).
  destruct (mood_adjustments_json s) as [| |stored];
    eexists _, _; (split; [reflexivity|]); split_and!; try done.
  by intros ? [= <-].
Qed.

Lemma count_le_last_n {A} (P : A -> bool) n (l : list A) :
  (length (filter (fun e => Is_true (P e)) (last_n n l)) <= Nat.min n (length l))%nat.
Proof. rewrite <- last_n_length. apply length_filter. Qed.

(** X23. What [get_mood_summary] reports when it returns, the documents
    being missing, unreadable or of the shape the code writes: the stored
    snapshot, the hormone record as a load hands it back, the number of
    stored entries and the moods of the last ten of them, in order.  The
    hybrid and emergent counts are taken over the last twenty entries, so
    neither exceeds 20; the volatility is ["low"] with three entries or
    fewer and can be ["high"] only from seven entries on.  The summary
    leaves the hormone record and the history as a load finds them. *)
Theorem mood_summary_counts (s s' : Store) (summary : Summary.t) :
  get_mood_summary s = (Ok summary, s') ->
  (forall stored, mood_adjustments_json s = Content stored ->
                  Summary.current_state summary = stored) /\
  Summary.hormone_levels summary = loaded_hormones s /\
  Summary.total_mood_changes summary = length (stored_history s) /\
  Summary.recent_moods summary = map Entry.mood (last_n 10 (stored_history s)) /\
  (Summary.hybrid_states_count summary <= Nat.min 20 (length (stored_history s)))%nat /\
  (Summary.emergent_states_count summary <= Nat.min 20 (length (stored_history s)))%nat /\
  (Summary.has_undefined_states summary = false <->
   Summary.hybrid_states_count summary = 0%nat /\
   Summary.emergent_states_count summary = 0%nat) /\
  ((length (stored_history s) <= 3)%nat -> Summary.mood_volatility summary = "low") /\
  (Summary.mood_volatility summary = "high" -> (7 <= length (stored_history s))%nat) /\
  loaded_hormones s' = loaded_hormones s /\
  stored_history s' = stored_history s.
Proof.
  unfold get_mood_summary.
  destruct (get_current_mood_frame s) as (data & s1 & Hcur & Hhj1 & Hh1 & Hdata).
  rewrite bind_run, Hcur.
  destruct (load_hormone_levels_frame s1) as (s2 & Hload & _ & Hh2 & Hl2 & _).
  rewrite bind_run, Hload.
  destruct (load_mood_history_frame s2) as (s3 & Hhist & _ & Hhj3 & Hs3 & _).
  rewrite bind_run, Hhist.
  assert (Hs : stored_history s2 = stored_history s).
  { unfold stored_history. by rewrite Hh2, Hh1. }
  assert (Hl : loaded_hormones s1 = loaded_hormones s).
  { unfold loaded_hormones. by rewrite Hhj1. }
  rewrite Hs, Hl. intros [= <- <-].
  cbn [Summary.current_state Summary.hormone_levels Summary.total_mood_changes
       Summary.recent_moods Summary.hybrid_states_count Summary.emergent_states_count
       Summary.has_undefined_states Summary.mood_volatility].
  pose proof (distinct_le (map Entry.mood (last_n 10 (stored_history s)))) as Hd.
  rewrite length_map, last_n_length in Hd.
  split_and!; [done|done|done|done|apply count_le_last_n|apply count_le_last_n| | | | |].
  - rewrite orb_false_iff, !Nat.ltb_ge. lia.
  - intros Hle. repeat case_match; try done;
      match goal with H : (_ <? _)%nat = true |- _ => apply Nat.ltb_lt in H; lia end.
  - repeat case_match; try done.
    match goal with H : (_ <? _)%nat = true |- _ => apply Nat.ltb_lt in H; lia end.
  - unfold loaded_hormones at 1. rewrite Hhj3. fold (loaded_hormones s2).
    by rewrite Hl2, Hl.
  - by rewrite Hs3, Hs.
Qed.

(** The summary of the example store, which has no history yet. *)
Lemma mood_summary_counts_witness :
  exists summary s',
    get_mood_summary example_store = (Ok summary, s') /\
    Summary.total_mood_changes summary = 0%nat /\
    Summary.recent_moods summary = [] /\
    Summary.mood_volatility summary = "low".
Proof.
  destruct (get_mood_summary example_store) as [[summary|e] s'] eqn:Hrun;
    [|by vm_compute in Hrun].
  destruct (mood_summary_counts example_store s' summary Hrun)
    as (_ & _ & Htotal & Hrecent & _ & _ & _ & Hlow & _).
  exists summary, s'. split_and!; [done|exact Htotal|exact Hrecent|].
  apply Hlow. cbn. lia.
Defined.

(** ** How far one call moves a level *)

(** [new] is within [bound] of [old]. *)
Definition within (bound old new : Q) : Prop := old - bound <= new /\ new <= old + bound.

Lemma clamp_within old d bound :
  Num.in_unit old -> Qabs d <= bound ->
  within bound old (Num.max 0 (Num.min 1 (old + d))).
Proof.
  intros [? ?] [? ?]%Qabs_Qle_condition. unfold within, Num.max, Num.min.
  repeat destruct (Qlt_le_dec _ _); lra.
Qed.

Lemma decay_level_within x : within 0.01 x (decay_level x).
Proof.
  unfold within, decay_level, Num.max, Num.min.
  repeat destruct (Qlt_le_dec _ _); lra.
Qed.

Lemma update_level_within hormone f bound levels levels' :
  (forall v, Num.in_unit v -> within bound v (f v)) -> 0 <= bound ->
  record_in_unit levels ->
  update_level hormone f levels = Ok levels' ->
  forall k old, levels !! k = Some old ->
    exists new, levels' !! k = Some new /\ within bound old new /\
                (k <> hormone -> new = old).
Proof.
  unfold update_level. intros Hf Hb Hu.
  destruct (levels !! hormone) as [v|] eqn:Hv; [|discriminate].
  intros [= <-] k old Hk. rewrite lookup_insert. case_decide as Heq.
  - subst k. rewrite Hv in Hk. injection Hk as <-.
    eexists. split_and!; [done|apply Hf, (Hu hormone v Hv)|done].
  - exists old. split_and!; [done|unfold within; lra|done].
Qed.

(** The loop over the deltas, each hormone being adjusted once. *)
Lemma apply_adjustments_within adjustments multiplier levels levels' :
  NoDup (map fst adjustments) ->
  Forall (fun a => Qabs (a.2 * multiplier) <= 0.15) adjustments ->
  record_in_unit levels ->
  apply_adjustments adjustments multiplier levels = Ok levels' ->
  forall k old, levels !! k = Some old ->
    exists new, levels' !! k = Some new /\ within 0.15 old new /\
                (k ∉ map fst adjustments -> new = old).
Proof.
  revert levels. induction adjustments as [|[hormone base] rest IH];
    intros levels Hnd Hb Hu.
  - intros [= <-] k old Hk. exists old. split_and!; [done|unfold within; lra|done].
  - cbn [apply_adjustments map fst] in *.
    apply NoDup_cons in Hnd as [Hnotin Hnd]. apply Forall_cons in Hb as [Hb1 Hb].
    destruct (update_level hormone _ levels) as [levels1|e] eqn:Hup; [|discriminate].
    cbn [bind Result_monad]. intros Hrest k old Hk.
    assert (Hu1 : record_in_unit levels1).
    { eapply update_level_in_unit; [|exact Hu|exact Hup]. intros v _. apply Num.clamp_in_unit. }
    assert (Hf : forall v, Num.in_unit v ->
                 within 0.15 v (Num.max 0 (Num.min 1 (v + base * multiplier)))).
    { intros v Hv. by apply clamp_within. }
    assert (H015 : 0 <= 0.15) by lra.
    destruct (update_level_within hormone _ 0.15 levels levels1 Hf H015 Hu Hup k old Hk)
      as (mid & Hmid & Hw & Hsame).
    destruct (IH levels1 Hnd Hb Hu1 Hrest k mid Hmid) as (new & Hnew & Hw' & Hsame').
    exists new. split; [done|].
    destruct (decide (k = hormone)) as [->|Hne].
    + rewrite (Hsame' Hnotin). split; [done|]. intros Hk'. exfalso. apply Hk'. by left.
    + rewrite (Hsame Hne) in *. split; [done|]. intros Hk'. apply Hsame'.
      intros Hin. apply Hk'. by right.
Qed.

Lemma two_updates_within first f1 second f2 levels adjusted :
  first <> second ->
  (forall v, Num.in_unit v -> within 0.15 v (f1 v)) ->
  (forall v, Num.in_unit v -> within 0.15 v (f2 v)) ->
  record_in_unit levels ->
  (let! hormones := update_level first f1 levels in update_level second f2 hormones)
  = Ok adjusted ->
  forall k old, levels !! k = Some old ->
    exists new, adjusted !! k = Some new /\ within 0.15 old new /\
                (k ∉ [first; second] -> new = old).
Proof.
  intros Hne Hf1 Hf2 Hu.
  destruct (update_level first f1 levels) as [levels1|e] eqn:Hup1; [|discriminate].
  cbn [bind Result_monad]. intros Hup2 k old Hk.
  assert (H015 : 0 <= 0.15) by lra.
  destruct (update_level_within first f1 0.15 levels levels1 Hf1 H015 Hu Hup1 k old Hk)
    as (mid & Hmid & Hw & Hsame).
  assert (Hmid2 : levels1 !! second = levels !! second).
  { unfold update_level in Hup1. destruct (levels !! first); [|discriminate].
    injection Hup1 as <-. by rewrite lookup_insert_ne. }
  unfold update_level in Hup2. rewrite Hmid2 in Hup2.
  destruct (levels !! second) as [v2|] eqn:Hv2; [|discriminate].
  injection Hup2 as <-. rewrite lookup_insert. case_decide as Heq.
  - subst k. rewrite Hv2 in Hk. injection Hk as <-.
    eexists. split_and!; [done|apply Hf2, (Hu second v2 Hv2)|].
    intros Hk'. exfalso. apply Hk'. set_solver.
  - exists mid. split_and!; [done|done|]. intros Hk'. apply Hsame.
    intros ->. apply Hk'. set_solver.
Qed.

Lemma apply_event_within event levels adjusted :
  record_in_unit levels ->
  apply_event event levels = Ok adjusted ->
  forall k old, levels !! k = Some old ->
    exists new, adjusted !! k = Some new /\ within 0.15 old new.
Proof.
  assert (Hup : forall d v, 0 <= d -> d <= 0.15 -> Num.in_unit v ->
                            within 0.15 v (Num.min 1 (v + d))).
  { unfold Num.in_unit, within, Num.min. intros d v ? ? [? ?].
    destruct (Qlt_le_dec _ _); lra. }
  assert (Hdown : forall d v, 0 <= d -> d <= 0.15 -> Num.in_unit v ->
                              within 0.15 v (Num.max 0 (v - d))).
  { unfold Num.in_unit, within, Num.max. intros d v ? ? [? ?].
    destruct (Qlt_le_dec _ _); lra. }
  intros Hu. unfold apply_event.
  repeat case_decide.
  7:{ intros [= <-] k old Hk. exists old. split; [done|unfold within; lra]. }
  all: intros Hrun k old Hk;
    edestruct (two_updates_within) as (new & Hnew & Hw & _);
      [| | |exact Hu|exact Hrun|exact Hk|by exists new];
      [discriminate|intros v Hv; (apply Hup || apply Hdown); (lra || done)..].
Qed.

Lemma analysis_deltas_bounded text :
  let analysis := analyze_contextual_sentiment text in
  NoDup (map fst (hormone_adjustments analysis)) /\
  Forall (fun a => Qabs (a.2 * intensity analysis) <= 0.15) (hormone_adjustments analysis).
Proof.
  assert (Hscale : forall d m, Qabs d <= 0.15 -> 0 <= m -> m <= 1 -> Qabs (d * m) <= 0.15).
  { intros d m [? ?]%Qabs_Qle_condition ? ?. apply Qabs_Qle_condition. split; nra. }
  assert (Htable : Forall (fun ec =>
            0 <= base_intensity ec.2 /\
            NoDup (map fst (hormones ec.2)) /\
            Forall (fun a => Qabs a.2 <= 0.15) (hormones ec.2)) _EMOTION_PATTERNS).
  { unfold _EMOTION_PATTERNS.
    repeat (apply Forall_cons_2; [cbn [fst snd base_intensity hormones map]|]);
      try apply Forall_nil_2.
    all: split_and!; [lra|repeat (apply NoDup_cons_2; [set_solver|]); apply NoDup_nil_2|].
    all: repeat (apply Forall_cons_2; [apply Qabs_Qle_condition; cbn; split; lra|]);
      apply Forall_nil_2. }
  cbv zeta. unfold analyze_contextual_sentiment.
  destruct (first_match _ _) as [[[emotion config] pattern]|] eqn:Hm.
  - apply first_match_in_table in Hm as (Hin & _).
    rewrite Forall_forall in Htable. destruct (Htable _ Hin) as (Hb & Hnd & Hadj).
    cbn [fst snd hormone_adjustments intensity] in *. split; [done|].
    eapply Forall_impl; [exact Hadj|]. intros a Ha. apply Hscale; [done| |].
    + pose proof (intensity_is_product text (base_intensity config)) as Hp.
      destruct (exclamation_factor_bounds text) as (He & _).
      assert (0 <= base_intensity config * exclamation_factor text) by nra.
      assert (0 <= base_intensity config * exclamation_factor text * caps_factor text
                   * profanity_factor text * repetition_factor text).
      { unfold caps_factor, profanity_factor, repetition_factor.
        destruct (PyStr.isupper text && _), (existsb _ _), (repetition_detected _); lra. }
      rewrite Hp. unfold Num.min. destruct (Qlt_le_dec _ _); lra.
    + apply Num.min_le_l.
  - unfold _word_level_sentiment_analysis.
    set (p := count_in positive_words _). set (n := count_in negative_words _).
    pose proof (of_nat_nonneg p). pose proof (of_nat_nonneg n).
    destruct ((0 <? p)%nat && (n <=? p)%nat);
      [|destruct ((0 <? n)%nat && (p <? n)%nat)];
      cbn [hormone_adjustments intensity map fst].
    + split; [repeat (apply NoDup_cons_2; [set_solver|]); apply NoDup_nil_2|].
      repeat (apply Forall_cons_2;
              [apply Hscale; [apply Qabs_Qle_condition; cbn; split; lra|..];
               unfold Num.min; destruct (Qlt_le_dec _ _); lra|]).
      apply Forall_nil_2.
    + split; [repeat (apply NoDup_cons_2; [set_solver|]); apply NoDup_nil_2|].
      repeat (apply Forall_cons_2;
              [apply Hscale; [apply Qabs_Qle_condition; cbn; split; lra|..];
               unfold Num.min; destruct (Qlt_le_dec _ _); lra|]).
      apply Forall_nil_2.
    + split; [apply NoDup_nil_2|apply Forall_nil_2].
Qed.

Lemma within_decay old mid :
  within 0.15 old mid -> within 0.16 old (decay_level mid).
Proof.
  pose proof (decay_level_within mid). unfold within in *. lra.
Qed.

(** X24. One call moves a level a little.  When the loaded record has its
    levels in [0,1], a call of [apply_contextual_hormone_adjustments] or of
    [adjust_hormones] that returns leaves every hormone of the record
    within 0.16 of where it was (0.15 at most for the adjustment, 0.01 for
    the decay), and neither adds nor drops a hormone. *)
Theorem one_call_moves_a_level_little (s : Store) :
  record_in_unit (loaded_hormones s) ->
  (forall text levels s',
      apply_contextual_hormone_adjustments text s = (Ok levels, s') ->
      forall hormone,
        match loaded_hormones s !! hormone with
        | Some old => exists new, levels !! hormone = Some new /\ Qabs (new - old) <= 0.16
        | None => levels !! hormone = None
        end) /\
  (forall event levels s',
      adjust_hormones event s = (Ok levels, s') ->
      forall hormone,
        match loaded_hormones s !! hormone with
        | Some old => exists new, levels !! hormone = Some new /\ Qabs (new - old) <= 0.16
        | None => levels !! hormone = None
        end).
Proof.
  intros Hu.
  assert (Habs : forall old new, within 0.16 old new -> Qabs (new - old) <= 0.16).
  { intros old new [? ?]. apply Qabs_Qle_condition. split; lra. }
  split.
  - intros text levels s' Hrun hormone.
    destruct (apply_contextual_hormone_adjustments_run text s) as (s1 & _ & Hcase).
    destruct (analysis_deltas_bounded text) as [Hnd Hb]. cbv zeta in Hnd, Hb.
    destruct (hormone_adjustments (analyze_contextual_sentiment text)) as [|a rest] eqn:Ha.
    + rewrite Hcase in Hrun. injection Hrun as <- _.
      destruct (loaded_hormones s !! hormone) as [old|]; [|done].
      exists old. split; [done|]. apply Habs. unfold within. lra.
    + destruct (apply_adjustments _ _ _) as [adjusted|e] eqn:Hadj;
        [|rewrite Hcase in Hrun; discriminate].
      destruct Hcase as (s2 & _ & Hrun'). rewrite Hrun' in Hrun. injection Hrun as <- _.
      unfold decay. rewrite lookup_fmap.
      destruct (loaded_hormones s !! hormone) as [old|] eqn:Hold.
      * destruct (apply_adjustments_within _ _ _ _ Hnd Hb Hu Hadj hormone old Hold)
          as (mid & -> & Hw & _).
        eexists. split; [done|]. by apply Habs, within_decay.
      * destruct (adjusted !! hormone) as [v|] eqn:Hv; [|done]. exfalso.
        clear -Hadj Hold Hv. revert Hadj Hold. generalize (loaded_hormones s).
        generalize (a :: rest). intros adjustments. induction adjustments as [|[h b] r IH];
          intros levels; [intros [= <-]; congruence|].
        cbn [apply_adjustments].
        destruct (update_level h _ levels) as [levels1|e] eqn:Hup; [|discriminate].
        cbn [bind Result_monad]. intros Hr Hnone. apply (IH levels1 Hr).
        by apply (update_level_keeps_missing _ _ _ _ hormone Hup).
  - intros event levels s' Hrun hormone.
    destruct (adjust_hormones_run event s) as (s1 & _ & Hcase).
    destruct (apply_event event (loaded_hormones s)) as [adjusted|e] eqn:Hadj;
      [|rewrite Hcase in Hrun; discriminate].
    destruct Hcase as (s2 & _ & Hrun'). rewrite Hrun' in Hrun. injection Hrun as <- _.
    unfold decay. rewrite lookup_fmap.
    destruct (loaded_hormones s !! hormone) as [old|] eqn:Hold.
    + destruct (apply_event_within _ _ _ Hu Hadj hormone old Hold) as (mid & -> & Hw).
      eexists. split; [done|]. by apply Habs, within_decay.
    + destruct (adjusted !! hormone) as [v|] eqn:Hv; [|done]. exfalso.
      revert Hadj. unfold apply_event. repeat case_decide;
        try (intros [= <-]; congruence);
        (destruct (update_level _ _ (loaded_hormones s)) as [levels1|e1] eqn:Hup1;
           [|discriminate]);
        cbn [bind Result_monad]; intros Hup2;
        apply (update_level_keeps_missing _ _ _ _ hormone Hup1) in Hold;
        apply (update_level_keeps_missing _ _ _ _ hormone Hup2) in Hold; congruence.
Qed.

Lemma one_call_moves_a_level_little_witness :
  exists levels s',
    adjust_hormones (Some "achievement") example_store = (Ok levels, s') /\
    exists new, levels !! "dopamine" = Some new /\ Qabs (new - 0.95) <= 0.16.
Proof.
  destruct (adjust_hormones (Some "achievement") example_store)
    as [[levels|e] s'] eqn:Hrun; [|by vm_compute in Hrun].
  exists levels, s'. split; [done|].
  exact (proj2 (one_call_moves_a_level_little example_store
                  (example_store_in_unit _ eq_refl)) _ _ _ Hrun "dopamine").
Defined.
